(** * The upload-to-review request pipeline of [src/server.js]

    A shallow embedding of the [POST /review] route: the multer upload
    stage with its [fileFilter], the asynchronous route handler with its
    validation, truncation, deadline-guarded backend call, artifact write,
    clean-up and error mapping.

    JavaScript strings are sequences of UTF-16 code units, so a string is a
    [list N] and [s.length] is the length of that list.  Effects (console,
    file system, clock, timers, the outbound [fetch], the HTTP response) are
    threaded through a state-and-exception monad that records every effect in
    a chronological trace.  What Express, multer, node-fetch and Node's
    timers and file system do is part of the model: each such definition
    says which behaviour of the library it stands for.  Line numbers refer
    to [src/server.js].

    Besides the route, the file embeds the health probe and the start-up
    checks of the same server, and the handlers of the two other servers
    kept in [src/server.js]: the single-step review server (module
    [Simple]) and the chat server (module [Chat]). *)

From Stdlib Require Import ZArith NArith List String Ascii Bool Lia.
From Stdlib Require Import Decimal DecimalString.
From stdpp Require Import base option list gmap.
Import ListNotations.

Local Open Scope Z_scope.

(** ** JavaScript strings *)

Module Js.

(** A string literal of the source, as code units (the literals embedded
    here are ASCII, where a byte is a code unit). *)
Definition lit (s : string) : list N :=
  List.map N_of_ascii (list_ascii_of_string s).

(** [s.length] *)
Definition strlen (s : list N) : Z := Z.of_nat (length s).

(** [s.substring(start, end)]: both indices are clamped to [0, s.length]
    and swapped when [start > end]. *)
Definition substring (s : list N) (start end_ : Z) : list N :=
  let len := strlen s in
  let a := Z.min (Z.max start 0) len in
  let b := Z.min (Z.max end_ 0) len in
  let from := Z.min a b in
  let to := Z.max a b in
  firstn (Z.to_nat (to - from)) (skipn (Z.to_nat from) s).

(** Is [p] a prefix of [s]? *)
Fixpoint starts_with (p s : list N) : bool :=
  match p, s with
  | [], _ => true
  | _ :: _, [] => false
  | x :: p', y :: s' => N.eqb x y && starts_with p' s'
  end.

(** [s.includes(needle)] *)
Fixpoint includes (needle s : list N) : bool :=
  starts_with needle s ||
  match s with
  | [] => false
  | _ :: s' => includes needle s'
  end.

(** WhiteSpace and LineTerminator code points of ECMAScript, the
    characters removed by [String.prototype.trim]. *)
Definition is_whitespace (c : N) : bool :=
  let c := Z.of_N c in
  ((9 <=? c) && (c <=? 13))          (* TAB, LF, VT, FF, CR *)
  || (c =? 32) || (c =? 160)         (* SP, NBSP *)
  || (c =? 5760)                     (* U+1680 *)
  || ((8192 <=? c) && (c <=? 8202))  (* U+2000 .. U+200A *)
  || (c =? 8232) || (c =? 8233)      (* LS, PS *)
  || (c =? 8239) || (c =? 8287)      (* U+202F, U+205F *)
  || (c =? 12288) || (c =? 65279).   (* U+3000, BOM *)

Fixpoint trim_start (s : list N) : list N :=
  match s with
  | [] => []
  | c :: s' => if is_whitespace c then trim_start s' else s
  end.

(** [s.trim()] *)
Definition trim (s : list N) : list N :=
  rev (trim_start (rev (trim_start s))).

(** [String(n)] for an integer [n]. *)
Definition of_int (n : Z) : list N :=
  lit (NilZero.string_of_int (Z.to_int n)).

(** The decimal digits of a fraction of three places, trailing zeros
    dropped. *)
Definition millis_digits (r : Z) : list N :=
  let d1 := r / 100 in
  let d2 := (r / 10) mod 10 in
  let d3 := r mod 10 in
  let dig d := Z.to_N (48 + d) in
  if d3 =? 0 then
    if d2 =? 0 then [dig d1] else [dig d1; dig d2]
  else [dig d1; dig d2; dig d3].

(** [String(n / 1000)] for an integer [n]: the quotient is printed as its
    exact decimal expansion.  This is what Number-to-string conversion
    yields for integers of magnitude below [10^15], the range this
    definition stands for; from there on JavaScript prints the digits of
    the nearest double (and an exponent from [10^21] on), so for such a
    timeout the digits inside a message differ from the ones given
    here.  Nothing but the text of messages depends on it. *)
Definition of_thousandths (n : Z) : list N :=
  let a := Z.abs n in
  let sign := if n <? 0 then lit "-" else [] in
  let whole := of_int (a / 1000) in
  let r := a mod 1000 in
  if r =? 0 then sign ++ whole
  else sign ++ whole ++ lit "." ++ millis_digits r.

(** Upper-casing used by a case-insensitive regular expression without
    the [u] flag; on the ASCII pattern letters used here it only folds
    [a-z] onto [A-Z]. *)
Definition canonicalize (c : N) : N :=
  if (N.leb 97 c && N.leb c 122)%bool then (c - 32)%N else c.

(** Does [s] end with [suffix], ignoring ASCII case? *)
Definition ends_with_ci (suffix s : list N) : bool :=
  starts_with (rev (List.map canonicalize suffix))
              (rev (List.map canonicalize s)).

(** [path.basename(p)] on POSIX: trailing slashes are dropped and the
    part after the last remaining slash is kept. *)
Fixpoint drop_slashes (s : list N) : list N :=
  match s with
  | [] => []
  | c :: s' => if N.eqb c 47 then drop_slashes s' else s
  end.

Fixpoint take_segment (s : list N) : list N :=
  match s with
  | [] => []
  | c :: s' => if N.eqb c 47 then [] else c :: take_segment s'
  end.

Definition basename (p : list N) : list N :=
  rev (take_segment (drop_slashes (rev p))).

End Js.

Arguments Js.lit : simpl never.

Abbreviation jsstring := (list N) (only parsing).

Definition nl : jsstring := [10%N].

(** ** Configuration (lines 8-12) *)

(** The recognised environment options.  [env_REQUEST_TIMEOUT] is the value
    of [parseInt(process.env.REQUEST_TIMEOUT)], [None] standing for [NaN]
    (the variable is unset or does not start with a number). *)
Record environment := {
  env_OLLAMA_URL : option jsstring;
  env_OLLAMA_MODEL : option jsstring;
  env_REQUEST_TIMEOUT : option Z
}.

(** [x || d] for an optional string: unset and empty are both falsy. *)
Definition or_default (x : option jsstring) (d : jsstring) : jsstring :=
  match x with
  | Some ((_ :: _) as s) => s
  | _ => d
  end.

Section Config.

Variable env : environment.

Definition OLLAMA_URL : jsstring :=
  or_default (env_OLLAMA_URL env) (Js.lit "http://localhost:11434").

Definition OLLAMA_MODEL : jsstring :=
  or_default (env_OLLAMA_MODEL env) (Js.lit "llama3.2:1b").

Definition PREVIEW_LENGTH : Z := 300.

(** [parseInt(...) || 120000]: [NaN] and [0] are falsy. *)
Definition REQUEST_TIMEOUT : Z :=
  match env_REQUEST_TIMEOUT env with
  | Some t => if t =? 0 then 120000 else t
  | None => 120000
  end.

End Config.

(** The environment in which every option is left unset. *)
Definition default_env : environment :=
  {| env_OLLAMA_URL := None; env_OLLAMA_MODEL := None;
     env_REQUEST_TIMEOUT := None |}.

(** ** Values exchanged with the outside *)

(** JSON values as the handler builds them.  [JDec m k] is the number
    [m / 10^k]. *)
#[warnings="-register-all"]
Inductive json :=
| JNull
| JBool (b : bool)
| JNum (n : Z)
| JDec (mantissa : Z) (places : nat)
| JStr (s : jsstring)
| JObj (fields : list (jsstring * json)).

(** [obj.key] for a JSON value; [None] is [undefined]. *)
Fixpoint assoc (key : jsstring) (fields : list (jsstring * json)) : option json :=
  match fields with
  | [] => None
  | (k, v) :: rest =>
      if decide (k = key) then Some v else assoc key rest
  end.

Definition field (key : string) (j : json) : option json :=
  match j with
  | JObj fields => assoc (Js.lit key) fields
  | _ => None
  end.

(** A JavaScript [Error]: its [name] and its [message]. *)
Record js_error := {
  err_name : jsstring;
  err_message : jsstring
}.

Definition Error (message : jsstring) : js_error :=
  {| err_name := Js.lit "Error"; err_message := message |}.

(** What the route sends back: a JSON document ([res.json]) or the page
    Express renders for an error nobody handled. *)
Inductive body :=
| JsonBody (j : json)
| ErrorPage (e : js_error).

(** What the body of a backend reply gives the code that reads it, once
    the headers are there.  A body that arrives in full is either not
    JSON ([await response.json()] rejects, [await response.text()] yields
    the text) or parses to an object, of which the handler reads only the
    [response] property (a string when present, as in the [/api/generate]
    reply format).  A body that never completes leaves both reads
    pending for ever; a connection that fails while the body is read
    makes both reject. *)
Inductive parsed_body :=
| NotJson (e : js_error)
| Data (response : option jsstring)
| Unfinished
| Broken (e : js_error).

(** A reply of the inference backend: the status of its headers, and its
    body as the two reads find it. *)
Record http_response := {
  status : Z;
  body_text : jsstring;       (* the text of a body that arrives in full *)
  body_json : parsed_body
}.

(** [response.ok] *)
Definition ok (r : http_response) : bool :=
  (200 <=? status r) && (status r <=? 299).

(** How the outbound call would end if nobody cancelled it: after
    [latency] milliseconds ([None]: never) it resolves with a reply (its
    headers are there; the body is read afterwards) or rejects with a
    network failure. *)
Inductive settlement :=
| Resolves (r : http_response)
| Rejects (reason : jsstring).

Record backend := {
  latency : option Z;
  settles : settlement
}.

(** ** Requests *)

(** One file of a multipart body: the form field that carries it, the
    client's file name, its size in bytes and its bytes decoded as UTF-8
    (what [fs.readFile(path, "utf-8")] returns once it is stored). *)
Record file_part := {
  fieldname : jsstring;
  originalname : jsstring;
  size : Z;
  text : jsstring
}.

Inductive part :=
| TextField (name value : jsstring)
| FilePart (f : file_part).

(** A [POST /review] request: the parts of its multipart body, in order
    (none when the body is not multipart). *)
Definition request := list part.

(** [req.file] as multer leaves it. *)
Record multer_file := {
  mf_originalname : jsstring;
  mf_path : jsstring;
  mf_size : Z
}.

(** ** Effects *)

(** One constructor per [console.log] / [console.error] call of the
    route, with the values it interpolates. *)
Inductive console_line :=
| LogFileUpload (originalname : jsstring)
| LogStarting (requestId : Z)
| LogFile (requestId : Z) (originalname : jsstring) (size : Z)
| LogContentRead (requestId : Z) (chars : Z)
| LogSending (requestId : Z) (timeout : Z)
| LogTimedOut (requestId : Z) (timeout : Z)
| LogResponseReceived (requestId : Z) (duration : Z) (status : Z)
| LogOllamaError (requestId : Z) (status : Z) (errorText : jsstring)
| LogInvalidResponse (requestId : Z)
| LogReviewGenerated (requestId : Z) (chars : Z) (duration : Z)
| LogSaved (requestId : Z) (mdPath : jsstring)
| LogCleanedUp (filePath : jsstring)
| LogCleanupFailed (filePath : jsstring) (message : jsstring)
| LogCompleted (requestId : Z)
| LogFailed (requestId : Z) (message : jsstring).

Inductive event :=
| EvConsole (l : console_line)
| EvStore (path : jsstring)                    (* multer writes the upload *)
| EvReadFile (path : jsstring)                 (* fs.readFile *)
| EvWriteFile (path : jsstring) (content : jsstring)   (* fs.writeFile *)
| EvUnlink (path : jsstring)                   (* fs.unlink *)
| EvSetTimeout (delay : Z)
| EvClearTimeout
| EvAbort                                      (* controller.abort() *)
| EvFetch (url : jsstring) (request_body : json)   (* the POST to the backend *)
| EvRespond (status : Z) (b : body).

Inductive fs_op := OpRead | OpWrite | OpUnlink.

(** What the handler does not control: the clock, the name multer draws
    for the temporary file, the backend, faults of the file system on
    existing paths (permissions, I/O errors) and the formatting of dates. *)
Record runtime := {
  rt_clock : nat -> Z;                        (* the n-th reading of Date.now() *)
  rt_tmpname : jsstring;
  rt_backend : backend;
  rt_fault : fs_op -> jsstring -> option jsstring;
  rt_toISOString : Z -> jsstring
}.

(** A timer armed by [setTimeout]: its delay and what its callback does,
    as the effects it performs ([EvAbort] is [controller.abort()]). *)
Record timer := {
  tm_delay : Z;
  tm_callback : list event
}.

Record state := {
  st_trace : list event;                      (* oldest first *)
  st_fs : gmap (list N) (list N);             (* path -> text *)
  st_reads : nat;                             (* clock readings so far *)
  st_timer : option timer;                    (* the pending timer *)
  st_filePath : option jsstring               (* the handler's [let filePath] *)
}.

Inductive outcome (A : Type) :=
| Returns (a : A)
| Throws (e : js_error)
| Hangs.                                      (* an awaited promise never settles *)

Arguments Returns {A} a.
Arguments Throws {A} e.
Arguments Hangs {A}.

Definition M (A : Type) : Type := state -> outcome A * state.

Definition ret {A} (a : A) : M A := fun s => (Returns a, s).

Definition bind {A B} (m : M A) (k : A -> M B) : M B :=
  fun s =>
    match m s with
    | (Returns a, s') => k a s'
    | (Throws e, s') => (Throws e, s')
    | (Hangs, s') => (Hangs, s')
    end.

Definition throw {A} (e : js_error) : M A := fun s => (Throws e, s).

(** [try { m } catch (error) { h error }] *)
Definition try_catch {A} (m : M A) (h : js_error -> M A) : M A :=
  fun s =>
    match m s with
    | (Throws e, s') => h e s'
    | r => r
    end.

Declare Scope js_scope.
Delimit Scope js_scope with js.
Notation "x <- m ;; k" := (bind m (fun x => k))
  (at level 100, m at next level, right associativity) : js_scope.
Notation "m ;; k" := (bind m (fun _ => k))
  (at level 100, right associativity) : js_scope.
Local Open Scope js_scope.

(** [if (c) throw e;] *)
Definition throw_if (c : bool) (e : js_error) : M unit :=
  if c then throw e else ret tt.

Definition emit (e : event) : M unit :=
  fun s =>
    (Returns tt,
     {| st_trace := st_trace s ++ [e]; st_fs := st_fs s;
        st_reads := st_reads s; st_timer := st_timer s;
        st_filePath := st_filePath s |}).

Definition console (l : console_line) : M unit := emit (EvConsole l).

Definition set_fs (fs : gmap (list N) (list N)) : M unit :=
  fun s =>
    (Returns tt,
     {| st_trace := st_trace s; st_fs := fs;
        st_reads := st_reads s; st_timer := st_timer s;
        st_filePath := st_filePath s |}).

Definition set_timer (t : option timer) : M unit :=
  fun s =>
    (Returns tt,
     {| st_trace := st_trace s; st_fs := st_fs s;
        st_reads := st_reads s; st_timer := t;
        st_filePath := st_filePath s |}).

Definition set_filePath (p : option jsstring) : M unit :=
  fun s =>
    (Returns tt,
     {| st_trace := st_trace s; st_fs := st_fs s;
        st_reads := st_reads s; st_timer := st_timer s;
        st_filePath := p |}).

Definition get {A} (proj : state -> A) : M A := fun s => (Returns (proj s), s).

Definition emit_all (es : list event) : M unit :=
  fun s =>
    (Returns tt,
     {| st_trace := st_trace s ++ es; st_fs := st_fs s;
        st_reads := st_reads s; st_timer := st_timer s;
        st_filePath := st_filePath s |}).

(** [await m], turning a rejection into a value. *)
Definition attempt {A} (m : M A) : M (js_error + A) :=
  try_catch (a <- m ;; ret (inr a)) (fun e => ret (inl e)).

(** [await] on a promise that never settles. *)
Definition hang {A} : M A := fun s => (Hangs, s).

(** [await response.text()] *)
Definition response_text (response : http_response) : M jsstring :=
  match body_json response with
  | Unfinished => hang
  | Broken e => throw e
  | NotJson _ | Data _ => ret (body_text response)
  end.

(** [await response.json()], as far as the handler reads the result: its
    [response] property. *)
Definition response_json (response : http_response) : M (option jsstring) :=
  match body_json response with
  | Unfinished => hang
  | Broken e | NotJson e => throw e
  | Data response_field => ret response_field
  end.

(** ** The runtime's primitives *)

Section Runtime.

Variable rt : runtime.

(** [Date.now()] *)
Definition Date_now : M Z :=
  fun s =>
    (Returns (rt_clock rt (st_reads s)),
     {| st_trace := st_trace s; st_fs := st_fs s;
        st_reads := S (st_reads s); st_timer := st_timer s;
        st_filePath := st_filePath s |}).

Definition ENOENT (syscall : string) (path : jsstring) : js_error :=
  Error (Js.lit "ENOENT: no such file or directory, " ++ Js.lit syscall
         ++ Js.lit " '" ++ path ++ Js.lit "'").

(** [await fs.readFile(path, "utf-8")] *)
Definition fs_readFile (path : jsstring) : M jsstring :=
  emit (EvReadFile path) ;;
  fs <- get st_fs ;;
  match fs !! path with
  | None => throw (ENOENT "open" path)
  | Some content =>
      match rt_fault rt OpRead path with
      | Some message => throw (Error message)
      | None => ret content
      end
  end.

(** [await fs.writeFile(path, content)]; the event records a write that
    took place. *)
Definition fs_writeFile (path content : jsstring) : M unit :=
  match rt_fault rt OpWrite path with
  | Some message => throw (Error message)
  | None =>
      emit (EvWriteFile path content) ;;
      fs <- get st_fs ;;
      set_fs (<[path := content]> fs)
  end.

(** [await fs.unlink(path)] *)
Definition fs_unlink (path : jsstring) : M unit :=
  emit (EvUnlink path) ;;
  fs <- get st_fs ;;
  match fs !! path with
  | None => throw (ENOENT "unlink" path)
  | Some _ =>
      match rt_fault rt OpUnlink path with
      | Some message => throw (Error message)
      | None => set_fs (delete path fs)
      end
  end.

(** The delay Node gives a timer: one millisecond when the requested
    delay is below 1 or above [2^31 - 1]. *)
Definition timer_delay (requested : Z) : Z :=
  if (1 <=? requested) && (requested <=? 2147483647) then requested else 1.

(** [setTimeout(callback, delay)] *)
Definition setTimeout (callback : list event) (delay : Z) : M unit :=
  emit (EvSetTimeout delay) ;;
  set_timer (Some {| tm_delay := timer_delay delay; tm_callback := callback |}).

(** [clearTimeout(timeoutId)] *)
Definition clearTimeout : M unit :=
  emit EvClearTimeout ;;
  set_timer None.

(** Does a timer of delay [d], armed when the call starts, fire before a
    call that needs [lat] milliseconds settles? *)
Definition fires_first (d : Z) (lat : option Z) : bool :=
  match lat with
  | None => true
  | Some l => d <=? l
  end.

Definition aborts (callback : list event) : bool :=
  existsb (fun e => match e with EvAbort => true | _ => false end) callback.

Definition AbortError : js_error :=
  {| err_name := Js.lit "AbortError";
     err_message := Js.lit "The operation was aborted." |}.

Definition FetchError (url reason : jsstring) : js_error :=
  {| err_name := Js.lit "FetchError";
     err_message := Js.lit "request to " ++ url ++ Js.lit " failed, reason: "
                    ++ reason |}.

(** The call left alone: it settles as the backend decides, or never. *)
Definition settle (url : jsstring) : M http_response :=
  match latency (rt_backend rt) with
  | None => fun s => (Hangs, s)
  | Some _ =>
      match settles (rt_backend rt) with
      | Resolves r => ret r
      | Rejects reason => throw (FetchError url reason)
      end
  end.

(** [await fetch(url, { ..., signal: controller.signal, body })]: the call
    races the pending timer; when the timer fires first its callback runs,
    and a callback that aborts the controller makes the call reject with
    an [AbortError]. *)
Definition fetch (url : jsstring) (request_body : json) : M http_response :=
  emit (EvFetch url request_body) ;;
  pending <- get st_timer ;;
  match pending with
  | Some tm =>
      if fires_first (tm_delay tm) (latency (rt_backend rt)) then
        emit_all (tm_callback tm) ;;
        set_timer None ;;
        if aborts (tm_callback tm) then throw AbortError else settle url
      else settle url
  | None => settle url
  end.

(** A timer still pending when the handler is done fires afterwards. *)
Definition flush_timer : M unit :=
  pending <- get st_timer ;;
  match pending with
  | Some tm => emit_all (tm_callback tm) ;; set_timer None
  | None => ret tt
  end.

(** [res.status(code).json(j)] *)
Definition respond (code : Z) (j : json) : M unit :=
  emit (EvRespond code (JsonBody j)).

End Runtime.

(** ** The upload stage (lines 81-96) *)

(** The alternatives of the [allowedTypes] pattern. *)
Definition extensions : list string :=
  ["js"; "ts"; "py"; "java"; "cpp"; "c"; "go"; "rs"; "php"; "rb"; "jsx";
   "tsx"; "html"; "css"; "json"; "yaml"; "yml"]%string.

(** [allowedTypes.test(name)]: the name ends, ignoring case, with a dot
    followed by one of the alternatives. *)
Definition allowedTypes_test (name : jsstring) : bool :=
  existsb (fun ext => Js.ends_with_ci (Js.lit "." ++ Js.lit ext) name)
          extensions.

Definition only_code_files : jsstring := Js.lit "Only code files are allowed".

(** The [fileFilter] option: [cb(null, true)] is a return of [true],
    [cb(error)] a throw. *)
Definition fileFilter (file : file_part) : M bool :=
  console (LogFileUpload (originalname file)) ;;
  if allowedTypes_test (originalname file) then ret true
  else throw (Error only_code_files).

(** [limits.fileSize] *)
Definition fileSize_limit : Z := 2 * 1024 * 1024.

Definition MulterError (message : string) : js_error :=
  {| err_name := Js.lit "MulterError"; err_message := Js.lit message |}.

(** How a middleware hands over: [next()] with [req.file] as it stands, or
    [next(error)]. *)
Inductive next :=
| Next (file : option multer_file)
| NextError (e : js_error).

Section Upload.

Variable rt : runtime.

(** The temporary path: [dest] joined with the name multer drew. *)
Definition upload_path : jsstring := Js.lit "uploads/" ++ rt_tmpname rt.

(** multer gives up: what it stored is removed and the error is passed
    to [next]. *)
Definition abort_upload (e : js_error) (stored : option multer_file) : M next :=
  match stored with
  | Some f =>
      emit (EvUnlink (mf_path f)) ;;
      fs <- get st_fs ;;
      set_fs (delete (mf_path f) fs) ;;
      ret (NextError e)
  | None => ret (NextError e)
  end.

(** [upload.single("file")] over the parts of the body.  [filesLeft] is
    the number of files the field [file] may still carry (one at first);
    a part without a file name is skipped, a file in another field or
    beyond the count is an unexpected file, and an error of the
    [fileFilter] or a file above [limits.fileSize] aborts the upload. *)
Fixpoint multer_parts (parts : list part) (filesLeft : Z)
         (stored : option multer_file) : M next :=
  match parts with
  | [] => ret (Next stored)
  | TextField _ _ :: rest => multer_parts rest filesLeft stored
  | FilePart f :: rest =>
      match originalname f with
      | [] => multer_parts rest filesLeft stored
      | _ :: _ =>
          if negb (bool_decide (fieldname f = Js.lit "file"))
             || (filesLeft <=? 0) then
            abort_upload (MulterError "Unexpected field") stored
          else
            r <- attempt (fileFilter f) ;;
            match r with
            | inl e => abort_upload e stored
            | inr false => multer_parts rest (filesLeft - 1) stored
            | inr true =>
                emit (EvStore upload_path) ;;
                fs <- get st_fs ;;
                set_fs (<[upload_path := text f]> fs) ;;
                let info := {| mf_originalname := originalname f;
                               mf_path := upload_path;
                               mf_size := size f |} in
                if fileSize_limit <? size f then
                  abort_upload (MulterError "File too large") (Some info)
                else multer_parts rest (filesLeft - 1) (Some info)
            end
      end
  end.

Definition upload_single (req : request) : M next :=
  multer_parts req 1 None.

End Upload.

(** ** The route handler (lines 115-280) *)

Definition truncation_marker : jsstring :=
  nl ++ nl ++ Js.lit "// ... (file truncated for review)".

(** Lines 152-154. *)
Definition truncatedContent (fileContent : jsstring) : jsstring :=
  if Js.strlen fileContent >? 5000
  then Js.substring fileContent 0 5000 ++ truncation_marker
  else fileContent.

(** Lines 165-173. *)
Definition optimizedPrompt (originalname content : jsstring) : jsstring :=
  Js.lit "Review this " ++ originalname
  ++ Js.lit " file. Provide brief feedback on:" ++ nl
  ++ Js.lit "1. Code quality issues" ++ nl
  ++ Js.lit "2. Potential bugs" ++ nl
  ++ Js.lit "3. Best practice suggestions" ++ nl
  ++ nl
  ++ Js.lit "Keep response concise and under 500 words." ++ nl
  ++ nl
  ++ Js.lit "Code:" ++ nl
  ++ content.

(** Lines 247-249. *)
Definition reviewPreview (reviewComments : jsstring) : jsstring :=
  if Js.strlen reviewComments >? PREVIEW_LENGTH
  then Js.substring reviewComments 0 PREVIEW_LENGTH ++ Js.lit "..."
  else reviewComments.

(** The character class [[^a-zA-Z0-9.-]] of line 217. *)
Definition unsafe_char (c : N) : bool :=
  let c := Z.of_N c in
  negb (((97 <=? c) && (c <=? 122)) || ((65 <=? c) && (c <=? 90))
        || ((48 <=? c) && (c <=? 57)) || (c =? 46) || (c =? 45)).

(** Line 217. *)
Definition sanitizedFilename (originalname : jsstring) : jsstring :=
  List.map (fun c => if unsafe_char c then 95%N else c)
           (Js.basename originalname).

(** Line 218. *)
Definition mdPath (timestamp : Z) (originalname : jsstring) : jsstring :=
  Js.lit "uploads/" ++ Js.lit "review_" ++ Js.of_int timestamp ++ Js.lit "_"
  ++ sanitizedFilename originalname ++ Js.lit ".md".

Section Handler.

Variable env : environment.
Variable rt : runtime.

(** Lines 115-122: the removal may fail; the failure is logged and
    swallowed. *)
Definition cleanupFile (filePath : jsstring) : M unit :=
  try_catch
    (fs_unlink rt filePath ;;
     console (LogCleanedUp filePath))
    (fun error => console (LogCleanupFailed filePath (err_message error))).

(** Lines 220-234. *)
Definition reviewContent (file : multer_file) (iso : jsstring) (duration : Z)
           (reviewComments fileContent : jsstring) : jsstring :=
  Js.lit "# Code Review: " ++ mf_originalname file ++ nl
  ++ nl
  ++ Js.lit "**Generated by:** " ++ OLLAMA_MODEL env ++ Js.lit "  " ++ nl
  ++ Js.lit "**Timestamp:** " ++ iso ++ Js.lit "  " ++ nl
  ++ Js.lit "**Processing time:** " ++ Js.of_int duration ++ Js.lit "ms  " ++ nl
  ++ Js.lit "**File size:** " ++ Js.of_int (mf_size file) ++ Js.lit " bytes  " ++ nl
  ++ nl
  ++ Js.lit "---" ++ nl
  ++ nl
  ++ reviewComments ++ nl
  ++ nl
  ++ Js.lit "---" ++ nl
  ++ nl
  ++ Js.lit "*Original file "
  ++ (if Js.strlen fileContent >? 5000 then Js.lit "was truncated"
      else Js.lit "reviewed in full")
  ++ Js.lit "*" ++ nl.

(** The body of the request sent to [/api/generate] (lines 181-191). *)
Definition generate_request (prompt : jsstring) : json :=
  JObj [ (Js.lit "model", JStr (OLLAMA_MODEL env));
         (Js.lit "prompt", JStr prompt);
         (Js.lit "stream", JBool false);
         (Js.lit "options",
          JObj [ (Js.lit "num_predict", JNum 800);
                 (Js.lit "temperature", JDec 3 1);
                 (Js.lit "top_p", JDec 9 1);
                 (Js.lit "repeat_penalty", JDec 11 1) ]) ].

(** The callback of the deadline timer (lines 159-162). *)
Definition on_deadline (requestId : Z) : list event :=
  [ EvConsole (LogTimedOut requestId (REQUEST_TIMEOUT env)); EvAbort ].

(** The [try] block, lines 132-253. *)
Definition review_try (req_file : option multer_file) (requestId : Z) : M unit :=
  match req_file with
  | None =>
      respond 400 (JObj [ (Js.lit "error", JStr (Js.lit "No file uploaded")) ])
  | Some file =>
      set_filePath (Some (mf_path file)) ;;
      console (LogFile requestId (mf_originalname file) (mf_size file)) ;;
      fileContent <- fs_readFile rt (mf_path file) ;;
      console (LogContentRead requestId (Js.strlen fileContent)) ;;
      throw_if (Js.strlen (Js.trim fileContent) =? 0)
               (Error (Js.lit "File appears to be empty")) ;;
      throw_if (Js.strlen fileContent >? 10000)
               (Error (Js.lit "File too large for review (max 10KB). Please upload smaller files.")) ;;
      let truncated := truncatedContent fileContent in
      console (LogSending requestId (REQUEST_TIMEOUT env)) ;;
      setTimeout (on_deadline requestId) (REQUEST_TIMEOUT env) ;;
      let prompt := optimizedPrompt (mf_originalname file) truncated in
      startTime <- Date_now rt ;;
      response <- fetch rt (OLLAMA_URL env ++ Js.lit "/api/generate")
                        (generate_request prompt) ;;
      clearTimeout ;;
      finish <- Date_now rt ;;
      let duration := finish - startTime in
      console (LogResponseReceived requestId duration (status response)) ;;
      (if negb (ok response) then
         errorText <- response_text response ;;
         console (LogOllamaError requestId (status response) errorText) ;;
         throw (Error (Js.lit "Ollama API error: " ++ Js.of_int (status response)
                       ++ Js.lit " - " ++ errorText))
       else ret tt) ;;
      data <- response_json response ;;
      match data with
      | None | Some [] =>
          console (LogInvalidResponse requestId) ;;
          throw (Error (Js.lit "Invalid response from Ollama API"))
      | Some reviewComments =>
          console (LogReviewGenerated requestId (Js.strlen reviewComments) duration) ;;
          timestamp <- Date_now rt ;;
          let path := mdPath timestamp (mf_originalname file) in
          written <- Date_now rt ;;
          fs_writeFile rt path
            (reviewContent file (rt_toISOString rt written) duration
                           reviewComments fileContent) ;;
          console (LogSaved requestId path) ;;
          cleanupFile (mf_path file) ;;
          console (LogCompleted requestId) ;;
          respond 200
            (JObj [ (Js.lit "message", JStr (Js.lit "Review generated successfully"));
                    (Js.lit "model", JStr (OLLAMA_MODEL env));
                    (Js.lit "processingTime", JStr (Js.of_int duration ++ Js.lit "ms"));
                    (Js.lit "reviewFile", JStr path);
                    (Js.lit "reviewPreview", JStr (reviewPreview reviewComments));
                    (Js.lit "originalFile", JStr (mf_originalname file));
                    (Js.lit "requestId", JNum requestId);
                    (Js.lit "truncated", JBool (Js.strlen fileContent >? 5000)) ])
      end
  end.

(** The [catch] block, lines 255-279. *)
Definition review_catch (requestId : Z) (error : js_error) : M unit :=
  console (LogFailed requestId (err_message error)) ;;
  filePath <- get st_filePath ;;
  match filePath with
  | Some p => cleanupFile p
  | None => ret tt
  end ;;
  if Js.includes only_code_files (err_message error) then
    respond 400 (JObj [ (Js.lit "error", JStr (err_message error)) ])
  else if bool_decide (err_name error = Js.lit "AbortError") then
    respond 408
      (JObj [ (Js.lit "error",
               JStr (Js.lit "Request timeout - Model took longer than "
                     ++ Js.of_thousandths (REQUEST_TIMEOUT env)
                     ++ Js.lit " seconds"));
              (Js.lit "suggestion",
               JStr (Js.lit "Try uploading a smaller file or increase REQUEST_TIMEOUT environment variable"));
              (Js.lit "requestId", JNum requestId) ])
  else
    respond 500
      (JObj [ (Js.lit "error", JStr (Js.lit "Failed to generate review"));
              (Js.lit "details", JStr (err_message error));
              (Js.lit "requestId", JNum requestId) ]).

(** The handler registered by [app.post("/review", ...)], lines 125-280. *)
Definition review_handler (req_file : option multer_file) : M unit :=
  set_filePath None ;;
  requestId <- Date_now rt ;;
  console (LogStarting requestId) ;;
  try_catch (review_try req_file requestId) (review_catch requestId).

(** Express for an error passed to [next] that no middleware handles:
    the error carries no status of its own, so the reply is a 500. *)
Definition default_error_handler (e : js_error) : M unit :=
  emit (EvRespond 500 (ErrorPage e)).

(** [app.post("/review", upload.single("file"), handler)]: the handler
    runs only when the upload stage calls [next()] without an error. *)
Definition review_route (req : request) : M unit :=
  n <- upload_single rt req ;;
  match n with
  | Next file => review_handler file
  | NextError e => default_error_handler e
  end ;;
  flush_timer.

End Handler.

(** ** Running a request *)

Definition initial_state (fs : gmap (list N) (list N)) : state :=
  {| st_trace := []; st_fs := fs; st_reads := 0%nat; st_timer := None;
     st_filePath := None |}.

(** The route run on a request, from a file system [fs]. *)
Definition run (env : environment) (rt : runtime)
           (fs : gmap (list N) (list N)) (req : request) : outcome unit * state :=
  review_route env rt req (initial_state fs).

Definition trace_of (r : outcome unit * state) : list event := st_trace (snd r).

Definition fs_of (r : outcome unit * state) : gmap (list N) (list N) := st_fs (snd r).

(** The replies sent, in order. *)
Definition responses (t : list event) : list (Z * body) :=
  omap (fun e => match e with EvRespond c b => Some (c, b) | _ => None end) t.

(** The outbound calls issued, in order. *)
Definition backend_calls (t : list event) : list (jsstring * json) :=
  omap (fun e => match e with EvFetch u b => Some (u, b) | _ => None end) t.

(** The artifacts written, in order. *)
Definition artifacts (t : list event) : list (jsstring * jsstring) :=
  omap (fun e => match e with EvWriteFile p c => Some (p, c) | _ => None end) t.

(** The files read, in order. *)
Definition reads (t : list event) : list jsstring :=
  omap (fun e => match e with EvReadFile p => Some p | _ => None end) t.

(** ** What a request uploads *)

(** The files of a body that multer looks at: those with a file name. *)
Fixpoint named_files (req : request) : list file_part :=
  match req with
  | [] => []
  | TextField _ _ :: rest => named_files rest
  | FilePart f :: rest =>
      match originalname f with
      | [] => named_files rest
      | _ :: _ => f :: named_files rest
      end
  end.

(** The request uploads the file [f]: it is the only file of the body, it
    comes in the field [file], its name passes the filter and its size the
    transport limit, so that multer stores it and hands it to the handler. *)
Record uploads (req : request) (f : file_part) : Prop := {
  up_only : named_files req = [f];
  up_field : fieldname f = Js.lit "file";
  up_allowed : allowedTypes_test (originalname f) = true;
  up_size : size f <= fileSize_limit
}.

(** The state in which the handler starts on an upload. *)
Definition stored_state (rt : runtime) (fs : gmap (list N) (list N))
           (f : file_part) : state :=
  {| st_trace := [EvConsole (LogFileUpload (originalname f));
                  EvStore (upload_path rt)];
     st_fs := <[upload_path rt := text f]> fs;
     st_reads := 0%nat; st_timer := None; st_filePath := None |}.

Definition stored_file (rt : runtime) (f : file_part) : multer_file :=
  {| mf_originalname := originalname f; mf_path := upload_path rt;
     mf_size := size f |}.

(** The name carries an extension of the allow-list: it ends with a dot
    followed by one of the listed extensions, in any letter case. *)
Definition has_allowed_extension (name : list N) : Prop :=
  exists stem ext e,
    name = stem ++ 46%N :: ext
    /\ In e extensions
    /\ List.map Js.canonicalize ext = List.map Js.canonicalize (Js.lit e).

(** The events that precede the first reply. *)
Fixpoint before_response (t : list event) : list event :=
  match t with
  | [] => []
  | EvRespond _ _ :: _ => []
  | e :: rest => e :: before_response rest
  end.

(** The text consists of white space only (an empty text included). *)
Definition blank (s : jsstring) : Prop :=
  Forall (fun c => Js.is_whitespace c = true) s.

(** The same upload with no content at all. *)
Definition emptied (f : file_part) : file_part :=
  {| fieldname := fieldname f; originalname := originalname f;
     size := size f; text := [] |}.


(** The body of the reply arrives in full. *)
Definition arrives (r : http_response) : Prop :=
  match body_json r with
  | Unfinished | Broken _ => False
  | NotJson _ | Data _ => True
  end.

(** The backend returns the reply [r]: the call resolves with it before
    the deadline timer fires, and the body of [r] arrives in full. *)
Definition backend_returns (env : environment) (rt : runtime)
           (r : http_response) : Prop :=
  exists l, latency (rt_backend rt) = Some l
            /\ l < timer_delay (REQUEST_TIMEOUT env)
            /\ settles (rt_backend rt) = Resolves r
            /\ arrives r.

(** The body of the backend's reply never completes: the headers arrive
    before the deadline, so the timer is cleared (line 194), and the read
    of the body (line 200 or 205) stays pending. *)
Definition body_stalls (env : environment) (rt : runtime) : Prop :=
  exists l r, latency (rt_backend rt) = Some l
              /\ l < timer_delay (REQUEST_TIMEOUT env)
              /\ settles (rt_backend rt) = Resolves r
              /\ body_json r = Unfinished.

(** The file passes the handler's own checks (lines 139-149): it can be
    read, is not blank and has at most 10000 characters. *)
Record reviewable (rt : runtime) (f : file_part) : Prop := {
  rv_read : rt_fault rt OpRead (upload_path rt) = None;
  rv_text : ~ blank (text f);
  rv_length : Js.strlen (text f) <= 10000
}.

(** The review of [f] succeeds with the text [review]: the file passes
    the checks, the backend returns in time a 2xx reply [r] whose
    [response] is the non-empty [review], and the artifact can be written. *)
Record review_succeeds (env : environment) (rt : runtime) (f : file_part)
       (r : http_response) (review : jsstring) : Prop := {
  rs_file : reviewable rt f;
  rs_reply : backend_returns env rt r;
  rs_ok : ok r = true;
  rs_data : body_json r = Data (Some review);
  rs_text : review <> [];
  rs_write : forall path, rt_fault rt OpWrite path = None
}.



(** The bodies of the handler's three error replies. *)
Definition timeout_body (env : environment) (requestId : Z) : json :=
  JObj [ (Js.lit "error",
          JStr (Js.lit "Request timeout - Model took longer than "
                ++ Js.of_thousandths (REQUEST_TIMEOUT env)
                ++ Js.lit " seconds"));
         (Js.lit "suggestion",
          JStr (Js.lit "Try uploading a smaller file or increase REQUEST_TIMEOUT environment variable"));
         (Js.lit "requestId", JNum requestId) ].

Definition failure_body (details : jsstring) (requestId : Z) : json :=
  JObj [ (Js.lit "error", JStr (Js.lit "Failed to generate review"));
         (Js.lit "details", JStr details);
         (Js.lit "requestId", JNum requestId) ].

Definition rejection_body (message : jsstring) : json :=
  JObj [ (Js.lit "error", JStr message) ].

(** The message of the error thrown on a reply that is not [ok]
    (line 202). *)
Definition ollama_api_error (r : http_response) : jsstring :=
  Js.lit "Ollama API error: " ++ Js.of_int (status r) ++ Js.lit " - "
  ++ body_text r.

(** ** Sample inputs *)

Module Sample.

Definition replying (latency_ms : Z) (r : http_response) : backend :=
  {| latency := Some latency_ms; settles := Resolves r |}.

Definition review (s : string) : http_response :=
  {| status := 200; body_text := Js.lit "{...}";
     body_json := Data (Some (Js.lit s)) |}.

Definition runtime_with (b : backend) : runtime :=
  {| rt_clock := fun n => 1700000000000 + 7 * Z.of_nat n;
     rt_tmpname := Js.lit "5f2c9d0e8a7b4c13";
     rt_backend := b;
     rt_fault := fun _ _ => None;
     rt_toISOString := fun _ => Js.lit "2023-11-14T22:13:20.000Z" |}.

Definition upload (name : string) (content : jsstring) : file_part :=
  {| fieldname := Js.lit "file"; originalname := Js.lit name;
     size := Js.strlen content; text := content |}.

Definition post (f : file_part) : request := [FilePart f].

Definition healthy : runtime := runtime_with (replying 850 (review "Looks fine.")).


(** A backend that answers 503 with the text of the upload filter's
    error as its body. *)
Definition unavailable : http_response :=
  {| status := 503;
     body_text := Js.lit "Only code files are allowed";
     body_json := NotJson (Error (Js.lit "Unexpected token O")) |}.

Definition echoing : runtime := runtime_with (replying 40 unavailable).

(** A backend whose review has 301 characters. *)
Definition long_review : jsstring := repeat 114%N (Z.to_nat 301).

Definition verbose : runtime :=
  runtime_with
    (replying 850 {| status := 200; body_text := Js.lit "{...}";
                     body_json := Data (Some long_review) |}).


Definition notes_txt : file_part := upload "notes.txt" (Js.lit "remember the milk").
Definition main_py : file_part := upload "main.py" (Js.lit "print(1)").
Definition empty_py : file_part := upload "empty.py" [].
Definition spaces_py : file_part := upload "spaces.py" (Js.lit "   ").
Definition big_js : file_part := upload "big.js" (repeat 120%N (Z.to_nat 5001)).
Definition huge_py : file_part := upload "huge.py" (repeat 120%N (Z.to_nat 10001)).

End Sample.

(** ** The events that follow the reply *)

(** The events that follow the first reply. *)
Fixpoint after_response (t : list event) : list event :=
  match t with
  | [] => []
  | EvRespond _ _ :: rest => rest
  | _ :: rest => after_response rest
  end.

(** The errors with which the upload stage gives up. *)
Definition upload_error (e : js_error) : Prop :=
  e = MulterError "Unexpected field"
  \/ e = Error only_code_files
  \/ e = MulterError "File too large".

(** The backend call fails before the deadline: the request rejects with
    a network error. *)
Definition backend_fails (env : environment) (rt : runtime)
           (reason : jsstring) : Prop :=
  exists l, latency (rt_backend rt) = Some l
            /\ l < timer_delay (REQUEST_TIMEOUT env)
            /\ settles (rt_backend rt) = Rejects reason.

(** A character that may appear in a sanitized file name: a letter, a
    digit, a dot, a hyphen or an underscore. *)
Definition name_char (c : N) : Prop := unsafe_char c = false \/ c = 95%N.

(** ** The health probe and the start-up check (lines 15-79, 282-326) *)

(** [response.ok] for a status. *)
Definition status_ok (s : Z) : bool := (200 <=? s) && (s <=? 299).

(** What the body of a reply to [GET /api/tags] gives the code that reads
    it: [response.json()] rejects; or [data.models?.map(m => m.name)]
    throws (the data is [null], [models] is no array, an entry is
    [null]); or the mapping yields the names, [None] as the list when
    [data.models] is undefined or [null] and [None] as a name when an entry
    has none. *)
Inductive tags_body :=
| TagsNotJson (e : js_error)
| TagsBroken (e : js_error)
| TagsModels (names : option (list (option jsstring))).

(** How the probe of [OLLAMA_URL + "/api/tags"] ends; no deadline guards
    it.  [TagsSilent]: it never ends, because the request never settles
    or because, after a 2xx status, the body never completes. *)
Inductive tags_probe :=
| TagsSilent
| TagsRejects (reason : jsstring)
| TagsReplies (status : Z) (b : tags_body).

(** [x || []] for the mapped names. *)
Definition or_empty (names : option (list (option jsstring)))
  : list (option jsstring) :=
  match names with
  | Some l => l
  | None => []
  end.

(** [names.includes(model)] *)
Definition includes_model (model : jsstring) (names : list (option jsstring)) : bool :=
  existsb (fun n => bool_decide (n = Some model)) names.

(** [health.ollama] and [health] (lines 283-296, 302-310); an absent
    property is [None]. *)
Record ollama_health := {
  oh_url : jsstring;
  oh_model : jsstring;
  oh_status : jsstring;
  oh_availableModels : option (list (option jsstring));
  oh_modelExists : option bool;
  oh_error : option jsstring
}.

Record health_body := {
  hb_status : jsstring;
  hb_timestamp : jsstring;
  hb_uptime : json;
  hb_timeout : jsstring;
  hb_maxFileSize : jsstring;
  hb_ollama : ollama_health
}.

Section Health.

Variable env : environment.

(** [health.ollama.status = s] *)
Definition set_status (s : string) (o : ollama_health) : ollama_health :=
  {| oh_url := oh_url o; oh_model := oh_model o; oh_status := Js.lit s;
     oh_availableModels := oh_availableModels o;
     oh_modelExists := oh_modelExists o; oh_error := oh_error o |}.

(** The [catch] block of lines 308-311. *)
Definition health_caught (e : js_error) (o : ollama_health) : ollama_health :=
  {| oh_url := oh_url o; oh_model := oh_model o;
     oh_status := Js.lit "disconnected";
     oh_availableModels := oh_availableModels o;
     oh_modelExists := oh_modelExists o;
     oh_error := Some (err_message e) |}.

(** Lines 302-304. *)
Definition health_connected (names : list (option jsstring))
           (o : ollama_health) : ollama_health :=
  {| oh_url := oh_url o; oh_model := oh_model o;
     oh_status := Js.lit "connected";
     oh_availableModels := Some names;
     oh_modelExists := Some (includes_model (OLLAMA_MODEL env) names);
     oh_error := oh_error o |}.

(** Lines 313-314. *)
Definition health_reply (timestamp : jsstring) (uptime : json)
           (o : ollama_health) : Z * health_body :=
  (if bool_decide (oh_status o = Js.lit "connected") then 200 else 503,
   {| hb_status := Js.lit "ok";
      hb_timestamp := timestamp;
      hb_uptime := uptime;
      hb_timeout := Js.of_thousandths (REQUEST_TIMEOUT env) ++ Js.lit "s";
      hb_maxFileSize := Js.lit "2MB";
      hb_ollama := o |}).

(** The handler of [GET /health] (lines 282-315), given the date and the
    uptime it reads; [None] when it never replies. *)
Definition health (timestamp : jsstring) (uptime : json) (probe : tags_probe)
  : option (Z * health_body) :=
  let unknown :=
    {| oh_url := OLLAMA_URL env; oh_model := OLLAMA_MODEL env;
       oh_status := Js.lit "unknown"; oh_availableModels := None;
       oh_modelExists := None; oh_error := None |} in
  match probe with
  | TagsSilent => None
  | TagsRejects reason =>
      Some (health_reply timestamp uptime
              (health_caught (FetchError (OLLAMA_URL env ++ Js.lit "/api/tags") reason)
                             unknown))
  | TagsReplies code b =>
      if status_ok code then
        match b with
        | TagsNotJson e =>
            Some (health_reply timestamp uptime (health_caught e unknown))
        | TagsBroken e =>
            Some (health_reply timestamp uptime
                    (health_caught e (set_status "connected" unknown)))
        | TagsModels names =>
            Some (health_reply timestamp uptime
                    (health_connected (or_empty names) unknown))
        end
      else Some (health_reply timestamp uptime (set_status "error" unknown))
  end.

End Health.

(** One constructor per console call of the start-up code (lines 15-79
    and 317-326). *)
Inductive startup_line :=
| SayRunning (port : jsstring)
| SayModel (model : jsstring)
| SayTimeout (timeout : Z)
| SayUploadsReady
| SayUploadsFailed (message : jsstring)
| SayTesting (url : jsstring)
| SayConnected
| SayModels (names : list (option jsstring))
| SayModelAvailable (model : jsstring)
| SayTestingSpeed
| SayTestOk (duration : Z)
| SayTestResponse (text : option jsstring)
| SayTestFailed (status : Z)
| SayModelMissing (model : jsstring) (names : list (option jsstring))
| SayRespondedError (status : Z)
| SayConnectionFailed (message : jsstring)
| SayReady.

(** What a start-up step leaves: its console lines, the requests it
    issued (a [GET] has no body) and its result, [None] while it never
    settles. *)
Record check := {
  ck_log : list startup_line;
  ck_calls : list (jsstring * option json);
  ck_result : option bool
}.

Section Startup.

Variable env : environment.

(** The body of the test request (lines 46-54). *)
Definition test_request : json :=
  JObj [ (Js.lit "model", JStr (OLLAMA_MODEL env));
         (Js.lit "prompt", JStr (Js.lit "Say 'Hello' in one word."));
         (Js.lit "stream", JBool false);
         (Js.lit "options",
          JObj [ (Js.lit "num_predict", JNum 10);
                 (Js.lit "temperature", JDec 1 1) ]) ].

(** The [catch] block of lines 75-78. *)
Definition connection_failed (log : list startup_line)
           (calls : list (jsstring * option json)) (e : js_error) : check :=
  {| ck_log := log ++ [SayConnectionFailed (err_message e)];
     ck_calls := calls; ck_result := Some false |}.

(** [testOllamaConnection] (lines 25-79).  [clock] gives the readings of
    [Date.now()], [tags] the fate of the request to [/api/tags] and [gen]
    that of the test request to [/api/generate]. *)
Definition testOllamaConnection (clock : nat -> Z) (tags : tags_probe)
           (gen : backend) : check :=
  let tags_url := OLLAMA_URL env ++ Js.lit "/api/tags" in
  let gen_url := OLLAMA_URL env ++ Js.lit "/api/generate" in
  let log0 := [SayTesting (OLLAMA_URL env)] in
  let calls0 := [(tags_url, None)] in
  match tags with
  | TagsSilent => {| ck_log := log0; ck_calls := calls0; ck_result := None |}
  | TagsRejects reason =>
      connection_failed log0 calls0 (FetchError tags_url reason)
  | TagsReplies code b =>
      if status_ok code then
        match b with
        | TagsNotJson e => connection_failed log0 calls0 e
        | TagsBroken e => connection_failed log0 calls0 e
        | TagsModels models =>
            let modelNames := or_empty models in
            let log1 := log0 ++ [SayConnected; SayModels modelNames] in
            if includes_model (OLLAMA_MODEL env) modelNames then
              let log2 := log1 ++ [SayModelAvailable (OLLAMA_MODEL env);
                                   SayTestingSpeed] in
              let testStart := clock 0%nat in
              let calls1 := calls0 ++ [(gen_url, Some test_request)] in
              match latency gen with
              | None => {| ck_log := log2; ck_calls := calls1; ck_result := None |}
              | Some _ =>
                  match settles gen with
                  | Rejects reason =>
                      connection_failed log2 calls1 (FetchError gen_url reason)
                  | Resolves testResponse =>
                      if ok testResponse then
                        match body_json testResponse with
                        | NotJson e | Broken e => connection_failed log2 calls1 e
                        | Unfinished =>
                            {| ck_log := log2; ck_calls := calls1;
                               ck_result := None |}
                        | Data response =>
                            let testDuration := clock 1%nat - testStart in
                            {| ck_log := log2 ++ [SayTestOk testDuration;
                                                  SayTestResponse
                                                    (option_map Js.trim response)];
                               ck_calls := calls1; ck_result := Some true |}
                        end
                      else
                        {| ck_log := log2 ++ [SayTestFailed (status testResponse)];
                           ck_calls := calls1; ck_result := Some true |}
                  end
              end
            else
              {| ck_log := log1 ++ [SayModelMissing (OLLAMA_MODEL env) modelNames];
                 ck_calls := calls0; ck_result := Some true |}
        end
      else
        {| ck_log := log0 ++ [SayRespondedError code];
           ck_calls := calls0; ck_result := Some false |}
  end.

(** [ensureUploadsDir] (lines 15-22): [mkdir] is the error of
    [fs.mkdir("uploads", { recursive: true })], if any. *)
Definition ensureUploadsDir (mkdir : option jsstring) : list startup_line :=
  match mkdir with
  | None => [SayUploadsReady]
  | Some message => [SayUploadsFailed message]
  end.

(** The callback of [app.listen] (lines 317-326): what it prints. *)
Definition on_listening (port : jsstring) (clock : nat -> Z)
           (mkdir : option jsstring) (tags : tags_probe) (gen : backend)
  : list startup_line :=
  let tested := testOllamaConnection clock tags gen in
  [SayRunning port; SayModel (OLLAMA_MODEL env); SayTimeout (REQUEST_TIMEOUT env)]
  ++ ensureUploadsDir mkdir
  ++ ck_log tested
  ++ match ck_result tested with
     | Some _ => [SayReady]
     | None => []
     end.

End Startup.

(** ** The single-step review server (lines 332-377) *)

(** An earlier server of the repository: [POST /review] with no
    validation, no deadline and no clean-up.  Its route is modelled by
    explicit state passing: the effects so far and the file system. *)
Module Simple.

Inductive effect :=
| Read (path : jsstring)                          (* fs.readFileSync *)
| Fetch (url : jsstring) (request_body : json)    (* the POST to the backend *)
| Write (path : jsstring) (content : jsstring)    (* fs.writeFileSync *)
| LogError (error : js_error)                     (* console.error(error) *)
| Respond (status : Z) (j : json)                 (* res.status(...).json(...) *)
| ErrorReply (e : js_error).     (* Express's reply to an error nobody handled *)

Definition TypeError (message : jsstring) : js_error :=
  {| err_name := Js.lit "TypeError"; err_message := message |}.

(** Reading a property of [undefined]. *)
Definition reading_of_undefined (property : string) : js_error :=
  TypeError (Js.lit "Cannot read properties of undefined (reading '"
             ++ Js.lit property ++ Js.lit "')").

(** [`${x}`] for an optional string. *)
Definition interpolate (x : option jsstring) : jsstring :=
  match x with
  | Some s => s
  | None => Js.lit "undefined"
  end.

Definition generate_url : jsstring := Js.lit "http://localhost:11434/api/generate".

(** Lines 351-354. *)
Definition generate_request (fileContent : jsstring) : json :=
  JObj [ (Js.lit "model", JStr (Js.lit "llama3"));
         (Js.lit "prompt",
          JStr (Js.lit "You are a helpful code reviewer. Review the following file and provide comments in Markdown format:"
                ++ nl ++ nl ++ fileContent)) ].

(** Line 362. *)
Definition mdPath (now : Z) : jsstring :=
  Js.lit "uploads/review_" ++ Js.of_int now ++ Js.lit ".md".

(** Line 363. *)
Definition artifact (reviewComments : option jsstring) : jsstring :=
  Js.lit "# File Review (LLaMA)" ++ nl ++ nl ++ interpolate reviewComments.

(** Lines 365-369. *)
Definition success_body (path reviewComments : jsstring) : json :=
  JObj [ (Js.lit "message", JStr (Js.lit "Review generated successfully (LLaMA)"));
         (Js.lit "reviewFile", JStr path);
         (Js.lit "reviewPreview",
          JStr (Js.substring reviewComments 0 300 ++ Js.lit "...")) ].

(** Line 372. *)
Definition failure_body : json :=
  JObj [ (Js.lit "error", JStr (Js.lit "Something went wrong")) ].

Section Handler.

Variable rt : runtime.

(** [fs.readFileSync(path, "utf-8")] *)
Definition readFileSync (fs : gmap (list N) (list N)) (path : jsstring)
  : js_error + jsstring :=
  match fs !! path with
  | None => inl (ENOENT "open" path)
  | Some content =>
      match rt_fault rt OpRead path with
      | Some message => inl (Error message)
      | None => inr content
      end
  end.

(** [fs.writeFileSync(path, content)] *)
Definition writeFileSync (fs : gmap (list N) (list N)) (path content : jsstring)
  : js_error + gmap (list N) (list N) :=
  match rt_fault rt OpWrite path with
  | Some message => inl (Error message)
  | None => inr (<[path := content]> fs)
  end.

(** The [catch] block, lines 370-373. *)
Definition caught (done : list effect) (fs : gmap (list N) (list N))
           (error : js_error) : list effect * gmap (list N) (list N) :=
  (done ++ [LogError error; Respond 500 failure_body], fs).

(** The handler of [POST /review] (lines 342-374) for the [req.file]
    multer leaves: its effects in order and the file system it leaves.
    The call to the backend has no deadline: while the backend is silent
    or the body of its reply incomplete, the handler waits. *)
Definition review (fs : gmap (list N) (list N)) (req_file : option multer_file)
  : list effect * gmap (list N) (list N) :=
  match req_file with
  | None => caught [] fs (reading_of_undefined "path")
  | Some file =>
      let filePath := mf_path file in
      let done1 := [Read filePath] in
      match readFileSync fs filePath with
      | inl e => caught done1 fs e
      | inr fileContent =>
          let done2 := done1 ++ [Fetch generate_url (generate_request fileContent)] in
          match latency (rt_backend rt) with
          | None => (done2, fs)
          | Some _ =>
              match settles (rt_backend rt) with
              | Rejects reason => caught done2 fs (FetchError generate_url reason)
              | Resolves response =>
                  match body_json response with
                  | NotJson e | Broken e => caught done2 fs e
                  | Unfinished => (done2, fs)
                  | Data reviewComments =>
                      let path := mdPath (rt_clock rt 0%nat) in
                      match writeFileSync fs path (artifact reviewComments) with
                      | inl e => caught done2 fs e
                      | inr fs' =>
                          let done3 := done2 ++ [Write path (artifact reviewComments)] in
                          match reviewComments with
                          | None => caught done3 fs' (reading_of_undefined "substring")
                          | Some comments =>
                              (done3 ++ [Respond 200 (success_body path comments)], fs')
                          end
                      end
                  end
              end
          end
      end
  end.

(** [upload.single("file")] of line 342, for a multer that has a
    destination and neither a filter nor limits of its own: a part
    without a file name is skipped, a file in another field or a second
    file is an unexpected file, on which multer removes what it stored
    and passes the error on; any other file is stored. *)
Fixpoint multer_parts (parts : list part) (filesLeft : Z)
         (stored : option multer_file) (fs : gmap (list N) (list N))
  : (js_error + option multer_file) * gmap (list N) (list N) :=
  match parts with
  | [] => (inr stored, fs)
  | TextField _ _ :: rest => multer_parts rest filesLeft stored fs
  | FilePart f :: rest =>
      match originalname f with
      | [] => multer_parts rest filesLeft stored fs
      | _ :: _ =>
          if negb (bool_decide (fieldname f = Js.lit "file"))
             || (filesLeft <=? 0) then
            (inl (MulterError "Unexpected field"),
             match stored with
             | Some file => delete (mf_path file) fs
             | None => fs
             end)
          else
            multer_parts rest (filesLeft - 1)
              (Some {| mf_originalname := originalname f;
                       mf_path := upload_path rt;
                       mf_size := size f |})
              (<[upload_path rt := text f]> fs)
      end
  end.

Definition upload_single (req : request) (fs : gmap (list N) (list N))
  : (js_error + option multer_file) * gmap (list N) (list N) :=
  multer_parts req 1 None fs.

(** [app.post("/review", upload.single("file"), handler)] (line 342):
    the handler runs when the upload stage passes no error on; an error
    it passes on is answered by Express, with status 500. *)
Definition route (fs : gmap (list N) (list N)) (req : request)
  : list effect * gmap (list N) (list N) :=
  match upload_single req fs with
  | (inl e, fs') => ([ErrorReply e], fs')
  | (inr req_file, fs') => review fs' req_file
  end.

End Handler.

(** The backend keeps the handler waiting: it is silent, or the body of
    its reply never completes. *)
Definition waits (rt : runtime) : Prop :=
  latency (rt_backend rt) = None
  \/ exists r, settles (rt_backend rt) = Resolves r /\ body_json r = Unfinished.

(** The replies of the handler among the effects. *)
Definition replies (done : list effect) : list (Z * json) :=
  omap (fun e => match e with Respond c j => Some (c, j) | _ => None end) done.

(** All replies among the effects, Express's included. *)
Definition answers (done : list effect) : list (Z * body) :=
  omap (fun e => match e with
                 | Respond c j => Some (c, JsonBody j)
                 | ErrorReply e => Some (500, ErrorPage e)
                 | _ => None
                 end) done.

(** The files written among the effects. *)
Definition written (done : list effect) : list (jsstring * jsstring) :=
  omap (fun e => match e with Write p c => Some (p, c) | _ => None end) done.

(** The backend calls among the effects. *)
Definition calls (done : list effect) : list (jsstring * json) :=
  omap (fun e => match e with Fetch u b => Some (u, b) | _ => None end) done.

End Simple.

(** ** The chat server (lines 378-491) *)

Module Chat.

Inductive effect :=
| LogNew (message : json)                 (* 'New chat request:' *)
| LogAsking (question : json)             (* 'Asking Ollama:' *)
| Fetch (url : jsstring) (request_body : json)
| LogResponded                            (* 'Ollama responded!' *)
| LogTrouble (message : jsstring)         (* 'Error talking to Ollama:' *)
| LogChatError (message : jsstring)       (* 'Chat error:' *)
| Respond (status : Z) (j : json).

(** Is a JSON value truthy? *)
Definition truthy (j : json) : bool :=
  match j with
  | JNull => false
  | JBool b => b
  | JNum n => negb (n =? 0)
  | JDec m _ => negb (m =? 0)
  | JStr s => match s with [] => false | _ :: _ => true end
  | JObj _ => true
  end.

Definition apology : jsstring :=
  Js.lit "Sorry, the AI is having trouble right now. Please try again.".

Definition no_response : jsstring := Js.lit "No response from AI".

Definition too_long : jsstring :=
  Js.lit "Request took too long or failed. Please try a shorter message.".

(** The delay of the timer of line 442. *)
Definition chat_timeout : Z := 120000.

Section Server.

Variable env : environment.

(** [`${process.env.OLLAMA_URL}/api/generate`]: no default is applied. *)
Definition generate_url : jsstring :=
  match env_OLLAMA_URL env with
  | Some url => url
  | None => Js.lit "undefined"
  end ++ Js.lit "/api/generate".

(** Lines 403-412. *)
Definition generate_request (question : json) : json :=
  JObj [ (Js.lit "model", JStr (OLLAMA_MODEL env));
         (Js.lit "prompt", question);
         (Js.lit "stream", JBool false);
         (Js.lit "options",
          JObj [ (Js.lit "num_predict", JNum 200);
                 (Js.lit "temperature", JDec 7 1);
                 (Js.lit "num_ctx", JNum 1024) ]) ].

(** What [askOllama] (lines 393-427) does once its request settled as
    [s]: the line it prints and the text it returns, or nothing at all
    ([None]) while the body of a 2xx reply never completes.  The message
    of a rejection of the built-in [fetch] is [reason]. *)
Definition askOllama_settled (s : settlement) : option (effect * jsstring) :=
  match s with
  | Rejects reason => Some (LogTrouble reason, apology)
  | Resolves response =>
      if ok response then
        match body_json response with
        | NotJson e | Broken e => Some (LogTrouble (err_message e), apology)
        | Unfinished => None
        | Data text => Some (LogResponded, or_default text no_response)
        end
      else Some (LogTrouble (Js.lit "Ollama error: "
                             ++ Js.of_int (status response)),
                 apology)
  end.

(** [askOllama(question)]: what it does before it waits, and what it
    does and returns when the backend lets it go on ([None]: never). *)
Definition askOllama (b : backend) (question : json)
  : list effect * option (effect * jsstring) :=
  ([LogAsking question; Fetch generate_url (generate_request question)],
   match latency b with
   | Some _ => askOllama_settled (settles b)
   | None => None
   end).

Definition missing_body : json :=
  JObj [ (Js.lit "error", JStr (Js.lit "Please provide a message")) ].

Definition success_body (aiResponse timestamp : jsstring) : json :=
  JObj [ (Js.lit "success", JBool true);
         (Js.lit "response", JStr aiResponse);
         (Js.lit "timestamp", JStr timestamp) ].

Definition failure_body : json :=
  JObj [ (Js.lit "success", JBool false);
         (Js.lit "error", JStr too_long) ].

(** The handler of [POST /api/chat] (lines 430-463) for the [message]
    property of a parsed body ([None]: absent); [timestamp] is the date
    read on success.  The timer is armed before [askOllama] starts and
    the call is not cancelled when the timer wins the race: what
    [askOllama] prints then comes after the reply. *)
Definition chat (timestamp : jsstring) (b : backend) (message : option json)
  : list effect :=
  match message with
  | Some m =>
      if truthy m then
        let (started, later) := askOllama b m in
        [LogNew m] ++ started
        ++ match later with
           | Some (line, aiResponse) =>
               if fires_first chat_timeout (latency b) then
                 [LogChatError (Js.lit "Request timeout");
                  Respond 500 failure_body; line]
               else [line; Respond 200 (success_body aiResponse timestamp)]
           | None =>
               [LogChatError (Js.lit "Request timeout");
                Respond 500 failure_body]
           end
      else [Respond 400 missing_body]
  | None => [Respond 400 missing_body]
  end.

End Server.

Definition replies (done : list effect) : list (Z * json) :=
  omap (fun e => match e with Respond c j => Some (c, j) | _ => None end) done.

Definition calls (done : list effect) : list (jsstring * json) :=
  omap (fun e => match e with Fetch u b => Some (u, b) | _ => None end) done.

End Chat.

(** ** Further sample inputs *)

Module Scenario.

(** A backend that refuses the connection after 12 ms. *)
Definition refusing : runtime :=
  Sample.runtime_with
    {| latency := Some 12;
       settles := Rejects (Js.lit "connect ECONNREFUSED 127.0.0.1:11434") |}.

(** A 2xx reply whose JSON carries no [response]. *)
Definition wordless_reply : http_response :=
  {| status := 200; body_text := Js.lit "{}"; body_json := Data None |}.

Definition wordless : runtime :=
  Sample.runtime_with (Sample.replying 40 wordless_reply).

(** A reply whose headers arrive after 40 ms and whose body never
    completes. *)
Definition stalling_reply : http_response :=
  {| status := 200; body_text := []; body_json := Unfinished |}.

Definition stalling : runtime :=
  Sample.runtime_with (Sample.replying 40 stalling_reply).

(** A reply of status 500 whose JSON carries a [response] all the same. *)
Definition grumbling_reply : http_response :=
  {| status := 500; body_text := Js.lit "{...}";
     body_json := Data (Some (Js.lit "model overloaded")) |}.

Definition grumbling : runtime :=
  Sample.runtime_with (Sample.replying 40 grumbling_reply).

(** The healthy runtime on a disk where the file system operation [op]
    fails with [message]. *)
Definition failing (op : fs_op) (message : string) : runtime :=
  {| rt_clock := rt_clock Sample.healthy; rt_tmpname := rt_tmpname Sample.healthy;
     rt_backend := rt_backend Sample.healthy;
     rt_fault := fun o _ =>
                   match o, op with
                   | OpRead, OpRead | OpWrite, OpWrite | OpUnlink, OpUnlink =>
                       Some (Js.lit message)
                   | _, _ => None
                   end;
     rt_toISOString := rt_toISOString Sample.healthy |}.

Definition read_only : runtime := failing OpWrite "EROFS: read-only file system".

Definition unreadable : runtime := failing OpRead "EACCES: permission denied".

(** [REQUEST_TIMEOUT=-5] *)
Definition hasty : environment :=
  {| env_OLLAMA_URL := None; env_OLLAMA_MODEL := None;
     env_REQUEST_TIMEOUT := Some (-5) |}.

(** 10001 spaces. *)
Definition blank_page : file_part :=
  Sample.upload "blank.py" (repeat 32%N (Z.to_nat 10001)).

(** A reply to [/api/tags] that lists the default model and an entry
    without a name. *)
Definition listing : tags_probe :=
  TagsReplies 200 (TagsModels (Some [Some (Js.lit "llama3.2:1b"); None])).

(** What multer leaves for [main.py], and the disk that holds it. *)
Definition stored : multer_file := stored_file Sample.healthy Sample.main_py.

Definition disk : gmap (list N) (list N) :=
  {[ upload_path Sample.healthy := text Sample.main_py ]}.

(** A date as [toISOString] prints it. *)
Definition instant : jsstring := Js.lit "2023-11-14T22:13:20.000Z".

(** A chat message, and a backend that answers it after the chat
    server's deadline. *)
Definition greeting : json := JStr (Js.lit "hi").

Definition sluggish : backend :=
  Sample.replying 120001 (Sample.review "Hello!").

End Scenario.

(** * Properties *)

Section UploadStage.

Variable rt : runtime.

Lemma named_files_named req f :
  In f (named_files req) -> originalname f <> [].
Proof.
  induction req as [| [n v | g] rest IH]; simpl; [tauto | exact IH |].
  destruct (originalname g) eqn:E; [exact IH |].
  intros [<- | H]; [congruence | exact (IH H)].
Qed.

(** multer only looks at the named files. *)
Lemma multer_parts_named req : forall left stored s,
  multer_parts rt req left stored s
  = multer_parts rt (List.map FilePart (named_files req)) left stored s.
Proof.
  induction req as [| [n v | g] rest IH]; intros left stored s; simpl.
  - reflexivity.
  - apply IH.
  - destruct (originalname g) eqn:E; [apply IH |].
    simpl. rewrite E.
    destruct (negb (bool_decide (fieldname g = Js.lit "file")) || (left <=? 0));
      [reflexivity |].
    unfold bind at 1. symmetry. unfold bind at 1. symmetry.
    destruct (attempt (fileFilter g) s) as [[[e | [|]] | e |] s']; try reflexivity.
    + unfold bind at 1. symmetry. unfold bind at 1. symmetry.
      destruct (emit (EvStore (upload_path rt)) s') as [[[] | e |] s1]; try reflexivity.
      unfold bind at 1. symmetry. unfold bind at 1. symmetry.
      destruct (get st_fs s1) as [[m | e |] s2]; try reflexivity.
      unfold bind at 1. symmetry. unfold bind at 1. symmetry.
      destruct (set_fs (<[upload_path rt := text g]> m) s2) as [[[] | e |] s3];
        try reflexivity.
      destruct (fileSize_limit <? size g); [reflexivity | apply IH].
    + apply IH.
Qed.

(** A body without a named file reaches the handler without [req.file]. *)
Lemma upload_single_nothing req s :
  named_files req = [] -> upload_single rt req s = (Returns (Next None), s).
Proof.
  intros H. unfold upload_single. rewrite multer_parts_named, H. reflexivity.
Qed.

(** An upload is stored and handed to the handler. *)
Lemma upload_single_stores req f fs :
  uploads req f ->
  upload_single rt req (initial_state fs)
  = (Returns (Next (Some (stored_file rt f))), stored_state rt fs f).
Proof.
  intros [Hn Hf Ha Hs]. unfold upload_single, stored_file, stored_state.
  rewrite multer_parts_named, Hn. simpl.
  destruct (originalname f) eqn:E.
  { exfalso. apply (named_files_named req f); [rewrite Hn; left; reflexivity | exact E]. }
  rewrite Hf, bool_decide_eq_true_2 by reflexivity. simpl.
  unfold bind, attempt, try_catch, fileFilter, bind, console, emit. simpl.
  rewrite E, Ha. simpl.
  destruct (fileSize_limit <? size f) eqn:L; [apply Z.ltb_lt in L; lia |].
  reflexivity.
Qed.

(** A file whose name the filter refuses stops the request in multer. *)
Lemma upload_single_refuses req f others fs :
  named_files req = f :: others ->
  fieldname f = Js.lit "file" ->
  allowedTypes_test (originalname f) = false ->
  upload_single rt req (initial_state fs)
  = (Returns (NextError (Error only_code_files)),
     {| st_trace := [EvConsole (LogFileUpload (originalname f))];
        st_fs := fs; st_reads := 0%nat; st_timer := None;
        st_filePath := None |}).
Proof.
  intros Hn Hf Ha. unfold upload_single.
  rewrite multer_parts_named, Hn. simpl.
  destruct (originalname f) eqn:E.
  { exfalso. apply (named_files_named req f); [rewrite Hn; left; reflexivity | exact E]. }
  rewrite Hf, bool_decide_eq_true_2 by reflexivity. simpl.
  unfold bind, attempt, try_catch, fileFilter, bind, console, emit. simpl.
  rewrite E, Ha. reflexivity.
Qed.

End UploadStage.

(** ** The file filter *)

Section Filter.

Lemma starts_with_prefix p : forall s,
  Js.starts_with p s = true <-> exists r, s = p ++ r.
Proof.
  induction p as [| x p IH]; intros s; simpl.
  - split; [intros _; exists s; reflexivity | reflexivity].
  - destruct s as [| y s].
    + split; [discriminate | intros [r Hr]; discriminate Hr].
    + rewrite andb_true_iff, N.eqb_eq, IH. split.
      * intros [-> [r ->]]. exists r. reflexivity.
      * intros [r Hr]. injection Hr as -> ->. split; [reflexivity | exists r; reflexivity].
Qed.

Lemma ends_with_ci_suffix suffix s :
  Js.ends_with_ci suffix s = true
  <-> exists stem tail,
        s = stem ++ tail
        /\ List.map Js.canonicalize tail = List.map Js.canonicalize suffix.
Proof.
  unfold Js.ends_with_ci. rewrite starts_with_prefix. split.
  - intros [r Hr]. apply (f_equal (@rev N)) in Hr.
    rewrite rev_involutive, rev_app_distr, rev_involutive in Hr.
    apply map_eq_app in Hr. destruct Hr as (stem & tail & -> & _ & Htail).
    exists stem, tail. split; [reflexivity | exact Htail].
  - intros (stem & tail & -> & Htail).
    exists (rev (List.map Js.canonicalize stem)).
    rewrite map_app, rev_app_distr, Htail. reflexivity.
Qed.

Lemma canonicalize_dot c : Js.canonicalize c = 46%N -> c = 46%N.
Proof.
  unfold Js.canonicalize.
  destruct (N.leb 97 c && N.leb c 122)%bool eqn:E; [| tauto].
  apply andb_true_iff in E. destruct E as [H1 H2].
  apply N.leb_le in H1, H2. lia.
Qed.

(** The pattern accepts exactly the names that end with a dot followed by
    an extension of the list, whatever the case of its letters. *)
Lemma allowedTypes_test_extension name :
  allowedTypes_test name = true <-> has_allowed_extension name.
Proof.
  unfold allowedTypes_test, has_allowed_extension.
  rewrite existsb_exists. split.
  - intros (e & He & Hend). apply ends_with_ci_suffix in Hend.
    destruct Hend as (stem & tail & -> & Htail).
    change (Js.lit "." ++ Js.lit e) with (46%N :: Js.lit e) in Htail.
    destruct tail as [| c ext]; [discriminate Htail |].
    simpl in Htail. injection Htail as Hc Hext.
    apply canonicalize_dot in Hc. subst c.
    exists stem, ext, e. repeat split; assumption.
  - intros (stem & ext & e & -> & He & Hext).
    exists e. split; [exact He |].
    apply ends_with_ci_suffix. exists stem, (46%N :: ext).
    split; [reflexivity |].
    change (Js.lit "." ++ Js.lit e) with (46%N :: Js.lit e).
    simpl. rewrite Hext. reflexivity.
Qed.

End Filter.

(** ** Symbolic execution of the handler *)

(** The pure helpers stay folded while a run is unfolded. *)
Arguments Js.trim : simpl never.
Arguments Js.strlen : simpl never.
Arguments Js.includes : simpl never.
Arguments Js.of_int : simpl never.
Arguments Js.of_thousandths : simpl never.
Arguments Js.substring : simpl never.
Arguments truncatedContent : simpl never.
Arguments optimizedPrompt : simpl never.
Arguments reviewContent : simpl never.
Arguments reviewPreview : simpl never.
Arguments mdPath : simpl never.
Arguments generate_request : simpl never.
Arguments OLLAMA_URL : simpl never.
Arguments OLLAMA_MODEL : simpl never.
Arguments REQUEST_TIMEOUT : simpl never.
Arguments upload_path : simpl never.
Arguments timer_delay : simpl never.
Arguments only_code_files : simpl never.
Arguments truncation_marker : simpl never.
Arguments Z.gtb : simpl never.
Arguments Z.eqb : simpl never.
Arguments Z.leb : simpl never.
Arguments Z.ltb : simpl never.
Arguments Z.sub : simpl never.

Lemma lookup_after_write (m : gmap (list N) (list N)) p c q v :
  exists c', <[q:=v]> (<[p:=c]> m) !! p = Some c'.
Proof.
  destruct (decide (q = p)) as [-> | Hne].
  - exists v. apply lookup_insert_eq.
  - exists c. rewrite lookup_insert_ne by exact Hne. apply lookup_insert_eq.
Qed.

Lemma name_Error : bool_decide (Js.lit "Error" = Js.lit "AbortError") = false.
Proof. reflexivity. Qed.
Lemma name_FetchError : bool_decide (Js.lit "FetchError" = Js.lit "AbortError") = false.
Proof. reflexivity. Qed.
Lemma name_AbortError : bool_decide (Js.lit "AbortError" = Js.lit "AbortError") = true.
Proof. reflexivity. Qed.
Lemma abort_message_plain :
  Js.includes only_code_files (Js.lit "The operation was aborted.") = false.
Proof. reflexivity. Qed.
Lemma empty_message_plain :
  Js.includes only_code_files (Js.lit "File appears to be empty") = false.
Proof. reflexivity. Qed.
Lemma too_large_message_plain :
  Js.includes only_code_files
    (Js.lit "File too large for review (max 10KB). Please upload smaller files.") = false.
Proof. reflexivity. Qed.
Lemma invalid_message_plain :
  Js.includes only_code_files (Js.lit "Invalid response from Ollama API") = false.
Proof. reflexivity. Qed.

Ltac js_step :=
  cbv beta iota zeta delta
    [try_catch bind ret throw throw_if emit console set_fs set_timer
     set_filePath get emit_all attempt Date_now fs_readFile fs_writeFile
     fs_unlink setTimeout clearTimeout fetch settle flush_timer respond
     cleanupFile review_catch review_try review_handler default_error_handler
     hang response_text response_json
     st_trace st_fs st_reads st_timer st_filePath Error AbortError FetchError
     err_name err_message fires_first
     mf_originalname mf_path mf_size tm_delay tm_callback on_deadline aborts existsb orb];
  cbn -[lookup insert delete].

Ltac decide_cond c :=
  match goal with
  | H : c = _ |- _ => rewrite H
  | _ => destruct c eqn:?
  end.

Ltac branch :=
  match goal with
  | |- context [ <[?p:=?c]> ?m !! ?p ] => rewrite (lookup_insert_eq m p c)
  | |- context [ <[?q:=?v]> (<[?p:=?c]> ?m) !! ?p ] =>
      let c' := fresh "c" in let E := fresh "E" in
      destruct (lookup_after_write m p c q v) as [c' E]; rewrite E; clear E
  | |- context [ bool_decide (Js.lit "Error" = Js.lit "AbortError") ] => rewrite name_Error
  | |- context [ bool_decide (Js.lit "FetchError" = Js.lit "AbortError") ] => rewrite name_FetchError
  | |- context [ bool_decide (Js.lit "AbortError" = Js.lit "AbortError") ] => rewrite name_AbortError
  | |- context [ Js.includes only_code_files (Js.lit "The operation was aborted.") ] => rewrite abort_message_plain
  | |- context [ Js.includes only_code_files (Js.lit "File appears to be empty") ] => rewrite empty_message_plain
  | |- context [ Js.includes only_code_files (Js.lit "File too large for review (max 10KB). Please upload smaller files.") ] => rewrite too_large_message_plain
  | |- context [ Js.includes only_code_files (Js.lit "Invalid response from Ollama API") ] => rewrite invalid_message_plain
  | |- context [ rt_fault ?r OpRead ?p ] => decide_cond (rt_fault r OpRead p)
  | |- context [ Js.strlen (Js.trim ?c) =? 0 ] => decide_cond (Js.strlen (Js.trim c) =? 0)
  | |- context [ Js.strlen ?c >? 10000 ] => decide_cond (Js.strlen c >? 10000)
  | |- context [ latency ?b ] => decide_cond (latency b)
  | |- context [ timer_delay ?d <=? ?l ] => decide_cond (timer_delay d <=? l)
  | |- context [ settles ?b ] => decide_cond (settles b)
  | |- context [ ok ?r ] => decide_cond (ok r)
  | |- context [ body_json ?r ] => decide_cond (body_json r)
  | |- context [ match ?x with Some _ => _ | None => _ end ] => is_var x; destruct x
  | |- context [ match ?x with [] => _ | _ :: _ => _ end ] => is_var x; destruct x
  | |- context [ rt_fault ?r OpWrite ?p ] => decide_cond (rt_fault r OpWrite p)
  | |- context [ rt_fault ?r OpUnlink ?p ] => decide_cond (rt_fault r OpUnlink p)
  | |- context [ Js.includes only_code_files ?m ] => decide_cond (Js.includes only_code_files m)
  | |- context [ bool_decide (?n = Js.lit "AbortError") ] => decide_cond (bool_decide (n = Js.lit "AbortError"))
  end.

Ltac exec := js_step; repeat (branch; js_step).

(** Closes a goal in which a reply that arrives in full has a body that
    does not. *)
Ltac body_arrived :=
  match goal with
  | Ha : arrives ?r, E : body_json ?r = _ |- _ =>
      unfold arrives in Ha; rewrite E in Ha; contradiction
  end.

(** The route after the upload stage. *)
Section AfterUpload.

Variables (env : environment) (rt : runtime) (fs : gmap (list N) (list N)).

Lemma run_nothing req :
  named_files req = [] ->
  run env rt fs req
  = (review_handler env rt None ;; flush_timer) (initial_state fs).
Proof.
  intros H. unfold run, review_route. unfold bind at 1 3.
  rewrite (upload_single_nothing rt req _ H). reflexivity.
Qed.

Lemma run_stores req f :
  uploads req f ->
  run env rt fs req
  = (review_handler env rt (Some (stored_file rt f)) ;; flush_timer)
      (stored_state rt fs f).
Proof.
  intros H. unfold run, review_route. unfold bind at 1 3.
  rewrite (upload_single_stores rt req f fs H). reflexivity.
Qed.

Lemma run_refuses req f others :
  named_files req = f :: others ->
  fieldname f = Js.lit "file" ->
  allowedTypes_test (originalname f) = false ->
  run env rt fs req
  = (default_error_handler (Error only_code_files) ;; flush_timer)
      {| st_trace := [EvConsole (LogFileUpload (originalname f))];
         st_fs := fs; st_reads := 0%nat; st_timer := None;
         st_filePath := None |}.
Proof.
  intros Hn Hf Ha. unfold run, review_route. unfold bind at 1 3.
  rewrite (upload_single_refuses rt req f others fs Hn Hf Ha). reflexivity.
Qed.

End AfterUpload.

Section Coverage.
Variable rt : runtime.

(** The handler is given a file only for a request that uploads it. *)
Lemma upload_single_hands_over req fs file s' :
  upload_single rt req (initial_state fs) = (Returns (Next (Some file)), s') ->
  exists f, uploads req f /\ file = stored_file rt f.
Proof.
  unfold upload_single. rewrite multer_parts_named.
  destruct (named_files req) as [| f rest] eqn:Hn; [discriminate |].
  assert (Hf : originalname f <> [])
    by (apply (named_files_named req); rewrite Hn; left; reflexivity).
  simpl. destruct (originalname f) as [| c name] eqn:En; [congruence |].
  destruct (bool_decide (fieldname f = Js.lit "file")) eqn:Efield;
    [| discriminate].
  apply bool_decide_eq_true_1 in Efield.
  change (1 <=? 0) with false. simpl negb. simpl orb.
  unfold bind, attempt, try_catch, fileFilter, bind, console, emit.
  cbn -[lookup insert delete Z.leb Z.ltb allowedTypes_test].
  rewrite En.
  destruct (allowedTypes_test (c :: name)) eqn:Ea; [| discriminate].
  cbn -[lookup insert delete Z.leb Z.ltb allowedTypes_test].
  destruct (fileSize_limit <? size f) eqn:Es; [discriminate |].
  apply Z.ltb_ge in Es.
  destruct rest as [| g rest].
  - simpl. intros H. injection H as <- _.
    exists f. split.
    + split; [exact Hn | exact Efield | rewrite En; exact Ea | exact Es].
    + unfold stored_file. rewrite En. reflexivity.
  - assert (Hg : originalname g <> []).
    { apply (named_files_named req). rewrite Hn. right. left. reflexivity. }
    simpl. destruct (originalname g) as [| d gname]; [congruence |].
    rewrite orb_true_r. discriminate.
Qed.
End Coverage.

Ltac run_upload H :=
  rewrite (run_stores _ _ _ _ _ H); unfold stored_state, stored_file; exec.

(** ** Requests that never reach the backend *)

Section NoUpload.

Variables (env : environment) (rt : runtime) (fs : gmap (list N) (list N)).

(** C9.  A [POST /review] request that carries no file is answered with
    status 400 and the JSON body [{"error": "No file uploaded"}]; nothing
    is read, the backend is not called, no artifact is written and the
    file system is left as it was. *)
Theorem no_file_is_answered_400 (req : request) :
  named_files req = [] ->
  let r := run env rt fs req in
  responses (trace_of r)
  = [(400, JsonBody (JObj [(Js.lit "error", JStr (Js.lit "No file uploaded"))]))]
  /\ reads (trace_of r) = []
  /\ backend_calls (trace_of r) = []
  /\ artifacts (trace_of r) = []
  /\ fs_of r = fs
  /\ fst r = Returns tt.
Proof.
  intros H r. subst r. rewrite (run_nothing env rt fs req H).
  exec. repeat split.
Qed.

(** C1, as the code behaves.  A file whose name carries no extension of
    the allow-list is refused by the filter and never reaches the route
    handler: multer passes the filter's error to Express, whose default
    error handler answers with status 500 (not 400).  Nothing is stored
    or read and the backend is not called. *)
Theorem refused_file_is_answered_500 (req : request) (f : file_part)
        (others : list file_part) :
  named_files req = f :: others ->
  fieldname f = Js.lit "file" ->
  ~ has_allowed_extension (originalname f) ->
  let r := run env rt fs req in
  trace_of r
  = [EvConsole (LogFileUpload (originalname f));
     EvRespond 500 (ErrorPage (Error only_code_files))]
  /\ responses (trace_of r) = [(500, ErrorPage (Error only_code_files))]
  /\ backend_calls (trace_of r) = []
  /\ fs_of r = fs.
Proof.
  intros Hn Hf Hext r. subst r.
  assert (Ha : allowedTypes_test (originalname f) = false).
  { destruct (allowedTypes_test (originalname f)) eqn:E; [| reflexivity].
    exfalso. apply Hext, allowedTypes_test_extension, E. }
  rewrite (run_refuses env rt fs req f others Hn Hf Ha).
  exec. repeat split.
Qed.

End NoUpload.

(** C9 on a body that only carries a text field. *)
Lemma no_file_is_answered_400_witness :
  let req := [TextField (Js.lit "comment") (Js.lit "please review")] in
  let r := run default_env Sample.healthy ∅ req in
  named_files req = []
  /\ responses (trace_of r)
     = [(400, JsonBody (JObj [(Js.lit "error", JStr (Js.lit "No file uploaded"))]))].
Proof.
  split; [reflexivity |].
  apply (no_file_is_answered_400 default_env Sample.healthy ∅
           [TextField (Js.lit "comment") (Js.lit "please review")]).
  reflexivity.
Defined.

(** ** Facts about the string helpers *)

Section Strings.

Lemma strlen_nonneg s : 0 <= Js.strlen s.
Proof. unfold Js.strlen. lia. Qed.

Lemma strlen_zero s : (Js.strlen s =? 0) = true <-> s = [].
Proof.
  unfold Js.strlen. rewrite Z.eqb_eq. destruct s as [| c s].
  - split; reflexivity.
  - split; [| discriminate]. intros H. exfalso.
    change (length (c :: s)) with (S (length s)) in H. lia.
Qed.

Lemma strlen_app s t : Js.strlen (s ++ t) = Js.strlen s + Js.strlen t.
Proof. unfold Js.strlen. rewrite length_app. lia. Qed.

(** [s.substring(0, n)] is the prefix of [n] code units. *)
Lemma substring_prefix s n :
  0 <= n -> Js.substring s 0 n = firstn (Z.to_nat n) s.
Proof.
  intros Hn. unfold Js.substring, Js.strlen.
  set (len := Z.of_nat (length s)).
  assert (0 <= len) by (subst len; lia).
  rewrite (Z.max_l 0 0), (Z.min_l 0 len), (Z.max_l n 0) by lia.
  rewrite (Z.min_l 0), (Z.max_r 0) by lia.
  change (Z.to_nat 0) with 0%nat. rewrite skipn_O, Z.sub_0_r.
  destruct (Z.le_ge_cases n len) as [Hle | Hge].
  - rewrite Z.min_l by lia. reflexivity.
  - rewrite Z.min_r by lia. subst len.
    rewrite Nat2Z.id, !firstn_all2 by lia. reflexivity.
Qed.

Lemma trim_start_blank s : Js.trim_start s = [] <-> blank s.
Proof.
  unfold blank. induction s as [| c s IH]; simpl.
  - split; [constructor | reflexivity].
  - destruct (Js.is_whitespace c) eqn:E.
    + rewrite IH. split; [intros H; constructor; assumption |].
      intros H. inversion H; assumption.
    + split; [discriminate |]. intros H. inversion H; congruence.
Qed.

Lemma trim_start_head s c r :
  Js.trim_start s = c :: r -> Js.is_whitespace c = false.
Proof.
  induction s as [| d s IH]; simpl; [discriminate |].
  destruct (Js.is_whitespace d) eqn:E; [exact IH |].
  intros H. injection H as <- _. exact E.
Qed.

Lemma trim_start_suffix s : exists p, s = p ++ Js.trim_start s /\ blank p.
Proof.
  induction s as [| c s (p & Hp & Hb)]; simpl.
  - exists []. split; [reflexivity | constructor].
  - destruct (Js.is_whitespace c) eqn:E.
    + exists (c :: p). split; [simpl; congruence | constructor; assumption].
    + exists []. split; [reflexivity | constructor].
Qed.

(** The emptiness test of line 143 is on the trimmed text: it holds
    exactly for the texts made of white space only. *)
Lemma trim_blank s : Js.trim s = [] <-> blank s.
Proof.
  unfold Js.trim. split.
  - intros H. apply (f_equal (@rev N)) in H. rewrite rev_involutive in H.
    simpl in H. apply trim_start_blank in H.
    destruct (Js.trim_start s) as [| c r] eqn:E.
    + apply trim_start_blank. exact E.
    + exfalso. pose proof (trim_start_head s c r E) as Hc.
      unfold blank in H. rewrite List.Forall_forall in H.
      rewrite (H c) in Hc; [discriminate |].
      apply in_rev. rewrite rev_involutive. left. reflexivity.
  - intros H. apply trim_start_blank in H. rewrite H. reflexivity.
Qed.

Lemma trimmed_length_zero s : (Js.strlen (Js.trim s) =? 0) = true <-> blank s.
Proof. rewrite strlen_zero. apply trim_blank. Qed.


Lemma timer_delay_in_range T :
  1 <= T <= 2147483647 -> timer_delay T = T.
Proof.
  intros [H1 H2]. unfold timer_delay.
  apply Z.leb_le in H1, H2. rewrite H1, H2. reflexivity.
Qed.

End Strings.

(** Hypotheses as the conditions the handler tests. *)
Section Conditions.

Lemma not_blank_test s : ~ blank s -> (Js.strlen (Js.trim s) =? 0) = false.
Proof.
  intros H. destruct (Js.strlen (Js.trim s) =? 0) eqn:E; [| reflexivity].
  exfalso. apply H, trimmed_length_zero, E.
Qed.

Lemma blank_test s : blank s -> (Js.strlen (Js.trim s) =? 0) = true.
Proof. apply trimmed_length_zero. Qed.

Lemma within_limit_test s : Js.strlen s <= 10000 -> (Js.strlen s >? 10000) = false.
Proof. intros H. rewrite Z.gtb_ltb. apply Z.ltb_ge. exact H. Qed.

Lemma above_limit_test s : 10000 < Js.strlen s -> (Js.strlen s >? 10000) = true.
Proof. intros H. rewrite Z.gtb_ltb. apply Z.ltb_lt. exact H. Qed.

Lemma in_time_test T l : l < timer_delay T -> (timer_delay T <=? l) = false.
Proof. intros H. apply Z.leb_gt. exact H. Qed.

Lemma uploads_emptied req f : uploads req f -> uploads [FilePart (emptied f)] (emptied f).
Proof.
  intros [Hn Hf Ha Hs]. split; try assumption. simpl.
  destruct (originalname f) eqn:E; [| reflexivity].
  exfalso. apply (named_files_named req f); [rewrite Hn; left; reflexivity | exact E].
Qed.

End Conditions.

(** ** Files the handler refuses *)

Section Validation.

Variables (env : environment) (rt : runtime) (fs : gmap (list N) (list N)).
Variables (req : request) (f : file_part).
Hypothesis Hup : uploads req f.

(** C4, as the code behaves.  An uploaded file without content makes the
    handler throw "File appears to be empty", which its [catch] block
    answers with the generic status 500 (not 400); the backend is not
    called. *)
Theorem empty_file_is_answered_500 :
  text f = [] ->
  rt_fault rt OpRead (upload_path rt) = None ->
  let r := run env rt fs req in
  responses (trace_of r)
  = [(500, JsonBody (failure_body (Js.lit "File appears to be empty")
                                   (rt_clock rt 0)))]
  /\ backend_calls (trace_of r) = [].
Proof.
  intros Htext Hread r. subst r.
  assert (Hb : (Js.strlen (Js.trim (text f)) =? 0) = true)
    by (rewrite Htext; reflexivity).
  run_upload Hup; repeat split.
Qed.

(** C10.  A file made of white space only is rejected the same way as an
    empty one, whatever its raw length: the reply is the one the same
    upload without any content gets, the test being on the trimmed
    text, and the backend is not called. *)
Theorem blank_file_is_rejected_as_empty :
  blank (text f) ->
  let r := run env rt fs req in
  let r0 := run env rt fs [FilePart (emptied f)] in
  responses (trace_of r) = responses (trace_of r0)
  /\ backend_calls (trace_of r) = []
  /\ artifacts (trace_of r) = []
  /\ (rt_fault rt OpRead (upload_path rt) = None ->
      responses (trace_of r)
      = [(500, JsonBody (failure_body (Js.lit "File appears to be empty")
                                       (rt_clock rt 0)))]).
Proof.
  intros Hblank r r0. subst r r0.
  pose proof (blank_test _ Hblank) as Hb.
  assert (Hb0 : (Js.strlen (Js.trim []) =? 0) = true) by reflexivity.
  rewrite (run_stores env rt fs _ _ (uploads_emptied req f Hup)).
  run_upload Hup; repeat split; intros; congruence.
Qed.

(** C5, as the code behaves.  Content of more than 10000 characters makes
    the handler throw before the backend is called, and its [catch]
    block answers with the generic status 500 (not 400), the details
    being the size message unless the content is blank. *)
Theorem oversized_content_is_answered_500 :
  10000 < Js.strlen (text f) ->
  rt_fault rt OpRead (upload_path rt) = None ->
  let r := run env rt fs req in
  exists details,
    responses (trace_of r)
    = [(500, JsonBody (failure_body details (rt_clock rt 0)))]
    /\ (~ blank (text f) ->
        details = Js.lit "File too large for review (max 10KB). Please upload smaller files.")
    /\ backend_calls (trace_of r) = [].
Proof.
  intros Hlen Hread r. subst r.
  pose proof (above_limit_test _ Hlen) as Hl.
  destruct (Js.strlen (Js.trim (text f)) =? 0) eqn:Hb.
  - run_upload Hup; eexists; (split; [reflexivity | split; [| reflexivity]]);
      intros Hnb; exfalso; apply Hnb, trimmed_length_zero, Hb.
  - run_upload Hup; eexists; (split; [reflexivity | split; reflexivity]).
Qed.

End Validation.

(** ** The backend call *)

Section BackendCall.

Variables (env : environment) (rt : runtime) (fs : gmap (list N) (list N)).
Variables (req : request) (f : file_part).
Hypothesis Hup : uploads req f.
Hypothesis Hok : reviewable rt f.


(** C7, as the code behaves.  When the backend returns a reply that is
    not 2xx, the handler throws an error whose message carries the
    backend's status and body, and no artifact is written.  The [catch]
    block answers with status 500 and that message as details, unless
    the message contains the text of the upload filter's error, in
    which case it answers with status 400. *)
Theorem backend_error_is_answered_by_message (r : http_response) :
  backend_returns env rt r ->
  ok r = false ->
  let t := trace_of (run env rt fs req) in
  responses t
  = [ if Js.includes only_code_files (ollama_api_error r)
      then (400, JsonBody (rejection_body (ollama_api_error r)))
      else (500, JsonBody (failure_body (ollama_api_error r) (rt_clock rt 0))) ]
  /\ artifacts t = [].
Proof.
  intros (l & Hlat & Hl & Hres & Harr) Hnok t. subst t.
  destruct Hok as [Hread Htext Hlen].
  pose proof (not_blank_test _ Htext) as Hb.
  pose proof (within_limit_test _ Hlen) as Hlim.
  pose proof (in_time_test _ _ Hl) as Htime.
  unfold ollama_api_error.
  run_upload Hup; try body_arrived; split; reflexivity.
Qed.

(** Where the message of a backend error does not contain the filter's
    text, the reply is the 500 the specification describes. *)
Corollary backend_error_is_answered_500 (r : http_response) :
  backend_returns env rt r ->
  ok r = false ->
  Js.includes only_code_files (ollama_api_error r) = false ->
  let t := trace_of (run env rt fs req) in
  responses t
  = [(500, JsonBody (failure_body (ollama_api_error r) (rt_clock rt 0)))]
  /\ artifacts t = [].
Proof.
  intros (l & Hlat & Hl & Hres & Harr) Hnok Hplain t. subst t.
  destruct Hok as [Hread Htext Hlen].
  pose proof (not_blank_test _ Htext) as Hb.
  pose proof (within_limit_test _ Hlen) as Hlim.
  pose proof (in_time_test _ _ Hl) as Htime.
  unfold ollama_api_error in *.
  run_upload Hup; try body_arrived; split; reflexivity.
Qed.

End BackendCall.

(** ** Clean-up of the temporary file *)


Ltac find_event := repeat first [left; reflexivity | right].

Section Cleanup.

Variables (env : environment) (rt : runtime) (fs : gmap (list N) (list N)).
Variables (req : request) (f : file_part).
Hypothesis Hup : uploads req f.


End Cleanup.

(** ** Truncation and preview *)

Section Excerpts.

Lemma strlen_firstn s n :
  0 <= n <= Js.strlen s -> Js.strlen (firstn (Z.to_nat n) s) = n.
Proof.
  unfold Js.strlen. intros H. rewrite length_firstn. lia.
Qed.

Lemma truncatedContent_long content :
  5000 < Js.strlen content ->
  truncatedContent content
  = firstn (Z.to_nat 5000) content ++ truncation_marker
  /\ Js.strlen (firstn (Z.to_nat 5000) content) = 5000.
Proof.
  intros H. unfold truncatedContent.
  rewrite (proj2 (Z.gtb_gt _ _)) by lia.
  rewrite substring_prefix by lia.
  split; [reflexivity | apply strlen_firstn; lia].
Qed.

Lemma truncatedContent_short content :
  Js.strlen content <= 5000 -> truncatedContent content = content.
Proof.
  intros H. unfold truncatedContent.
  destruct (Js.strlen content >? 5000) eqn:E; [| reflexivity].
  apply Z.gtb_gt in E. lia.
Qed.

Lemma reviewPreview_long review :
  300 < Js.strlen review ->
  reviewPreview review = firstn (Z.to_nat 300) review ++ Js.lit "..."
  /\ Js.strlen (firstn (Z.to_nat 300) review) = 300.
Proof.
  intros H. unfold reviewPreview, PREVIEW_LENGTH.
  rewrite (proj2 (Z.gtb_gt _ _)) by lia.
  rewrite substring_prefix by lia.
  split; [reflexivity | apply strlen_firstn; lia].
Qed.

Lemma reviewPreview_short review :
  Js.strlen review <= 300 -> reviewPreview review = review.
Proof.
  intros H. unfold reviewPreview, PREVIEW_LENGTH.
  destruct (Js.strlen review >? 300) eqn:E; [| reflexivity].
  apply Z.gtb_gt in E. lia.
Qed.

Lemma reviewPreview_bounded review : Js.strlen (reviewPreview review) <= 303.
Proof.
  destruct (Z.le_gt_cases (Js.strlen review) 300) as [H | H].
  - rewrite reviewPreview_short by exact H. lia.
  - destruct (reviewPreview_long review H) as [-> Hlen].
    rewrite strlen_app, Hlen. reflexivity.
Qed.

Lemma field_prompt env prompt :
  field "prompt" (generate_request env prompt) = Some (JStr prompt).
Proof. reflexivity. Qed.

End Excerpts.

(** ** Reviews *)

Section Review.

Variables (env : environment) (rt : runtime) (fs : gmap (list N) (list N)).
Variables (req : request) (f : file_part).
Hypothesis Hup : uploads req f.

Lemma and_last (A B C D : Prop) : D -> A /\ B /\ C -> A /\ B /\ C /\ D.
Proof. tauto. Qed.

(** A review returned in time for a file that passes the checks is
    answered with status 200, once the artifact is written. *)
Lemma successful_review_is_answered_200 (r : http_response) (review : list N) :
  review_succeeds env rt f r review ->
  exists j path content,
    responses (trace_of (run env rt fs req)) = [(200, JsonBody j)]
    /\ field "reviewPreview" j = Some (JStr (reviewPreview review))
    /\ field "originalFile" j = Some (JStr (originalname f))
    /\ field "truncated" j = Some (JBool (Js.strlen (text f) >? 5000))
    /\ artifacts (trace_of (run env rt fs req)) = [(path, content)]
    /\ field "reviewFile" j = Some (JStr path).
Proof.
  intros [[Hread Htext Hlen] (l & Hlat & Hl & Hres & Harr) Hok Hjson Hne Hwrite].
  pose proof (not_blank_test _ Htext) as Hb.
  pose proof (within_limit_test _ Hlen) as Hlim.
  pose proof (in_time_test _ _ Hl) as Htime.
  destruct review as [| c review]; [congruence |].
  run_upload Hup.
  all: try (rewrite Hwrite in *; discriminate).
  all: cbn -[lookup insert delete].
  all: eexists _, _, _; repeat split.
Qed.

(** C2.  Every prompt submitted to the backend is the instructions of
    lines 165-172, which name the file, followed by the embedded
    content: the first 5000 characters of the content followed by the
    truncation marker when the content has more than 5000 characters,
    and the content unchanged otherwise.  Every successful reply carries
    a [truncated] flag that is [true] in the first case and [false] in
    the second.  One prompt is submitted for every file that passes the
    handler's checks, and a successful reply is sent whenever the review
    succeeds. *)
Theorem prompt_embeds_truncated_content :
  let t := trace_of (run env rt fs req) in
  let content := text f in
  let head := firstn (Z.to_nat 5000) content in
  (forall url b, In (url, b) (backend_calls t) ->
     exists embedded,
       field "prompt" b
       = Some (JStr (Js.lit "Review this " ++ originalname f
                     ++ Js.lit " file. Provide brief feedback on:" ++ [10%N]
                     ++ Js.lit "1. Code quality issues" ++ [10%N]
                     ++ Js.lit "2. Potential bugs" ++ [10%N]
                     ++ Js.lit "3. Best practice suggestions" ++ [10%N]
                     ++ [10%N]
                     ++ Js.lit "Keep response concise and under 500 words." ++ [10%N]
                     ++ [10%N]
                     ++ Js.lit "Code:" ++ [10%N]
                     ++ embedded))
       /\ (5000 < Js.strlen content ->
           embedded
           = head ++ [10%N; 10%N] ++ Js.lit "// ... (file truncated for review)"
           /\ Js.strlen head = 5000)
       /\ (Js.strlen content <= 5000 -> embedded = content))
  /\ (forall j, In (200, JsonBody j) (responses t) ->
        exists flag,
          field "truncated" j = Some (JBool flag)
          /\ (5000 < Js.strlen content -> flag = true)
          /\ (Js.strlen content <= 5000 -> flag = false))
  /\ (reviewable rt f -> exists url b, backend_calls t = [(url, b)])
  /\ (forall r review, review_succeeds env rt f r review ->
        exists j, responses t = [(200, JsonBody j)]).
Proof.
  intros t content head. subst t content head.
  apply and_last.
  { intros r review Hs.
    destruct (successful_review_is_answered_200 r review Hs)
      as (j & _ & _ & Hj & _).
    exists j. exact Hj. }
  run_upload Hup.
  all: cbn -[lookup insert delete].
  all: split;
    [ intros url b Hin;
      first [ destruct Hin as [E | []]; injection E as <- <-;
              exists (truncatedContent (text f));
              split; [exact (field_prompt _ _) |];
              split; intros H;
              [exact (truncatedContent_long _ H)
              | exact (truncatedContent_short _ H)]
            | destruct Hin ]
    | split;
      [ intros j Hin;
        first [ destruct Hin as [E | []];
                first [ discriminate E
                      | injection E as <-; eexists;
                        split; [reflexivity |];
                        split; intros H;
                        [apply Z.gtb_gt; lia
                        | rewrite Z.gtb_ltb; apply Z.ltb_ge; lia] ]
              | destruct Hin ]
      | intros [Hr Ht Hl];
        first [ eexists _, _; reflexivity
              | exfalso; congruence
              | exfalso; apply Ht, trimmed_length_zero; assumption
              | exfalso; apply within_limit_test in Hl; congruence ] ] ].
Qed.

Lemma preview_facts review :
  exists head rest,
    review = head ++ rest
    /\ (Js.strlen review <= 300 -> reviewPreview review = review)
    /\ (300 < Js.strlen review ->
        Js.strlen head = 300 /\ reviewPreview review = head ++ Js.lit "...").
Proof.
  exists (firstn (Z.to_nat 300) review), (skipn (Z.to_nat 300) review).
  split; [symmetry; apply firstn_skipn |].
  split; [apply reviewPreview_short |].
  intros H. destruct (reviewPreview_long review H) as [Hp Hl]. split; assumption.
Qed.

(** C3.  Every successful reply answers a reply of the backend whose
    review text is not empty, and its [reviewPreview] is that text when
    it has at most 300 characters, and otherwise its first 300
    characters followed by an ellipsis; in both cases it has at most 303
    characters.  Such a reply is sent whenever the review succeeds. *)
Theorem preview_is_bounded_prefix :
  let t := trace_of (run env rt fs req) in
  (forall j, In (200, JsonBody j) (responses t) ->
     exists r review preview,
       settles (rt_backend rt) = Resolves r
       /\ body_json r = Data (Some review)
       /\ review <> []
       /\ field "reviewPreview" j = Some (JStr preview)
       /\ Js.strlen preview <= 303
       /\ exists head rest,
            review = head ++ rest
            /\ (Js.strlen review <= 300 -> preview = review)
            /\ (300 < Js.strlen review ->
                Js.strlen head = 300 /\ preview = head ++ Js.lit "..."))
  /\ (forall r review, review_succeeds env rt f r review ->
        exists j, responses t = [(200, JsonBody j)]).
Proof.
  intros t. subst t. split.
  2:{ intros r review Hs.
      destruct (successful_review_is_answered_200 r review Hs)
        as (j & _ & _ & Hj & _).
      exists j. exact Hj. }
  run_upload Hup.
  all: cbn -[lookup insert delete].
  all: intros j Hin; try (exfalso; exact Hin);
    destruct Hin as [E | []]; try discriminate E.
  all: injection E as E; subst j.
  all: eexists _, _, _; split; [reflexivity |]; split; [eassumption |].
  all: split; [discriminate |]; split; [reflexivity |].
  all: split; [apply reviewPreview_bounded | apply preview_facts].
Qed.

End Review.

(** ** The theorems on sample requests *)

Lemma sample_uploads name content :
  allowedTypes_test (Js.lit name) = true ->
  Js.strlen content <= fileSize_limit ->
  uploads (Sample.post (Sample.upload name content)) (Sample.upload name content).
Proof.
  intros Ha Hs. split; try assumption; try reflexivity.
  simpl. destruct (Js.lit name) eqn:E; [discriminate Ha | reflexivity].
Qed.

Lemma sample_reviewable b name content :
  Js.trim content <> [] ->
  Js.strlen content <= 10000 ->
  reviewable (Sample.runtime_with b) (Sample.upload name content).
Proof.
  intros Ht Hl. split; [reflexivity | | exact Hl].
  intros Hb. apply Ht, trim_blank, Hb.
Qed.

Lemma main_py_uploads : uploads (Sample.post Sample.main_py) Sample.main_py.
Proof. apply sample_uploads; [reflexivity | vm_compute; discriminate]. Qed.

Lemma main_py_reviewable b : reviewable (Sample.runtime_with b) Sample.main_py.
Proof. apply sample_reviewable; vm_compute; discriminate. Qed.

(** C1 on [notes.txt]: the reply is a 500 where the specification asks for
    a 400, and the backend is not called. *)
Lemma refused_file_is_answered_500_witness :
  ~ has_allowed_extension (originalname Sample.notes_txt)
  /\ responses (trace_of (run default_env Sample.healthy ∅ (Sample.post Sample.notes_txt)))
     = [(500, ErrorPage (Error only_code_files))]
  /\ backend_calls (trace_of (run default_env Sample.healthy ∅ (Sample.post Sample.notes_txt)))
     = [].
Proof.
  assert (H : ~ has_allowed_extension (originalname Sample.notes_txt)).
  { intros H. apply allowedTypes_test_extension in H. discriminate H. }
  split; [exact H |].
  pose proof (refused_file_is_answered_500 default_env Sample.healthy ∅
                (Sample.post Sample.notes_txt) Sample.notes_txt []
                eq_refl eq_refl H) as (_ & H1 & H2 & _).
  split; assumption.
Defined.

(** C4 on an empty [empty.py]: the reply is a 500 where the specification
    asks for a 400. *)
Lemma empty_file_is_answered_500_witness :
  text Sample.empty_py = []
  /\ responses (trace_of (run default_env Sample.healthy ∅ (Sample.post Sample.empty_py)))
     = [(500, JsonBody (failure_body (Js.lit "File appears to be empty") 1700000000000))].
Proof.
  split; [reflexivity |].
  refine (proj1 (empty_file_is_answered_500 default_env Sample.healthy ∅
                   (Sample.post Sample.empty_py) Sample.empty_py _ eq_refl eq_refl)).
  apply sample_uploads; [reflexivity | vm_compute; discriminate].
Defined.

(** C10 on three spaces. *)
Lemma blank_file_is_rejected_as_empty_witness :
  Js.strlen (text Sample.spaces_py) = 3
  /\ responses (trace_of (run default_env Sample.healthy ∅ (Sample.post Sample.spaces_py)))
     = responses (trace_of (run default_env Sample.healthy ∅
                              [FilePart (emptied Sample.spaces_py)])).
Proof.
  split; [reflexivity |].
  refine (proj1 (blank_file_is_rejected_as_empty default_env Sample.healthy ∅
                   (Sample.post Sample.spaces_py) Sample.spaces_py _ _)).
  - apply sample_uploads; [reflexivity | vm_compute; discriminate].
  - apply trim_blank. reflexivity.
Defined.

(** C5 on 10001 characters: the reply is a 500 where the specification
    asks for a 400. *)
Lemma oversized_content_is_answered_500_witness :
  10000 < Js.strlen (text Sample.huge_py)
  /\ exists details,
       responses (trace_of (run default_env Sample.healthy ∅ (Sample.post Sample.huge_py)))
       = [(500, JsonBody (failure_body details 1700000000000))]
       /\ (~ blank (text Sample.huge_py) ->
           details = Js.lit "File too large for review (max 10KB). Please upload smaller files.")
       /\ backend_calls (trace_of (run default_env Sample.healthy ∅ (Sample.post Sample.huge_py)))
          = [].
Proof.
  assert (Hlen : 10000 < Js.strlen (text Sample.huge_py)) by (vm_compute; reflexivity).
  split; [exact Hlen |].
  refine (oversized_content_is_answered_500 default_env Sample.healthy ∅
            (Sample.post Sample.huge_py) Sample.huge_py _ Hlen eq_refl).
  apply sample_uploads; [reflexivity | vm_compute; discriminate].
Defined.


(** C7 on a 503 whose body is the text of the upload filter's error: the
    reply is a 400 where the specification asks for a 500. *)
Lemma backend_error_is_answered_by_message_witness :
  backend_returns default_env Sample.echoing Sample.unavailable
  /\ ok Sample.unavailable = false
  /\ responses (trace_of (run default_env Sample.echoing ∅ (Sample.post Sample.main_py)))
     = [(400, JsonBody (rejection_body
                          (Js.lit "Ollama API error: 503 - Only code files are allowed")))].
Proof.
  assert (H : backend_returns default_env Sample.echoing Sample.unavailable)
    by (exists 40; repeat split).
  split; [exact H |]. split; [reflexivity |].
  exact (proj1 (backend_error_is_answered_by_message default_env Sample.echoing ∅
                  (Sample.post Sample.main_py) Sample.main_py
                  main_py_uploads (main_py_reviewable _) Sample.unavailable H eq_refl)).
Defined.

(** C2 on 5001 characters: the prompt carries 5000 of them and the marker,
    and the reply is flagged as truncated. *)
Lemma prompt_embeds_truncated_content_witness :
  5000 < Js.strlen (text Sample.big_js)
  /\ exists url b j,
       backend_calls (trace_of (run default_env Sample.healthy ∅ (Sample.post Sample.big_js)))
       = [(url, b)]
       /\ field "prompt" b
          = Some (JStr (optimizedPrompt (Js.lit "big.js")
                          (repeat 120%N (Z.to_nat 5000) ++ truncation_marker)))
       /\ responses (trace_of (run default_env Sample.healthy ∅ (Sample.post Sample.big_js)))
          = [(200, JsonBody j)]
       /\ field "truncated" j = Some (JBool true).
Proof.
  assert (Hlen : 5000 < Js.strlen (text Sample.big_js)) by (vm_compute; reflexivity).
  split; [exact Hlen |].
  assert (Hup : uploads (Sample.post Sample.big_js) Sample.big_js)
    by (apply sample_uploads; [reflexivity | vm_compute; discriminate]).
  destruct (prompt_embeds_truncated_content default_env Sample.healthy ∅ _ _ Hup)
    as (Hprompt & Hflag & Hcall & _).
  destruct Hcall as (url & b & Hcall).
  { apply sample_reviewable; vm_compute; discriminate. }
  assert (Hresp : exists j,
             responses (trace_of (run default_env Sample.healthy ∅
                                    (Sample.post Sample.big_js)))
             = [(200, JsonBody j)]) by (eexists; vm_compute; reflexivity).
  destruct Hresp as (j & Hresp).
  exists url, b, j.
  destruct (Hprompt url b) as (embedded & Hfield & Hlong & _).
  { rewrite Hcall. left. reflexivity. }
  destruct (Hlong Hlen) as [Hemb _]. rewrite Hemb in Hfield.
  destruct (Hflag j) as (flag & Hfl & Htrue & _).
  { rewrite Hresp. left. reflexivity. }
  rewrite (Htrue Hlen) in Hfl.
  split; [exact Hcall |]. split; [exact Hfield |]. split; [exact Hresp | exact Hfl].
Defined.

(** C3 on a review of 301 characters: the preview has at most 303. *)
Lemma preview_is_bounded_prefix_witness :
  exists j preview,
    responses (trace_of (run default_env Sample.verbose ∅ (Sample.post Sample.main_py)))
    = [(200, JsonBody j)]
    /\ field "reviewPreview" j = Some (JStr preview)
    /\ Js.strlen preview <= 303
    /\ preview = repeat 114%N (Z.to_nat 300) ++ Js.lit "...".
Proof.
  assert (Hresp : exists j,
             responses (trace_of (run default_env Sample.verbose ∅
                                    (Sample.post Sample.main_py)))
             = [(200, JsonBody j)]) by (eexists; vm_compute; reflexivity).
  destruct Hresp as (j & Hresp).
  destruct (proj1 (preview_is_bounded_prefix default_env Sample.verbose ∅
                     (Sample.post Sample.main_py) Sample.main_py main_py_uploads) j)
    as (r & review & preview & Hr & Hj & Hne & Hfield & Hbound & _).
  { rewrite Hresp. left. reflexivity. }
  exists j, preview.
  split; [exact Hresp |]. split; [exact Hfield |]. split; [exact Hbound |].
  assert (Hj2 : field "reviewPreview" j
                = Some (JStr (repeat 114%N (Z.to_nat 300) ++ Js.lit "..."))).
  { apply (f_equal (fun l => match l with
                             | [(_, JsonBody j')] => field "reviewPreview" j'
                             | _ => None
                             end)) in Hresp.
    rewrite <- Hresp. vm_compute. reflexivity. }
  rewrite Hfield in Hj2. injection Hj2 as ->. reflexivity.
Defined.


(** The scenario of a small Python file: status 200, no truncation, the
    whole review as preview, the uploaded name echoed and the temporary
    file gone. *)
Example small_python_file :
  exists j,
    responses (trace_of (run default_env Sample.healthy ∅ (Sample.post Sample.main_py)))
    = [(200, JsonBody j)]
    /\ field "truncated" j = Some (JBool false)
    /\ field "reviewPreview" j = Some (JStr (Js.lit "Looks fine."))
    /\ field "originalFile" j = Some (JStr (Js.lit "main.py"))
    /\ fs_of (run default_env Sample.healthy ∅ (Sample.post Sample.main_py))
       !! upload_path Sample.healthy = None.
Proof. eexists. vm_compute. repeat split. Qed.

(** A reply after 119999 ms beats the default deadline; one after 120001 ms
    does not. *)
Example default_deadline :
  responses (trace_of (run default_env
                         (Sample.runtime_with
                            (Sample.replying 119999 (Sample.review "Looks fine.")))
                         ∅ (Sample.post Sample.main_py)))
  = [(200, JsonBody
             (JObj [ (Js.lit "message", JStr (Js.lit "Review generated successfully"));
                     (Js.lit "model", JStr (Js.lit "llama3.2:1b"));
                     (Js.lit "processingTime", JStr (Js.lit "7ms"));
                     (Js.lit "reviewFile",
                      JStr (Js.lit "uploads/review_1700000000021_main.py.md"));
                     (Js.lit "reviewPreview", JStr (Js.lit "Looks fine."));
                     (Js.lit "originalFile", JStr (Js.lit "main.py"));
                     (Js.lit "requestId", JNum 1700000000000);
                     (Js.lit "truncated", JBool false) ]))]
  /\ responses (trace_of (run default_env
                            (Sample.runtime_with
                               (Sample.replying 120001 (Sample.review "Looks fine.")))
                            ∅ (Sample.post Sample.main_py)))
     = [(408, JsonBody
                (JObj [ (Js.lit "error",
                         JStr (Js.lit "Request timeout - Model took longer than 120 seconds"));
                        (Js.lit "suggestion",
                         JStr (Js.lit "Try uploading a smaller file or increase REQUEST_TIMEOUT environment variable"));
                        (Js.lit "requestId", JNum 1700000000000) ]))].
Proof. split; vm_compute; reflexivity. Qed.

(** The upload stage on what it refuses besides a name outside the
    allow-list: a file in a field other than [file], and a file above the
    transport limit, which is removed again.  Both end in Express's
    default error reply. *)
Example upload_stage_refusals :
  responses (trace_of (run default_env Sample.healthy ∅
                         [FilePart {| fieldname := Js.lit "document";
                                      originalname := Js.lit "main.py";
                                      size := 8; text := Js.lit "print(1)" |}]))
  = [(500, ErrorPage (MulterError "Unexpected field"))]
  /\ responses (trace_of (run default_env Sample.healthy ∅
                            [FilePart {| fieldname := Js.lit "file";
                                         originalname := Js.lit "main.py";
                                         size := fileSize_limit + 1;
                                         text := Js.lit "print(1)" |}]))
     = [(500, ErrorPage (MulterError "File too large"))]
  /\ fs_of (run default_env Sample.healthy ∅
              [FilePart {| fieldname := Js.lit "file";
                           originalname := Js.lit "main.py";
                           size := fileSize_limit + 1;
                           text := Js.lit "print(1)" |}])
     !! upload_path Sample.healthy = None.
Proof. repeat split; vm_compute; reflexivity. Qed.

(** * Further properties *)

(** ** The upload stage and the route as a whole *)

Section UploadCases.

Variable rt : runtime.

Lemma upload_single_gives_up req f rest fs :
  named_files req = f :: rest ->
  ~ uploads req f ->
  exists e t fs',
    upload_single rt req (initial_state fs)
    = (Returns (NextError e),
       {| st_trace := t; st_fs := fs'; st_reads := 0%nat; st_timer := None;
          st_filePath := None |})
    /\ upload_error e
    /\ responses t = [] /\ backend_calls t = [] /\ reads t = []
    /\ artifacts t = []
    /\ (forall id, ~ In (EvConsole (LogStarting id)) t)
    /\ (fs' = fs \/ fs' = delete (upload_path rt) (<[upload_path rt := text f]> fs)).
Proof.
  intros Hn Hnot. unfold upload_single. rewrite multer_parts_named, Hn.
  assert (Hf : originalname f <> [])
    by (apply (named_files_named req); rewrite Hn; left; reflexivity).
  simpl. destruct (originalname f) as [| c name] eqn:En; [congruence |].
  destruct (bool_decide (fieldname f = Js.lit "file")) eqn:Efield.
  2:{ simpl. eexists _, _, _. split; [reflexivity |].
      unfold upload_error. repeat split; auto. }
  apply bool_decide_eq_true_1 in Efield.
  change (1 <=? 0) with false. simpl negb. simpl orb.
  unfold bind, attempt, try_catch, fileFilter, bind, console, emit.
  cbn -[lookup insert delete Z.leb Z.ltb allowedTypes_test].
  rewrite En.
  destruct (allowedTypes_test (c :: name)) eqn:Ea.
  2:{ eexists _, _, _. split; [reflexivity |].
      unfold upload_error. repeat split; auto.
      intros id [H | []]. discriminate H. }
  cbn -[lookup insert delete Z.leb Z.ltb allowedTypes_test].
  destruct (fileSize_limit <? size f) eqn:Es.
  { eexists _, _, _. split; [reflexivity |].
    unfold upload_error. repeat split; auto.
    intros id [H | [H | [H | []]]]; discriminate H. }
  apply Z.ltb_ge in Es.
  destruct rest as [| g rest].
  - exfalso. apply Hnot. split; [exact Hn | exact Efield | rewrite En; exact Ea | exact Es].
  - assert (Hg : originalname g <> []).
    { apply (named_files_named req). rewrite Hn. right. left. reflexivity. }
    simpl. destruct (originalname g) as [| d gname]; [congruence |].
    rewrite orb_true_r.
    cbn -[lookup insert delete Z.leb Z.ltb allowedTypes_test].
    eexists _, _, _. split; [reflexivity |].
    unfold upload_error. repeat split; auto.
    intros id [H | [H | [H | []]]]; discriminate H.
Qed.

End UploadCases.

Section AllRequests.

Variables (env : environment) (rt : runtime) (fs : gmap (list N) (list N)).

Lemma uploads_or_not req f rest :
  named_files req = f :: rest -> uploads req f \/ ~ uploads req f.
Proof.
  intros Hn. destruct rest as [| g rest].
  2:{ right. intros [H _ _ _]. rewrite Hn in H. congruence. }
  destruct (decide (fieldname f = Js.lit "file")) as [Hf | Hf].
  2:{ right. intros [_ H _ _]. contradiction. }
  destruct (allowedTypes_test (originalname f)) eqn:Ha.
  2:{ right. intros [_ _ H _]. congruence. }
  destruct (Z_le_gt_dec (size f) fileSize_limit) as [Hs | Hs].
  - left. split; assumption.
  - right. intros [_ _ _ H]. lia.
Qed.

(** What a run on a stored upload always satisfies: it ends with one
    reply, unless the body of the backend's reply never completes, in
    which case it waits for ever with the upload still on the disk. *)
Lemma upload_run_facts req f :
  uploads req f ->
  let r := run env rt fs req in
  let t := trace_of r in
  (fst r = Returns tt /\ (exists code b, responses t = [(code, b)])
   \/ fst r = Hangs /\ responses t = []
      /\ ~ In (EvUnlink (upload_path rt)) t
      /\ fs_of r !! upload_path rt = Some (text f)
      /\ reviewable rt f /\ body_stalls env rt)
  /\ (reviewable rt f -> body_stalls env rt -> fst r = Hangs)
  /\ (length (backend_calls t) <= 1)%nat
  /\ (backend_calls t <> [] -> reviewable rt f)
  /\ (artifacts t <> [] <-> exists j, responses t = [(200, JsonBody j)])
  /\ reads t = [upload_path rt].
Proof.
  intros Hup r t. subst r t.
  run_upload Hup.
  all: cbn -[lookup insert delete].
  all: split;
    [ first
        [ left; split; [reflexivity | eexists _, _; reflexivity]
        | right; split; [reflexivity |]; split; [reflexivity |];
          split;
          [ intros H; repeat (destruct H as [H | H]; [discriminate H |]); exact H
          |];
          split; [first [reflexivity | apply lookup_insert_eq] |];
          split;
          [ split;
            [ assumption
            | intros Hb; apply blank_test in Hb; congruence
            | apply Z.leb_le; rewrite Z.leb_antisym, <- Z.gtb_ltb;
              match goal with H : (_ >? 10000) = false |- _ => rewrite H end;
              reflexivity ]
          | match goal with
            | Hl : latency _ = Some ?l, Ht : (timer_delay _ <=? ?l) = false,
              Hs : settles _ = Resolves ?r0, Hb : body_json ?r0 = Unfinished |- _ =>
                exists l, r0; split; [exact Hl |];
                split; [apply Z.leb_gt; exact Ht |];
                split; [exact Hs | exact Hb]
            end ] ]
    | ].
  all: split;
    [ intros [Hr Ht Hlen] (l' & r' & Hl' & Hlt' & Hs' & Hb');
      first
        [ reflexivity
        | exfalso; congruence
        | exfalso; apply Ht, trimmed_length_zero; assumption
        | exfalso; apply within_limit_test in Hlen; congruence
        | exfalso;
          match goal with
          | H : (timer_delay _ <=? ?z) = true |- _ =>
              apply Z.leb_le in H; assert (z = l') by congruence; lia
          end ]
    | ].
  all: split; [lia |].
  all: split;
    [ first [ intros H; exfalso; apply H; reflexivity
            | intros _; split;
              [ assumption
              | intros Hb; apply blank_test in Hb; congruence
              | apply Z.leb_le; rewrite Z.leb_antisym, <- Z.gtb_ltb;
                match goal with H : (_ >? 10000) = false |- _ => rewrite H end;
                reflexivity ] ]
    | ].
  all: split; [| reflexivity].
  all: split;
    [ first [ intros H; exfalso; apply H; reflexivity
            | intros _; eexists; reflexivity ]
    | first [ intros [j E]; discriminate E
            | intros _; discriminate ] ].
Qed.


Lemma responses_snoc t code b :
  responses (t ++ [EvRespond code b]) = responses t ++ [(code, b)].
Proof. unfold responses. rewrite omap_app. reflexivity. Qed.

Lemma backend_calls_snoc t code b :
  backend_calls (t ++ [EvRespond code b]) = backend_calls t.
Proof. unfold backend_calls. rewrite omap_app. simpl. apply app_nil_r. Qed.

Lemma artifacts_snoc t code b :
  artifacts (t ++ [EvRespond code b]) = artifacts t.
Proof. unfold artifacts. rewrite omap_app. simpl. apply app_nil_r. Qed.

Lemma reads_snoc t code b :
  reads (t ++ [EvRespond code b]) = reads t.
Proof. unfold reads. rewrite omap_app. simpl. apply app_nil_r. Qed.

(** The run of a request that multer refuses. *)
Lemma run_gives_up req f rest :
  named_files req = f :: rest ->
  ~ uploads req f ->
  exists e t fs',
    run env rt fs req
    = (Returns tt,
       {| st_trace := t ++ [EvRespond 500 (ErrorPage e)]; st_fs := fs';
          st_reads := 0%nat; st_timer := None; st_filePath := None |})
    /\ upload_error e
    /\ responses t = [] /\ backend_calls t = [] /\ reads t = []
    /\ artifacts t = []
    /\ (forall id, ~ In (EvConsole (LogStarting id)) t)
    /\ (fs' = fs \/ fs' = delete (upload_path rt) (<[upload_path rt := text f]> fs)).
Proof.
  intros Hn Hnot.
  destruct (upload_single_gives_up rt req f rest fs Hn Hnot)
    as (e & t & fs' & Hrun & Hrest).
  exists e, t, fs'. split; [| exact Hrest].
  unfold run, review_route. unfold bind at 1. rewrite Hrun. reflexivity.
Qed.

(** A request either uploads a file or is answered without the handler
    touching the file system or the backend. *)
Lemma run_without_upload req :
  (exists f, uploads req f)
  \/ (let r := run env rt fs req in
      fst r = Returns tt
      /\ (exists code b, responses (trace_of r) = [(code, b)] /\ code <> 200)
      /\ backend_calls (trace_of r) = []
      /\ artifacts (trace_of r) = []
      /\ reads (trace_of r) = []).
Proof.
  destruct (named_files req) as [| f rest] eqn:Hn.
  - right. rewrite (run_nothing env rt fs req Hn). exec.
    split; [reflexivity |]. split; [| repeat split].
    eexists _, _. split; [reflexivity | discriminate].
  - destruct (uploads_or_not req f rest Hn) as [Hup | Hnot].
    + left. exists f. exact Hup.
    + right.
      destruct (run_gives_up req f rest Hn Hnot)
        as (e & t & fs' & -> & _ & Hr & Hb & Hd & Ha & _).
      cbn. rewrite responses_snoc, backend_calls_snoc, artifacts_snoc,
        reads_snoc, Hr, Hb, Hd, Ha.
      split; [reflexivity |]. split; [| repeat split].
      eexists _, _. split; [reflexivity | discriminate].
Qed.

(** X4.  Every request is answered exactly once, after which the route
    returns, with one exception: for an uploaded file that passes the
    checks, when the headers of the backend's reply arrive before the
    deadline and its body never completes, the route waits for ever,
    sends no reply and never removes the upload, which stays on the
    disk.  The route never ends in an error of its own. *)
Theorem request_is_answered_unless_body_stalls req :
  let r := run env rt fs req in
  let t := trace_of r in
  (fst r = Returns tt /\ (exists code b, responses t = [(code, b)])
   \/ fst r = Hangs /\ responses t = []
      /\ ~ In (EvUnlink (upload_path rt)) t
      /\ exists f, uploads req f /\ reviewable rt f /\ body_stalls env rt
                   /\ fs_of r !! upload_path rt = Some (text f))
  /\ (forall f, uploads req f -> reviewable rt f -> body_stalls env rt ->
                fst r = Hangs /\ responses t = []).
Proof.
  cbv zeta. split.
  - destruct (run_without_upload req)
      as [[f Hup] | (H1 & (code & b & H2 & _) & _)].
    + destruct (upload_run_facts req f Hup)
        as ([(H1 & H2) | (H1 & H2 & H3 & H4 & H5 & H6)] & _).
      * left. split; assumption.
      * right. split; [exact H1 |]. split; [exact H2 |]. split; [exact H3 |].
        exists f. split; [exact Hup |]. split; [exact H5 |].
        split; [exact H6 | exact H4].
    + left. split; [exact H1 | exists code, b; exact H2].
  - intros f Hup Hr Hs.
    destruct (upload_run_facts req f Hup) as (Hends & Hhang & _).
    pose proof (Hhang Hr Hs) as Hh. split; [exact Hh |].
    destruct Hends as [(H1 & _) | (_ & H2 & _)]; [congruence | exact H2].
Qed.

(** X5.  The route calls the backend at most once (there is no retry), and
    only for an uploaded file that could be read, is not blank and has at
    most 10000 characters. *)
Theorem backend_is_called_at_most_once req :
  let t := trace_of (run env rt fs req) in
  (length (backend_calls t) <= 1)%nat
  /\ (backend_calls t <> [] -> exists f, uploads req f /\ reviewable rt f).
Proof.
  destruct (run_without_upload req) as [[f Hup] | (_ & _ & H & _)].
  - destruct (upload_run_facts req f Hup) as (_ & _ & H3 & H4 & _).
    split; [exact H3 |]. intros Hne. exists f. split; [exact Hup | exact (H4 Hne)].
  - cbv zeta. rewrite H. split; [simpl; lia | congruence].
Qed.

(** X6.  The route writes a review file exactly when it answers 200. *)
Theorem artifact_is_written_iff_success req :
  let t := trace_of (run env rt fs req) in
  artifacts t <> [] <-> exists j, responses t = [(200, JsonBody j)].
Proof.
  destruct (run_without_upload req)
    as [[f Hup] | (_ & (code & b & Hr & Hc) & _ & Ha & _)].
  - destruct (upload_run_facts req f Hup) as (_ & _ & _ & _ & H & _). exact H.
  - cbv zeta. rewrite Ha, Hr. split; [congruence |].
    intros [j E]. injection E as E _. contradiction.
Qed.

(** X3.  A request whose first named file is not uploaded (it sits in
    another field, is followed by a second file, has a name outside the
    allow-list or more than 2 MiB) never reaches the handler: Express
    answers 500 with the upload error, nothing is read, the backend is not
    called, and the disk is as before, at most without the temporary path. *)
Theorem refused_upload_is_answered_by_express req f rest :
  named_files req = f :: rest ->
  ~ uploads req f ->
  let r := run env rt fs req in
  exists e,
    upload_error e
    /\ responses (trace_of r) = [(500, ErrorPage e)]
    /\ backend_calls (trace_of r) = []
    /\ reads (trace_of r) = []
    /\ (forall id, ~ In (EvConsole (LogStarting id)) (trace_of r))
    /\ (fs_of r = fs \/ fs_of r = delete (upload_path rt) fs).
Proof.
  intros Hn Hnot.
  destruct (run_gives_up req f rest Hn Hnot)
    as (e & t & fs' & -> & He & Hr & Hb & Hd & Ha & Hs & Hfs).
  exists e. cbn.
  rewrite responses_snoc, backend_calls_snoc, reads_snoc, Hr, Hb, Hd.
  repeat split; try assumption; try reflexivity.
  - intros id Hin. apply in_app_or in Hin. destruct Hin as [Hin | [Hin | []]].
    + exact (Hs id Hin).
    + discriminate Hin.
  - destruct Hfs as [-> | ->]; [left; reflexivity |].
    right. apply delete_insert_eq.
Qed.

End AllRequests.

(** ** The filter, paths and lengths *)

Section Paths.

Lemma name_char_no_slash c : name_char c -> c <> 47%N.
Proof. intros [H | H] ->; [discriminate H | discriminate H]. Qed.

Lemma sanitizedFilename_chars name :
  Forall name_char (sanitizedFilename name).
Proof.
  unfold sanitizedFilename. apply List.Forall_forall. intros c Hin.
  apply in_map_iff in Hin. destruct Hin as (d & <- & _).
  destruct (unsafe_char d) eqn:E; [right; reflexivity | left; exact E].
Qed.

Lemma uint_digits_no_slash d :
  Forall (fun c => c <> 47%N) (Js.lit (NilEmpty.string_of_uint d)).
Proof.
  induction d; simpl; constructor; try assumption; discriminate.
Qed.

Lemma of_int_no_slash n : Forall (fun c => c <> 47%N) (Js.of_int n).
Proof.
  unfold Js.of_int.
  destruct (Z.to_int n) as [d | d]; simpl.
  - destruct d; try apply uint_digits_no_slash.
    constructor; [discriminate | constructor].
  - change (Js.lit (String "-" ?s)) with (45%N :: Js.lit s).
    constructor; [discriminate |].
    destruct d; try apply uint_digits_no_slash.
    constructor; [discriminate | constructor].
Qed.

(** X8.  The path of the review file is uploads/ followed by one segment
    that holds no slash and ends in .md, whatever the client called the
    file; the sanitized file name consists of letters, digits, dots, hyphens
    and underscores. *)
Theorem artifact_path_stays_in_uploads timestamp name :
  exists segment,
    mdPath timestamp name = Js.lit "uploads/" ++ segment
    /\ ~ In 47%N segment
    /\ Js.ends_with_ci (Js.lit ".md") segment = true
    /\ Forall name_char (sanitizedFilename name).
Proof.
  unfold mdPath. eexists. split; [reflexivity |].
  split; [| split; [| apply sanitizedFilename_chars]].
  - rewrite !in_app_iff. intros [H | [H | [H | [H | H]]]].
    + vm_compute in H. intuition discriminate.
    + pose proof (of_int_no_slash timestamp) as Hn.
      rewrite List.Forall_forall in Hn. exact (Hn _ H eq_refl).
    + vm_compute in H. intuition discriminate.
    + pose proof (sanitizedFilename_chars name) as Hn.
      rewrite List.Forall_forall in Hn. exact (name_char_no_slash _ (Hn _ H) eq_refl).
    + vm_compute in H. intuition discriminate.
  - apply ends_with_ci_suffix.
    exists (Js.lit "review_" ++ Js.of_int timestamp ++ Js.lit "_"
            ++ sanitizedFilename name), (Js.lit ".md").
    split; [| reflexivity].
    repeat rewrite <- app_assoc. reflexivity.
Qed.

(** X9.  The prompt is 167 characters longer than the file name and the
    embedded content together, and the embedded content has at most 5036
    characters and at most 36 more than the file. *)
Theorem prompt_length_is_bounded name content :
  Js.strlen (optimizedPrompt name (truncatedContent content))
  = 167 + Js.strlen name + Js.strlen (truncatedContent content)
  /\ Js.strlen (truncatedContent content) <= 5036
  /\ Js.strlen (truncatedContent content) <= Js.strlen content + 36.
Proof.
  split.
  - unfold optimizedPrompt. rewrite !strlen_app.
    change (Js.strlen nl) with 1.
    change (Js.strlen (Js.lit "Review this ")) with 12.
    change (Js.strlen (Js.lit " file. Provide brief feedback on:")) with 33.
    change (Js.strlen (Js.lit "1. Code quality issues")) with 22.
    change (Js.strlen (Js.lit "2. Potential bugs")) with 17.
    change (Js.strlen (Js.lit "3. Best practice suggestions")) with 28.
    change (Js.strlen (Js.lit "Keep response concise and under 500 words.")) with 42.
    change (Js.strlen (Js.lit "Code:")) with 5.
    lia.
  - destruct (Z.le_gt_cases (Js.strlen content) 5000) as [H | H].
    + rewrite truncatedContent_short by exact H. lia.
    + destruct (truncatedContent_long content) as [-> Hlen]; [lia |].
      rewrite strlen_app, Hlen.
      change (Js.strlen truncation_marker) with 36. lia.
Qed.

End Paths.

Section UploadOutcome.

(** X1.  The upload filter logs the file name and then accepts the file
    exactly when its name carries an extension of the allow-list (any letter
    case); otherwise it fails with the error Only code files are allowed.
    It never touches the file system. *)
Theorem fileFilter_accepts_allowed_extensions (file : file_part) (s : state) :
  (has_allowed_extension (originalname file) ->
   fst (fileFilter file s) = Returns true)
  /\ (~ has_allowed_extension (originalname file) ->
      fst (fileFilter file s) = Throws (Error only_code_files))
  /\ st_trace (snd (fileFilter file s))
     = st_trace s ++ [EvConsole (LogFileUpload (originalname file))]
  /\ st_fs (snd (fileFilter file s)) = st_fs s.
Proof.
  unfold fileFilter, bind, console, emit.
  cbn -[allowedTypes_test].
  destruct (allowedTypes_test (originalname file)) eqn:E.
  - repeat split. intros H. exfalso. apply H, allowedTypes_test_extension, E.
  - repeat split. intros H. apply allowedTypes_test_extension in H. congruence.
Qed.

Variable rt : runtime.

(** X2.  The upload stage hands a stored file to the handler exactly when
    the request uploads one: a single named file, in the field file, with an
    allowed extension and at most 2 MiB; the stored file then records that
    upload's name, size and temporary path. *)
Theorem handler_gets_file_iff_uploaded req fs file :
  (exists s', upload_single rt req (initial_state fs)
              = (Returns (Next (Some file)), s'))
  <-> exists f, uploads req f /\ file = stored_file rt f.
Proof.
  split.
  - intros [s' H]. exact (upload_single_hands_over rt req fs file s' H).
  - intros (f & Hup & ->). eexists. apply upload_single_stores. exact Hup.
Qed.

End UploadOutcome.

(** ** Edge cases of the handler *)

Section Edge.

Variables (env : environment) (rt : runtime) (fs : gmap (list N) (list N)).
Variables (req : request) (f : file_part).
Hypothesis Hup : uploads req f.

(** X12.  A REQUEST_TIMEOUT below 1 or above 2^31-1 is passed to setTimeout
    unchanged, where it counts as one millisecond: for an uploaded file that
    passes the checks, every backend that needs a millisecond or more is
    answered 408. *)
Theorem out_of_range_deadline_fires_at_once (l : Z) :
  reviewable rt f ->
  REQUEST_TIMEOUT env < 1 \/ 2147483647 < REQUEST_TIMEOUT env ->
  latency (rt_backend rt) = Some l ->
  1 <= l ->
  responses (trace_of (run env rt fs req))
  = [(408, JsonBody (timeout_body env (rt_clock rt 0)))]
  /\ In (EvSetTimeout (REQUEST_TIMEOUT env)) (trace_of (run env rt fs req)).
Proof.
  intros [Hread Htext Hlen] Hrange Hlat Hl.
  pose proof (not_blank_test _ Htext) as Hb.
  pose proof (within_limit_test _ Hlen) as Hlim.
  assert (Hfire : (timer_delay (REQUEST_TIMEOUT env) <=? l) = true).
  { apply Z.leb_le. unfold timer_delay.
    destruct ((1 <=? REQUEST_TIMEOUT env) && (REQUEST_TIMEOUT env <=? 2147483647)) eqn:E;
      [| exact Hl].
    apply andb_true_iff in E. destruct E as [E1 E2].
    apply Z.leb_le in E1, E2. lia. }
  run_upload Hup.
  all: cbn -[lookup insert delete].
  all: split; [reflexivity | find_event].
Qed.

(** X10.  The emptiness check comes first: an uploaded, readable file of
    more than 10000 white-space characters is answered 500 with details File
    appears to be empty, not as too large. *)
Theorem blank_is_reported_before_size :
  rt_fault rt OpRead (upload_path rt) = None ->
  blank (text f) ->
  10000 < Js.strlen (text f) ->
  responses (trace_of (run env rt fs req))
  = [(500, JsonBody (failure_body (Js.lit "File appears to be empty")
                                   (rt_clock rt 0)))].
Proof.
  intros Hread Hblank Hlen.
  pose proof (blank_test _ Hblank) as Hb.
  run_upload Hup; reflexivity.
Qed.

(** X11.  When the stored upload cannot be read, the route answers 500 with
    the message of the read error as details (a message without the text
    Only code files are allowed), calls no backend, and has attempted to
    remove the temporary file before it replies. *)
Theorem unreadable_upload_is_answered_500 (message : list N) :
  rt_fault rt OpRead (upload_path rt) = Some message ->
  Js.includes only_code_files message = false ->
  let t := trace_of (run env rt fs req) in
  responses t = [(500, JsonBody (failure_body message (rt_clock rt 0)))]
  /\ backend_calls t = []
  /\ In (EvUnlink (upload_path rt)) (before_response t).
Proof.
  intros Hread Hplain t. subst t.
  run_upload Hup.
  all: cbn -[lookup insert delete].
  all: split; [reflexivity |]; split; [reflexivity | find_event].
Qed.

End Edge.

Section CleanupFile.

Variable rt : runtime.

(** X7.  cleanupFile never throws: both a first and a second call on the
    same path return, the second leaves the disk as the first did, no other
    path is touched, and the path is gone unless removing it fails. *)
Theorem cleanupFile_is_idempotent (path : list N) (s : state) :
  let r1 := cleanupFile rt path s in
  let r2 := cleanupFile rt path (snd r1) in
  fst r1 = Returns tt
  /\ fst r2 = Returns tt
  /\ st_fs (snd r2) = st_fs (snd r1)
  /\ (forall other, other <> path -> st_fs (snd r1) !! other = st_fs s !! other)
  /\ (rt_fault rt OpUnlink path = None -> st_fs (snd r1) !! path = None).
Proof.
  destruct s as [t m k tm fp].
  unfold cleanupFile, try_catch, bind, fs_unlink, emit, get, set_fs, console,
    throw, bind.
  cbn -[lookup insert delete].
  destruct (m !! path) as [c |] eqn:Hm;
    [destruct (rt_fault rt OpUnlink path) as [msg |] eqn:Hfault |].
  all: cbn -[lookup insert delete].
  all: rewrite ?Hm, ?lookup_delete_eq.
  all: cbn -[lookup insert delete].
  all: split; [reflexivity |]; split; [reflexivity |]; split; [reflexivity |].
  all: split; [intros other Hne; try reflexivity | intros Hnone; try discriminate Hnone].
  all: first [ reflexivity | exact Hm | apply lookup_delete_ne; congruence ].
Qed.

End CleanupFile.

(** ** Failures after the checks *)

Section Failures.

Variables (env : environment) (rt : runtime) (fs : gmap (list N) (list N)).
Variables (req : request) (f : file_part).
Hypothesis Hup : uploads req f.
Hypothesis Hok : reviewable rt f.

(** X13.  For an uploaded file that passes the checks, when the backend call
    fails on the network before the deadline, the route answers 500 with
    node-fetch's message (one without the text Only code files are allowed),
    writes no review file and attempts the clean-up before it replies; the
    deadline timer is never cleared, so its callback still logs a timeout
    and aborts after the reply. *)
Theorem network_failure_leaves_timer_armed (reason : list N) :
  backend_fails env rt reason ->
  let url := OLLAMA_URL env ++ Js.lit "/api/generate" in
  let message := err_message (FetchError url reason) in
  Js.includes only_code_files message = false ->
  let t := trace_of (run env rt fs req) in
  responses t = [(500, JsonBody (failure_body message (rt_clock rt 0)))]
  /\ artifacts t = []
  /\ In (EvUnlink (upload_path rt)) (before_response t)
  /\ ~ In EvClearTimeout t
  /\ after_response t
     = [EvConsole (LogTimedOut (rt_clock rt 0) (REQUEST_TIMEOUT env)); EvAbort].
Proof.
  intros (l & Hlat & Hl & Hrej) url message Hplain t. subst url message t.
  destruct Hok as [Hread Htext Hlen].
  pose proof (not_blank_test _ Htext) as Hb.
  pose proof (within_limit_test _ Hlen) as Hlim.
  pose proof (in_time_test _ _ Hl) as Htime.
  unfold FetchError in *. cbn [err_message] in *.
  run_upload Hup.
  all: cbn -[lookup insert delete].
  all: split; [reflexivity |]; split; [reflexivity |]; split; [find_event |].
  all: split; [| reflexivity].
  all: intros H; repeat (destruct H as [H | H]; [discriminate H |]); exact H.
Qed.

(** X14.  For an uploaded file that passes the checks, a 2xx backend reply
    in time whose response property is absent or empty is answered 500 with
    details Invalid response from Ollama API; no review file is written, the
    clean-up is attempted before the reply and the deadline timer is
    cleared. *)
Theorem missing_review_text_is_answered_500 (r : http_response) :
  backend_returns env rt r ->
  ok r = true ->
  body_json r = Data None \/ body_json r = Data (Some []) ->
  let t := trace_of (run env rt fs req) in
  responses t
  = [(500, JsonBody (failure_body (Js.lit "Invalid response from Ollama API")
                                   (rt_clock rt 0)))]
  /\ artifacts t = []
  /\ In (EvUnlink (upload_path rt)) (before_response t)
  /\ In EvClearTimeout t.
Proof.
  intros (l & Hlat & Hl & Hres & Harr) Hrok Hdata t. subst t.
  destruct Hok as [Hread Htext Hlen].
  pose proof (not_blank_test _ Htext) as Hb.
  pose proof (within_limit_test _ Hlen) as Hlim.
  pose proof (in_time_test _ _ Hl) as Htime.
  destruct Hdata as [Hdata | Hdata].
  all: run_upload Hup.
  all: cbn -[lookup insert delete].
  all: split; [reflexivity |]; split; [reflexivity |]; split; find_event.
Qed.

(** X15.  When the review file cannot be written, the review the backend
    produced is lost: the route answers 500 with the message of the write
    error (one without the text Only code files are allowed), after one
    backend call, with no review file, and attempts the clean-up before it
    replies. *)
Theorem failed_artifact_write_loses_review (r : http_response) (review message : list N) :
  backend_returns env rt r ->
  ok r = true ->
  body_json r = Data (Some review) ->
  review <> [] ->
  rt_fault rt OpWrite (mdPath (rt_clock rt 3) (originalname f)) = Some message ->
  Js.includes only_code_files message = false ->
  let t := trace_of (run env rt fs req) in
  responses t = [(500, JsonBody (failure_body message (rt_clock rt 0)))]
  /\ (exists call, backend_calls t = [call])
  /\ artifacts t = []
  /\ In (EvUnlink (upload_path rt)) (before_response t).
Proof.
  intros (l & Hlat & Hl & Hres & Harr) Hrok Hdata Hne Hwrite Hplain t. subst t.
  destruct Hok as [Hread Htext Hlen].
  pose proof (not_blank_test _ Htext) as Hb.
  pose proof (within_limit_test _ Hlen) as Hlim.
  pose proof (in_time_test _ _ Hl) as Htime.
  destruct review as [| c review]; [congruence |].
  run_upload Hup.
  all: cbn -[lookup insert delete].
  all: split; [reflexivity |]; split; [eexists; reflexivity |];
    split; [reflexivity | find_event].
Qed.

End Failures.

(** ** The review file *)

Section Success.

Variables (env : environment) (rt : runtime) (fs : gmap (list N) (list N)).
Variables (req : request) (f : file_part).
Hypothesis Hup : uploads req f.

Lemma embeds_step (x rest r : list N) :
  (exists before after, rest = before ++ r ++ after) ->
  exists before after, x ++ rest = before ++ r ++ after.
Proof.
  intros (b & a & ->). exists (x ++ b), a. apply app_assoc.
Qed.

Lemma reviewContent_embeds file iso duration review content :
  exists before after,
    reviewContent env file iso duration review content
    = before ++ review ++ after.
Proof.
  unfold reviewContent. do 24 apply embeds_step.
  eexists [], _. reflexivity.
Qed.

(** X16.  On success the route writes exactly one review file; it contains
    the whole review text (the preview may be cut, the file is not), the 200
    reply names its path as reviewFile, and unless removal fails the disk
    then holds the review file and no longer the upload. *)
Theorem artifact_holds_full_review (r : http_response) (review : list N) :
  review_succeeds env rt f r review ->
  let res := run env rt fs req in
  let path := mdPath (rt_clock rt 3) (originalname f) in
  exists content before after,
    artifacts (trace_of res) = [(path, content)]
    /\ content = before ++ review ++ after
    /\ (exists j, responses (trace_of res) = [(200, JsonBody j)]
                  /\ field "reviewFile" j = Some (JStr path))
    /\ (path <> upload_path rt ->
        rt_fault rt OpUnlink (upload_path rt) = None ->
        fs_of res !! path = Some content
        /\ fs_of res !! upload_path rt = None).
Proof.
  intros [[Hread Htext Hlen] (l & Hlat & Hl & Hres & Harr) Hrok Hjson Hne Hwrite] res path.
  subst res path.
  pose proof (not_blank_test _ Htext) as Hb.
  pose proof (within_limit_test _ Hlen) as Hlim.
  pose proof (in_time_test _ _ Hl) as Htime.
  destruct review as [| c review]; [congruence |].
  run_upload Hup.
  all: try (rewrite Hwrite in *; discriminate).
  all: cbn -[lookup insert delete].
  all: match goal with
       | |- context [reviewContent ?e ?fl ?iso ?d ?rv ?ct] =>
           destruct (reviewContent_embeds fl iso d rv ct) as (before & after & Hc)
       end.
  all: eexists _, before, after.
  all: split; [reflexivity |]; split; [exact Hc |].
  all: split; [eexists; split; reflexivity |].
  all: intros Hpath Hunl; try discriminate Hunl.
  all: split; [| apply lookup_delete_eq].
  all: rewrite lookup_delete_ne by congruence; apply lookup_insert_eq.
Qed.

End Success.

(** ** The health probe and the start-up check *)

Section HealthProbe.

Variable env : environment.

Lemma includes_model_In model names :
  includes_model model names = true <-> In (Some model) names.
Proof.
  unfold includes_model. rewrite existsb_exists. split.
  - intros (n & Hin & Hn). apply bool_decide_eq_true in Hn. subst n. exact Hin.
  - intros Hin. exists (Some model). split; [exact Hin |].
    apply bool_decide_eq_true. reflexivity.
Qed.

Lemma lit_connected_neq_error : Js.lit "error" <> Js.lit "connected".
Proof. vm_compute. discriminate. Qed.

Lemma lit_connected_neq_disconnected : Js.lit "disconnected" <> Js.lit "connected".
Proof. vm_compute. discriminate. Qed.

Lemma health_reply_code timestamp uptime o code b :
  Some (health_reply env timestamp uptime o) = Some (code, b) ->
  hb_status b = Js.lit "ok"
  /\ hb_ollama b = o
  /\ (code = 200 \/ code = 503)
  /\ (code = 200 <-> oh_status o = Js.lit "connected").
Proof.
  unfold health_reply. intros H. injection H as <- <-.
  cbn [hb_status hb_ollama].
  split; [reflexivity |]. split; [reflexivity |].
  destruct (bool_decide_reflect (oh_status o = Js.lit "connected")) as [E | E].
  - split; [left; reflexivity |]. split; [intros _; exact E | reflexivity].
  - split; [right; reflexivity |]. split; [discriminate | intros E'; contradiction].
Qed.

(** The record a probe that ends leaves behind. *)
Lemma health_probed timestamp uptime probe :
  probe <> TagsSilent ->
  exists o,
    health env timestamp uptime probe = Some (health_reply env timestamp uptime o)
    /\ (oh_status o = Js.lit "connected"
        /\ oh_error o = None /\ oh_availableModels o <> None
        /\ (exists s names, probe = TagsReplies s (TagsModels names)
                            /\ status_ok s = true)
        \/ oh_status o <> Js.lit "connected"
           /\ (oh_error o = None -> oh_availableModels o = None)
           /\ (forall s names, probe = TagsReplies s (TagsModels names) ->
                               status_ok s = false)).
Proof.
  assert (Hd := lit_connected_neq_disconnected).
  assert (He := lit_connected_neq_error).
  intros Hprobe. unfold health.
  destruct probe as [| reason | s tb]; [congruence | |].
  - eexists. split; [reflexivity |]. right. cbn.
    split; [exact Hd |]. split; discriminate.
  - destruct (status_ok s) eqn:Hs.
    + destruct tb as [e | e | names].
      * eexists. split; [reflexivity |]. right. cbn.
        split; [exact Hd |]. split; discriminate.
      * eexists. split; [reflexivity |]. right. cbn.
        split; [exact Hd |]. split; discriminate.
      * eexists. split; [reflexivity |]. left. cbn.
        split; [reflexivity |]. split; [reflexivity |]. split; [discriminate |].
        exists s, names. split; [reflexivity | exact Hs].
    + eexists. split; [reflexivity |]. right. cbn.
      split; [exact He |]. split; [reflexivity |].
      intros s' names E. injection E as <- _. exact Hs.
Qed.

(** X17.  GET /health answers every probe that ends, with 200 or 503, and
    with 200 exactly when the model list came back with a 2xx status and a
    well-formed body; the top-level status of the body is ok in either
    case, and the body carries an error message or lacks availableModels
    exactly when the code is 503.  It sends no reply only while the probe
    never ends. *)
Theorem health_code_follows_probe timestamp uptime probe :
  (health env timestamp uptime probe = None <-> probe = TagsSilent)
  /\ (probe <> TagsSilent ->
      exists code b,
        health env timestamp uptime probe = Some (code, b)
        /\ hb_status b = Js.lit "ok"
        /\ (code = 200 \/ code = 503)
        /\ (code = 200 <->
            exists s names, probe = TagsReplies s (TagsModels names)
                            /\ status_ok s = true)
        /\ (code = 200 <-> oh_error (hb_ollama b) = None
                           /\ oh_availableModels (hb_ollama b) <> None)).
Proof.
  split.
  { unfold health. destruct probe as [| reason | s tb].
    - split; reflexivity.
    - split; discriminate.
    - destruct (status_ok s); [destruct tb |]; split; discriminate. }
  intros Hprobe.
  destruct (health_probed timestamp uptime probe Hprobe) as (o & Ho & Hcase).
  destruct (health_reply env timestamp uptime o) as [code b] eqn:E.
  exists code, b. split; [exact Ho |].
  assert (E' : Some (health_reply env timestamp uptime o) = Some (code, b))
    by (rewrite E; reflexivity).
  apply health_reply_code in E'.
  destruct E' as (Hok & -> & Hc & Hiff).
  split; [exact Hok |]. split; [exact Hc |].
  destruct Hcase as [(Hst & Herr & Hav & Hpr) | (Hst & Herr & Hpr)].
  - assert (E1 : code = 200) by (apply Hiff; exact Hst).
    split; (split; [intros _ | intros _; exact E1]).
    + exact Hpr.
    + split; [exact Herr | exact Hav].
  - assert (Hne : code <> 200) by (intros E1; apply Hiff in E1; contradiction).
    split; (split; [intros E1; contradiction |]).
    + intros (s & names & E1 & Hs). rewrite (Hpr _ _ E1) in Hs. discriminate.
    + intros [E1 E2]. elim E2. exact (Herr E1).
Qed.

(** X18.  When the model list comes back 2xx, GET /health answers 200 with
    status connected, availableModels the listed names (none when the reply
    has no models property) and modelExists true exactly when the configured
    model is among them. *)
Theorem health_reports_model_presence timestamp uptime s names :
  status_ok s = true ->
  exists b,
    health env timestamp uptime (TagsReplies s (TagsModels names)) = Some (200, b)
    /\ oh_status (hb_ollama b) = Js.lit "connected"
    /\ oh_availableModels (hb_ollama b) = Some (or_empty names)
    /\ (oh_modelExists (hb_ollama b) = Some true
        <-> In (Some (OLLAMA_MODEL env)) (or_empty names))
    /\ (names = None -> oh_modelExists (hb_ollama b) = Some false).
Proof.
  intros Hs. unfold health. rewrite Hs. unfold health_reply, health_connected.
  cbn [oh_status]. rewrite bool_decide_eq_true_2 by reflexivity.
  eexists. split; [reflexivity |]. cbn.
  repeat split.
  - intros E. apply includes_model_In. congruence.
  - intros Hin. f_equal. apply includes_model_In. exact Hin.
  - intros ->. reflexivity.
Qed.

End HealthProbe.

Section StartupCheck.

Variable env : environment.

(** X19.  testOllamaConnection returns true exactly when the model list came
    back 2xx and well formed and either the configured model is not listed,
    or the test generation resolved (with any status, provided a 2xx body
    parses): a missing model and a failed test generation both count as
    success. *)
Theorem connection_test_passes_without_model clock tags gen :
  ck_result (testOllamaConnection env clock tags gen) = Some true
  <-> exists s names,
      tags = TagsReplies s (TagsModels names)
      /\ status_ok s = true
      /\ (includes_model (OLLAMA_MODEL env) (or_empty names) = false
          \/ exists l r, latency gen = Some l
                         /\ settles gen = Resolves r
                         /\ (ok r = false \/ exists t, body_json r = Data t)).
Proof.
  unfold testOllamaConnection. split.
  - destruct tags as [| reason | s tb]; cbn; try discriminate.
    destruct (status_ok s) eqn:Hs; [| cbn; discriminate].
    destruct tb as [e | e | names]; cbn; try discriminate.
    destruct (includes_model _ _) eqn:Hin.
    + destruct (latency gen) as [l |] eqn:Hl; [| cbn; discriminate].
      destruct (settles gen) as [r | reason] eqn:Hr; [| cbn; discriminate].
      destruct (ok r) eqn:Hok.
      * destruct (body_json r) as [e | t | | e] eqn:Hb; try (cbn; discriminate).
        intros _. exists s, names.
        split; [reflexivity |]. split; [exact Hs |].
        right. exists l, r.
        split; [reflexivity |]. split; [reflexivity |].
        right. exists t. exact Hb.
      * intros _. exists s, names.
        split; [reflexivity |]. split; [exact Hs |].
        right. exists l, r.
        split; [reflexivity |]. split; [reflexivity |].
        left. exact Hok.
    + intros _. exists s, names.
      split; [reflexivity |]. split; [exact Hs |].
      left. exact Hin.
  - intros (s & names & -> & Hs & H). rewrite Hs.
    destruct H as [Hin | (l & r & Hl & Hr & H)].
    + rewrite Hin. reflexivity.
    + destruct (includes_model _ _); [| reflexivity].
      rewrite Hl, Hr. destruct H as [Hok | (t & Hb)].
      * rewrite Hok. reflexivity.
      * destruct (ok r); [rewrite Hb |]; reflexivity.
Qed.

(** X20.  testOllamaConnection issues the request for the model list first
    and at most one more request, the test generation, which it sends
    exactly when the list came back 2xx and names the configured model. *)
Theorem test_request_needs_listed_model clock tags gen :
  let calls := ck_calls (testOllamaConnection env clock tags gen) in
  let tags_call := (OLLAMA_URL env ++ Js.lit "/api/tags", None) in
  let test_call := (OLLAMA_URL env ++ Js.lit "/api/generate",
                    Some (test_request env)) in
  (calls = [tags_call] \/ calls = [tags_call; test_call])
  /\ (calls = [tags_call; test_call]
      <-> exists s names, tags = TagsReplies s (TagsModels names)
                          /\ status_ok s = true
                          /\ In (Some (OLLAMA_MODEL env)) (or_empty names)).
Proof.
  cbv zeta. unfold testOllamaConnection.
  destruct tags as [| reason | s tb]; cbn.
  - split; [left; reflexivity |]. split; [discriminate |].
    intros (s & names & E & _). discriminate.
  - split; [left; reflexivity |]. split; [discriminate |].
    intros (s & names & E & _). discriminate.
  - destruct (status_ok s) eqn:Hs.
    + destruct tb as [e | e | names]; cbn.
      * split; [left; reflexivity |]. split; [discriminate |].
        intros (s' & names & E & _). discriminate.
      * split; [left; reflexivity |]. split; [discriminate |].
        intros (s' & names & E & _). discriminate.
      * destruct (includes_model _ _) eqn:Hin.
        -- split.
           ++ right.
              destruct (latency gen); [| reflexivity].
              destruct (settles gen) as [r | reason]; [| reflexivity].
              destruct (ok r); [| reflexivity].
              destruct (body_json r); reflexivity.
           ++ split.
              ** intros _. exists s, names. repeat split; [exact Hs |].
                 apply includes_model_In. exact Hin.
              ** intros _.
                 destruct (latency gen); [| reflexivity].
                 destruct (settles gen) as [r | reason]; [| reflexivity].
                 destruct (ok r); [| reflexivity].
                 destruct (body_json r); reflexivity.
        -- cbn. split; [left; reflexivity |]. split; [discriminate |].
           intros (s' & names' & E & _ & Hn). injection E as <- <-.
           apply includes_model_In in Hn. congruence.
    + cbn. split; [left; reflexivity |]. split; [discriminate |].
      intros (s' & names' & E & Hs' & _). injection E as <- _. congruence.
Qed.

Lemma test_log_not_ready clock tags gen :
  ~ In SayReady (ck_log (testOllamaConnection env clock tags gen)).
Proof.
  unfold testOllamaConnection, connection_failed.
  destruct tags as [| reason | s tb]; cbn.
  - intros [H | []]; discriminate.
  - intros [H | [H | []]]; discriminate.
  - destruct (status_ok s).
    + destruct tb as [e | e | names]; cbn.
      * intros [H | [H | []]]; discriminate.
      * intros [H | [H | []]]; discriminate.
      * destruct (includes_model _ _).
        -- destruct (latency gen); cbn.
           ++ destruct (settles gen) as [r | reason]; cbn.
              ** destruct (ok r); cbn.
                 --- destruct (body_json r); cbn;
                       intros H; repeat (destruct H as [H | H]; try discriminate);
                       exact H.
                 --- intros H; repeat (destruct H as [H | H]; try discriminate);
                       exact H.
              ** intros H; repeat (destruct H as [H | H]; try discriminate);
                   exact H.
           ++ intros H; repeat (destruct H as [H | H]; try discriminate);
                exact H.
        -- cbn. intros H; repeat (destruct H as [H | H]; try discriminate);
             exact H.
    + cbn. intros H; repeat (destruct H as [H | H]; try discriminate); exact H.
Qed.

(** X21.  The start-up callback ignores what its checks found: whenever the
    connection test settles, with true or false and whether or not the
    uploads directory could be created, the last line printed is Ready for
    requests; it is never printed while the test hangs. *)
Theorem ready_whatever_the_checks_found port clock mkdir tags gen :
  let printed := on_listening env port clock mkdir tags gen in
  let tested := testOllamaConnection env clock tags gen in
  (ck_result tested <> None -> exists before, printed = before ++ [SayReady])
  /\ (In SayReady printed <-> ck_result tested <> None).
Proof.
  cbv zeta. unfold on_listening.
  pose proof (test_log_not_ready clock tags gen) as Hlog.
  destruct (ck_result (testOllamaConnection env clock tags gen)) as [r |] eqn:Hr.
  - split.
    + intros _. eexists. rewrite !app_assoc. reflexivity.
    + split; [discriminate |]. intros _.
      apply in_or_app. right. apply in_or_app. right.
      apply in_or_app. right. left. reflexivity.
  - split; [congruence |]. split; [| congruence].
    intros H. exfalso.
    apply in_app_or in H. destruct H as [H | H].
    + repeat (destruct H as [H | H]; try discriminate). exact H.
    + apply in_app_or in H. destruct H as [H | H].
      * destruct mkdir; repeat (destruct H as [H | H]; try discriminate); exact H.
      * apply in_app_or in H. destruct H as [H | H]; [exact (Hlog H) | exact H].
Qed.

End StartupCheck.

(** ** The single-step review server and the chat server *)

Section SimpleReview.

Variable rt : runtime.
Variable fs : gmap (list N) (list N).

Lemma simple_replies_caught done fs' e :
  Simple.replies (Simple.caught done fs' e).1
  = Simple.replies done ++ [(500, Simple.failure_body)].
Proof. unfold Simple.caught, Simple.replies. cbn [fst]. rewrite omap_app. reflexivity. Qed.

Lemma strlen_prefix_min s n :
  0 <= n -> Js.strlen (firstn (Z.to_nat n) s) = Z.min (Js.strlen s) n.
Proof. intros Hn. unfold Js.strlen. rewrite length_firstn. lia. Qed.

(** X22.  The single-step review server never removes a file: every path on
    the disk before the request is still there afterwards, with its content
    unless it is the path of the review file; in particular the upload is
    never cleaned up. *)
Theorem simple_review_keeps_every_file req_file p c :
  fs !! p = Some c ->
  is_Some ((Simple.review rt fs req_file).2 !! p)
  /\ (p <> Simple.mdPath (rt_clock rt 0%nat) ->
      (Simple.review rt fs req_file).2 !! p = Some c).
Proof.
  intros Hp.
  assert (Hkeep : is_Some (fs !! p) /\ (p <> Simple.mdPath (rt_clock rt 0%nat) -> fs !! p = Some c)).
  { split; [eexists; exact Hp | intros _; exact Hp]. }
  unfold Simple.review, Simple.caught.
  destruct req_file as [file |]; [| exact Hkeep].
  destruct (Simple.readFileSync rt fs (mf_path file)); [exact Hkeep |].
  destruct (latency (rt_backend rt)); [| exact Hkeep].
  destruct (settles (rt_backend rt)) as [r | reason]; [| exact Hkeep].
  destruct (body_json r) as [e | comments | | e]; try exact Hkeep.
  unfold Simple.writeFileSync.
  destruct (rt_fault rt OpWrite _); [exact Hkeep |].
  assert (Hnew : forall v,
             is_Some (<[Simple.mdPath (rt_clock rt 0%nat) := v]> fs !! p)
             /\ (p <> Simple.mdPath (rt_clock rt 0%nat) ->
                 <[Simple.mdPath (rt_clock rt 0%nat) := v]> fs !! p = Some c)).
  { intros v. split.
    - destruct (decide (Simple.mdPath (rt_clock rt 0%nat) = p)) as [-> | Hne].
      + rewrite lookup_insert_eq. eexists; reflexivity.
      + rewrite lookup_insert_ne by exact Hne. eexists; exact Hp.
    - intros Hne. rewrite lookup_insert_ne by congruence. exact Hp. }
  destruct comments; apply Hnew.
Qed.

Lemma simple_answers_caught done fs' e :
  Simple.answers (Simple.caught done fs' e).1
  = Simple.answers done ++ [(500, JsonBody Simple.failure_body)].
Proof.
  unfold Simple.caught, Simple.answers. cbn [fst]. rewrite omap_app. reflexivity.
Qed.

(** The replies of the handler, for the [req.file] it is given. *)
Lemma simple_review_answers fs0 req_file :
  let r := Simple.answers (Simple.review rt fs0 req_file).1 in
  (r = []
   \/ r = [(500, JsonBody Simple.failure_body)]
   \/ exists comments,
       r = [(200, JsonBody (Simple.success_body
                              (Simple.mdPath (rt_clock rt 0%nat)) comments))])
  /\ (r = [] <->
      exists file content,
        req_file = Some file
        /\ Simple.readFileSync rt fs0 (mf_path file) = inr content
        /\ Simple.waits rt)
  /\ (req_file = None -> r = [(500, JsonBody Simple.failure_body)]).
Proof.
  cbv zeta. unfold Simple.review, Simple.waits.
  destruct req_file as [file |].
  2:{ rewrite simple_answers_caught. cbn.
      split; [right; left; reflexivity |].
      split; [| reflexivity].
      split; [discriminate |]. intros (f & c & E & _). discriminate. }
  destruct (Simple.readFileSync rt fs0 (mf_path file)) as [e | content] eqn:Hread.
  { rewrite simple_answers_caught. cbn.
    split; [right; left; reflexivity |].
    split; [| discriminate].
    split; [discriminate |].
    intros (f & c & E & Hr & _). injection E as <-. congruence. }
  destruct (latency (rt_backend rt)) as [l |] eqn:Hl.
  2:{ cbn. split; [left; reflexivity |]. split; [| discriminate].
      split; [| reflexivity]. intros _. exists file, content.
      split; [reflexivity |]. split; [exact Hread | left; reflexivity]. }
  destruct (settles (rt_backend rt)) as [r | reason] eqn:Hs.
  2:{ rewrite simple_answers_caught. cbn.
      split; [right; left; reflexivity |]. split; [| discriminate].
      split; [discriminate |].
      intros (f & c & _ & _ & [E | (r & E & _)]); discriminate. }
  assert (Hfail :
            forall done fs' e,
              Simple.answers done = [] ->
              body_json r <> Unfinished ->
              let a := Simple.answers (Simple.caught done fs' e).1 in
              (a = [] \/ a = [(500, JsonBody Simple.failure_body)]
               \/ exists comments,
                   a = [(200, JsonBody (Simple.success_body
                                          (Simple.mdPath (rt_clock rt 0%nat))
                                          comments))])
              /\ (a = [] <->
                  exists file0 content0,
                    Some file = Some file0
                    /\ Simple.readFileSync rt fs0 (mf_path file0) = inr content0
                    /\ (Some l = None
                        \/ exists r0, Resolves r = Resolves r0
                                      /\ body_json r0 = Unfinished))
              /\ (Some file = None -> a = [(500, JsonBody Simple.failure_body)])).
  { intros done fs' e Hdone Hbody. cbv zeta.
    rewrite simple_answers_caught, Hdone. cbn.
    split; [right; left; reflexivity |]. split; [| discriminate].
    split; [discriminate |].
    intros (f & c & _ & _ & [E | (r0 & E & Hb)]); [discriminate |].
    injection E as <-. contradiction. }
  destruct (body_json r) as [e | comments | | e] eqn:Hb.
  - apply Hfail; [reflexivity | discriminate].
  - destruct (Simple.writeFileSync rt fs0 _ _) as [e | fs'].
    { apply Hfail; [reflexivity | discriminate]. }
    destruct comments as [comments |].
    2:{ apply Hfail; [reflexivity | discriminate]. }
    cbn. split; [right; right; exists comments; reflexivity |].
    split; [| discriminate].
    split; [discriminate |].
    intros (f & c & _ & _ & [E | (r0 & E & Hb0)]); [discriminate |].
    injection E as <-. congruence.
  - cbn. split; [left; reflexivity |]. split; [| discriminate].
    split; [| reflexivity]. intros _. exists file, content.
    split; [reflexivity |]. split; [exact Hread |].
    right. exists r. split; [reflexivity | exact Hb].
  - apply Hfail; [reflexivity | discriminate].
Qed.

(** The upload stage only looks at the named files. *)
Lemma simple_multer_parts_named req : forall left stored fs0,
  Simple.multer_parts rt req left stored fs0
  = Simple.multer_parts rt (List.map FilePart (named_files req)) left stored fs0.
Proof.
  induction req as [| [n v | g] rest IH]; intros left stored fs0; simpl.
  - reflexivity.
  - apply IH.
  - destruct (originalname g) eqn:E; [apply IH |].
    simpl. rewrite E.
    destruct (negb (bool_decide (fieldname g = Js.lit "file")) || (left <=? 0));
      [reflexivity | apply IH].
Qed.

(** What the upload stage hands on, by the named files of the request. *)
Lemma simple_upload_single_cases req fs0 :
  match named_files req with
  | [] => Simple.upload_single rt req fs0 = (inr None, fs0)
  | f :: rest =>
      if bool_decide (fieldname f = Js.lit "file") then
        match rest with
        | [] =>
            Simple.upload_single rt req fs0
            = (inr (Some (stored_file rt f)), <[upload_path rt := text f]> fs0)
        | _ :: _ =>
            Simple.upload_single rt req fs0
            = (inl (MulterError "Unexpected field"),
               delete (upload_path rt) (<[upload_path rt := text f]> fs0))
        end
      else
        Simple.upload_single rt req fs0
        = (inl (MulterError "Unexpected field"), fs0)
  end.
Proof.
  unfold Simple.upload_single. rewrite simple_multer_parts_named.
  pose proof (named_files_named req) as Hnamed.
  destruct (named_files req) as [| f rest]; [reflexivity |].
  assert (Hf : originalname f <> []) by (apply Hnamed; left; reflexivity).
  simpl. destruct (originalname f) as [| c name] eqn:Ef; [congruence |].
  destruct (bool_decide (fieldname f = Js.lit "file")) eqn:Efield;
    [| reflexivity].
  change (1 <=? 0) with false. cbn [negb orb].
  destruct rest as [| g rest];
    [unfold stored_file; rewrite Ef; reflexivity |].
  assert (Hg : originalname g <> [])
    by (apply Hnamed; right; left; reflexivity).
  simpl. destruct (originalname g) as [| d gname]; [congruence |].
  rewrite orb_true_r. reflexivity.
Qed.

(** X23.  The single-step review server sends no reply (while the backend
    is silent or the body of its reply incomplete), or 200, or one of two
    500 replies: every failure inside the handler, a request without a
    file included, gets the one body Something went wrong, and a request
    that the upload stage refuses (a file in another field, a second file)
    gets Express's error page for the error Unexpected field. *)
Theorem simple_route_failures req :
  let r := Simple.answers (Simple.route rt fs req).1 in
  (r = []
   \/ r = [(500, JsonBody Simple.failure_body)]
   \/ r = [(500, ErrorPage (MulterError "Unexpected field"))]
   \/ exists comments,
       r = [(200, JsonBody (Simple.success_body
                              (Simple.mdPath (rt_clock rt 0%nat)) comments))])
  /\ (named_files req = [] -> r = [(500, JsonBody Simple.failure_body)])
  /\ (forall f rest, named_files req = f :: rest ->
        fieldname f <> Js.lit "file" \/ rest <> [] ->
        r = [(500, ErrorPage (MulterError "Unexpected field"))])
  /\ (forall f, named_files req = [f] -> fieldname f = Js.lit "file" ->
        Simple.route rt fs req
        = Simple.review rt (<[upload_path rt := text f]> fs)
                        (Some (stored_file rt f)))
  /\ (r = [] <->
      exists f, named_files req = [f]
                /\ fieldname f = Js.lit "file"
                /\ rt_fault rt OpRead (upload_path rt) = None
                /\ Simple.waits rt).
Proof.
  cbv zeta. unfold Simple.route.
  pose proof (simple_upload_single_cases req fs) as Hup.
  destruct (named_files req) as [| f rest] eqn:Hn.
  - rewrite Hup.
    destruct (simple_review_answers fs None) as (_ & _ & Hnone).
    rewrite (Hnone eq_refl).
    split; [right; left; reflexivity |]. split; [reflexivity |].
    split; [discriminate |]. split; [discriminate |].
    split; [discriminate |]. intros (f & E & _). discriminate.
  - destruct (bool_decide (fieldname f = Js.lit "file")) eqn:Efield.
    + apply bool_decide_eq_true_1 in Efield.
      destruct rest as [| g rest].
      * rewrite Hup.
        destruct (simple_review_answers (<[upload_path rt := text f]> fs)
                    (Some (stored_file rt f)))
          as (Hforms & Hwait & _).
        split.
        { destruct Hforms as [H | [H | H]];
            [left; exact H | right; left; exact H | right; right; right; exact H]. }
        split; [discriminate |].
        split.
        { intros f' rest' E [Hf | Hr]; injection E as <- <-; congruence. }
        split; [intros f' E _; injection E as <-; reflexivity |].
        rewrite Hwait. split.
        -- intros (file & content & E & Hread & Hw). injection E as <-.
           exists f. split; [reflexivity |]. split; [exact Efield |].
           split; [| exact Hw].
           unfold Simple.readFileSync, stored_file in Hread. cbn [mf_path] in Hread.
           rewrite lookup_insert_eq in Hread.
           destruct (rt_fault rt OpRead (upload_path rt));
             [discriminate | reflexivity].
        -- intros (f' & E & _ & Hread & Hw). injection E as <-.
           exists (stored_file rt f), (text f).
           split; [reflexivity |]. split; [| exact Hw].
           unfold Simple.readFileSync, stored_file. cbn [mf_path].
           rewrite lookup_insert_eq, Hread. reflexivity.
      * rewrite Hup. cbn.
        split; [right; right; left; reflexivity |]. split; [discriminate |].
        split; [reflexivity |].
        split; [intros f' E; discriminate E |].
        split; [discriminate |]. intros (f' & E & _). discriminate.
    + apply bool_decide_eq_false_1 in Efield.
      rewrite Hup. cbn.
      split; [right; right; left; reflexivity |]. split; [discriminate |].
      split; [reflexivity |].
      split; [intros f' E Hf; injection E as <-; contradiction |].
      split; [discriminate |].
      intros (f' & E & Hf & _). injection E as <-. contradiction.
Qed.

(** X24.  The single-step review server accepts a backend reply of any
    status whose JSON has a response: it sends the whole file content at the
    end of the prompt, writes the review file and answers 200 with a preview
    that is the first 300 characters followed by three dots, also for a
    short review. *)
Theorem simple_review_trusts_any_reply file content l r comments :
  fs !! mf_path file = Some content ->
  rt_fault rt OpRead (mf_path file) = None ->
  latency (rt_backend rt) = Some l ->
  settles (rt_backend rt) = Resolves r ->
  body_json r = Data (Some comments) ->
  rt_fault rt OpWrite (Simple.mdPath (rt_clock rt 0%nat)) = None ->
  let path := Simple.mdPath (rt_clock rt 0%nat) in
  let done := (Simple.review rt fs (Some file)).1 in
  exists prompt preview,
    done = [ Simple.Read (mf_path file);
             Simple.Fetch Simple.generate_url (Simple.generate_request content);
             Simple.Write path (Simple.artifact (Some comments));
             Simple.Respond 200 (Simple.success_body path comments) ]
    /\ field "prompt" (Simple.generate_request content) = Some (JStr prompt)
    /\ (exists instructions, prompt = instructions ++ content)
    /\ field "reviewPreview" (Simple.success_body path comments) = Some (JStr preview)
    /\ preview = firstn 300 comments ++ Js.lit "..."
    /\ Js.strlen preview = Z.min (Js.strlen comments) 300 + 3
    /\ (Simple.review rt fs (Some file)).2
       = <[path := Simple.artifact (Some comments)]> fs.
Proof.
  intros Hfile Hread Hl Hr Hb Hwrite. cbv zeta.
  unfold Simple.review, Simple.readFileSync, Simple.writeFileSync.
  rewrite Hfile, Hread, Hl, Hr, Hb, Hwrite.
  eexists _, _. split; [reflexivity |].
  split; [reflexivity |].
  split; [eexists; rewrite !app_assoc; reflexivity |].
  split; [reflexivity |].
  rewrite substring_prefix by lia.
  split; [reflexivity |].
  split; [| reflexivity].
  rewrite strlen_app, strlen_prefix_min by lia. reflexivity.
Qed.

(** X25.  When the backend's JSON has no response property, the single-step
    review server first writes a review file whose text ends in undefined
    and then answers 500; the file stays on the disk. *)
Theorem simple_review_leaves_undefined_artifact file content l r :
  fs !! mf_path file = Some content ->
  rt_fault rt OpRead (mf_path file) = None ->
  latency (rt_backend rt) = Some l ->
  settles (rt_backend rt) = Resolves r ->
  body_json r = Data None ->
  rt_fault rt OpWrite (Simple.mdPath (rt_clock rt 0%nat)) = None ->
  let path := Simple.mdPath (rt_clock rt 0%nat) in
  let result := Simple.review rt fs (Some file) in
  Simple.replies result.1 = [(500, Simple.failure_body)]
  /\ Simple.written result.1
     = [(path, Js.lit "# File Review (LLaMA)" ++ nl ++ nl ++ Js.lit "undefined")]
  /\ result.2 !! path
     = Some (Js.lit "# File Review (LLaMA)" ++ nl ++ nl ++ Js.lit "undefined").
Proof.
  intros Hfile Hread Hl Hr Hb Hwrite. cbv zeta.
  unfold Simple.review, Simple.readFileSync, Simple.writeFileSync.
  rewrite Hfile, Hread, Hl, Hr, Hb, Hwrite.
  split; [reflexivity |]. split; [reflexivity |].
  cbn [snd Simple.caught]. apply lookup_insert_eq.
Qed.

End SimpleReview.

Section ChatServer.

Variable env : environment.
Variable timestamp : jsstring.

Lemma apology_not_empty : Chat.apology <> [].
Proof. vm_compute. discriminate. Qed.

Lemma or_default_not_empty x d : d <> [] -> or_default x d <> [].
Proof.
  intros Hd. unfold or_default. destruct x as [[| c s] |]; cbn; try exact Hd.
  intros E. discriminate E.
Qed.

Lemma askOllama_settled_not_empty s line answer :
  Chat.askOllama_settled s = Some (line, answer) -> answer <> [].
Proof.
  unfold Chat.askOllama_settled.
  destruct s as [r | reason].
  - destruct (ok r).
    + destruct (body_json r); intros E; try discriminate E;
        injection E as _ <-; try exact apology_not_empty.
      apply or_default_not_empty. vm_compute. discriminate.
    + intros E. injection E as _ <-. exact apology_not_empty.
  - intros E. injection E as _ <-. exact apology_not_empty.
Qed.

Lemma askOllama_settled_line s line answer :
  Chat.askOllama_settled s = Some (line, answer) ->
  line = Chat.LogResponded \/ exists message, line = Chat.LogTrouble message.
Proof.
  unfold Chat.askOllama_settled.
  destruct s as [r | reason].
  - destruct (ok r).
    + destruct (body_json r); intros E; try discriminate E;
        injection E as <- _;
        first [left; reflexivity | right; eexists; reflexivity].
    + intros E. injection E as <- _. right. eexists. reflexivity.
  - intros E. injection E as <- _. right. eexists. reflexivity.
Qed.

(** The effects of a chat request with a truthy message, by what
    [askOllama] comes to. *)
Lemma chat_cases b m :
  Chat.truthy m = true ->
  let before := [Chat.LogNew m; Chat.LogAsking m;
                 Chat.Fetch (Chat.generate_url env) (Chat.generate_request env m)] in
  let timeout := [Chat.LogChatError (Js.lit "Request timeout");
                  Chat.Respond 500 Chat.failure_body] in
  let done := Chat.chat env timestamp b (Some m) in
  (exists line answer,
     (Chat.askOllama env b m).2 = Some (line, answer)
     /\ (line = Chat.LogResponded \/ exists message, line = Chat.LogTrouble message)
     /\ answer <> []
     /\ (fires_first Chat.chat_timeout (latency b) = true
         /\ done = before ++ timeout ++ [line]
         \/ fires_first Chat.chat_timeout (latency b) = false
            /\ done = before ++ [line; Chat.Respond 200
                                         (Chat.success_body answer timestamp)]))
  \/ ((Chat.askOllama env b m).2 = None /\ done = before ++ timeout).
Proof.
  intros Hm. cbv zeta. unfold Chat.chat. rewrite Hm.
  unfold Chat.askOllama. cbn [snd].
  destruct (latency b) as [l |] eqn:Hl; [| right; split; reflexivity].
  destruct (Chat.askOllama_settled (settles b)) as [[line answer] |] eqn:E;
    [| right; split; reflexivity].
  left. exists line, answer. split; [reflexivity |].
  split; [exact (askOllama_settled_line _ _ _ E) |].
  split; [exact (askOllama_settled_not_empty _ _ _ E) |].
  destruct (fires_first Chat.chat_timeout (Some l));
    [left | right]; split; reflexivity.
Qed.

(** X26.  POST /api/chat calls the backend, once, exactly when the body has
    a truthy message; otherwise its only effect is the reply 400 Please
    provide a message. *)
Theorem chat_calls_backend_iff_message b message :
  let done := Chat.chat env timestamp b message in
  ((exists m, message = Some m /\ Chat.truthy m = true)
   <-> exists m, Chat.calls done
                 = [(Chat.generate_url env, Chat.generate_request env m)])
  /\ ((forall m, message = Some m -> Chat.truthy m = false)
      <-> done = [Chat.Respond 400 Chat.missing_body]).
Proof.
  cbv zeta.
  destruct message as [m |].
  - destruct (Chat.truthy m) eqn:Hm.
    + assert (Hcalls : Chat.calls (Chat.chat env timestamp b (Some m))
                       = [(Chat.generate_url env, Chat.generate_request env m)]
                       /\ Chat.chat env timestamp b (Some m)
                          <> [Chat.Respond 400 Chat.missing_body]).
      { destruct (chat_cases b m Hm)
          as [(line & answer & _ & Hline & _ & [(_ & ->) | (_ & ->)]) | (_ & ->)].
        - destruct Hline as [-> | [msg ->]]; split; [reflexivity | discriminate
                                                     | reflexivity | discriminate].
        - destruct Hline as [-> | [msg ->]]; split; [reflexivity | discriminate
                                                     | reflexivity | discriminate].
        - split; [reflexivity | discriminate]. }
      destruct Hcalls as [Hcalls Hnot].
      split.
      * split; [intros _ | intros _; exists m; split; [reflexivity | exact Hm]].
        exists m. exact Hcalls.
      * split.
        -- intros H. specialize (H m eq_refl). congruence.
        -- intros H. contradiction.
    + unfold Chat.chat. rewrite Hm. split.
      * split.
        -- intros (m' & E & Hm'). injection E as <-. congruence.
        -- intros (m' & E). discriminate.
      * split; [reflexivity |]. intros _ m' E. injection E as <-. exact Hm.
  - cbn. split.
    + split.
      * intros (m' & E & _). discriminate.
      * intros (m' & E). discriminate.
    + split; [reflexivity |]. intros _ m' E. discriminate.
Qed.

(** X27.  When the backend fails before the chat deadline (network error,
    non-2xx status or a body that is not JSON), POST /api/chat answers 200
    with success true and the apology as the response. *)
Theorem chat_reports_backend_failure_as_success b m l :
  Chat.truthy m = true ->
  latency b = Some l ->
  l < Chat.chat_timeout ->
  (exists reason, settles b = Rejects reason)
  \/ (exists r, settles b = Resolves r
                /\ (ok r = false \/ exists e, body_json r = NotJson e)) ->
  Chat.replies (Chat.chat env timestamp b (Some m))
  = [(200, Chat.success_body Chat.apology timestamp)]
  /\ field "success" (Chat.success_body Chat.apology timestamp) = Some (JBool true).
Proof.
  intros Hm Hl Hlt Hfail. split; [| reflexivity].
  assert (Hsettled : exists message,
             Chat.askOllama_settled (settles b)
             = Some (Chat.LogTrouble message, Chat.apology)).
  { unfold Chat.askOllama_settled.
    destruct Hfail as [(reason & ->) | (r & -> & [Hok | (e & Hb)])].
    - eexists. reflexivity.
    - rewrite Hok. eexists. reflexivity.
    - destruct (ok r); [rewrite Hb |]; eexists; reflexivity. }
  destruct Hsettled as (message & Hsettled).
  unfold Chat.chat, Chat.askOllama. rewrite Hm, Hl, Hsettled.
  unfold fires_first.
  replace (Chat.chat_timeout <=? l) with false
    by (symmetry; apply Z.leb_gt; exact Hlt).
  reflexivity.
Qed.

(** X28.  When the backend needs more than 120000 ms, never answers or
    never completes the body of a 2xx reply, POST /api/chat answers 500
    after its one backend call; the call is not cancelled, and when
    askOllama settles later it prints its line after the reply. *)
Theorem chat_timeout_does_not_cancel_call b m :
  Chat.truthy m = true ->
  (latency b = None
   \/ (exists l, latency b = Some l /\ Chat.chat_timeout < l)
   \/ Chat.askOllama_settled (settles b) = None) ->
  let done := Chat.chat env timestamp b (Some m) in
  Chat.replies done = [(500, Chat.failure_body)]
  /\ Chat.calls done = [(Chat.generate_url env, Chat.generate_request env m)]
  /\ (forall l line answer,
        latency b = Some l ->
        Chat.askOllama_settled (settles b) = Some (line, answer) ->
        exists before,
          done = before ++ [Chat.Respond 500 Chat.failure_body; line]).
Proof.
  intros Hm Hlate. cbv zeta.
  destruct (chat_cases b m Hm)
    as [(line & answer & Hask & Hline & _ & [(Hfire & ->) | (Hfire & ->)])
       | (Hask & ->)].
  - destruct Hline as [-> | [msg ->]];
      (split; [reflexivity |]); (split; [reflexivity |]);
      intros l line' answer' Hl Hs;
      unfold Chat.askOllama in Hask; cbn [snd] in Hask;
      rewrite Hl, Hs in Hask; injection Hask as <- _;
      eexists [_; _; _; _]; reflexivity.
  - exfalso. unfold Chat.askOllama in Hask. cbn [snd] in Hask.
    destruct Hlate as [Hl | [(l & Hl & Hlt) | Hnone]].
    + rewrite Hl in Hfire. discriminate Hfire.
    + rewrite Hl in Hfire. unfold fires_first in Hfire.
      apply Z.leb_gt in Hfire. lia.
    + destruct (latency b); [congruence | discriminate Hask].
  - split; [reflexivity |]. split; [reflexivity |].
    intros l line answer Hl Hs.
    unfold Chat.askOllama in Hask. cbn [snd] in Hask.
    rewrite Hl, Hs in Hask. discriminate Hask.
Qed.

(** X29.  Every reply of POST /api/chat is 400 with the missing-message
    body, 500 with the failure body, or 200 with a response text that is
    not empty. *)
Theorem chat_answer_is_never_empty b message code j :
  In (code, j) (Chat.replies (Chat.chat env timestamp b message)) ->
  (code = 200 /\ exists text, j = Chat.success_body text timestamp /\ text <> [])
  \/ (code = 400 /\ j = Chat.missing_body)
  \/ (code = 500 /\ j = Chat.failure_body).
Proof.
  destruct message as [m |].
  2:{ intros [E | []]. injection E as <- <-. right. left. split; reflexivity. }
  destruct (Chat.truthy m) eqn:Hm.
  2:{ unfold Chat.chat. rewrite Hm.
      intros [E | []]. injection E as <- <-. right. left. split; reflexivity. }
  destruct (chat_cases b m Hm)
    as [(line & answer & _ & Hline & Hne & [(_ & ->) | (_ & ->)]) | (_ & ->)].
  - destruct Hline as [-> | [msg ->]]; intros [E | []]; injection E as <- <-;
      right; right; split; reflexivity.
  - destruct Hline as [-> | [msg ->]]; intros [E | []]; injection E as <- <-;
      left; (split; [reflexivity |]); exists answer;
      (split; [reflexivity | exact Hne]).
  - intros [E | []]. injection E as <- <-. right. right. split; reflexivity.
Qed.

End ChatServer.

(** ** The further properties at sample inputs *)

Lemma main_py_readable rt :
  rt_fault rt OpRead (upload_path rt) = None -> reviewable rt Sample.main_py.
Proof.
  intros H. split; [exact H | | vm_compute; discriminate].
  intros Hb. apply trim_blank in Hb. vm_compute in Hb. discriminate Hb.
Qed.

Lemma healthy_returns rt :
  rt_backend rt = rt_backend Sample.healthy ->
  backend_returns default_env rt (Sample.review "Looks fine.").
Proof.
  intros E. exists 850. rewrite E. split; [reflexivity |].
  split; [vm_compute; reflexivity |]. split; [reflexivity | exact I].
Qed.

Lemma disk_holds_upload :
  Scenario.disk !! mf_path Scenario.stored = Some (text Sample.main_py).
Proof. apply lookup_singleton_eq. Qed.

Lemma refused_upload_is_answered_by_express_witness :
  named_files (Sample.post Sample.notes_txt) = [Sample.notes_txt]
  /\ ~ uploads (Sample.post Sample.notes_txt) Sample.notes_txt
  /\ exists e,
       upload_error e
       /\ responses (trace_of (run default_env Sample.healthy ∅
                                 (Sample.post Sample.notes_txt)))
          = [(500, ErrorPage e)].
Proof.
  assert (Hnot : ~ uploads (Sample.post Sample.notes_txt) Sample.notes_txt)
    by (intros [_ _ Ha _]; vm_compute in Ha; discriminate Ha).
  split; [reflexivity |]. split; [exact Hnot |].
  destruct (refused_upload_is_answered_by_express default_env Sample.healthy ∅
              (Sample.post Sample.notes_txt) Sample.notes_txt [] eq_refl Hnot)
    as (e & He & Hr & _).
  exists e. split; [exact He | exact Hr].
Defined.

Lemma blank_is_reported_before_size_witness :
  blank (text Scenario.blank_page)
  /\ 10000 < Js.strlen (text Scenario.blank_page)
  /\ responses (trace_of (run default_env Sample.healthy ∅
                            (Sample.post Scenario.blank_page)))
     = [(500, JsonBody (failure_body (Js.lit "File appears to be empty")
                                      (rt_clock Sample.healthy 0)))].
Proof.
  assert (Hb : blank (text Scenario.blank_page))
    by (apply trim_blank; vm_compute; reflexivity).
  assert (Hl : 10000 < Js.strlen (text Scenario.blank_page))
    by (vm_compute; reflexivity).
  split; [exact Hb |]. split; [exact Hl |].
  apply (blank_is_reported_before_size default_env Sample.healthy ∅
           (Sample.post Scenario.blank_page) Scenario.blank_page).
  - apply sample_uploads; [reflexivity | vm_compute; discriminate].
  - reflexivity.
  - exact Hb.
  - exact Hl.
Defined.

Lemma unreadable_upload_is_answered_500_witness :
  rt_fault Scenario.unreadable OpRead (upload_path Scenario.unreadable)
  = Some (Js.lit "EACCES: permission denied")
  /\ responses (trace_of (run default_env Scenario.unreadable ∅
                            (Sample.post Sample.main_py)))
     = [(500, JsonBody (failure_body (Js.lit "EACCES: permission denied")
                                      (rt_clock Scenario.unreadable 0)))]
  /\ backend_calls (trace_of (run default_env Scenario.unreadable ∅
                                (Sample.post Sample.main_py))) = [].
Proof.
  split; [reflexivity |].
  destruct (unreadable_upload_is_answered_500 default_env Scenario.unreadable ∅
              (Sample.post Sample.main_py) Sample.main_py main_py_uploads
              (Js.lit "EACCES: permission denied") eq_refl)
    as (Hr & Hc & _).
  - vm_compute. reflexivity.
  - split; [exact Hr | exact Hc].
Defined.

Lemma out_of_range_deadline_fires_at_once_witness :
  REQUEST_TIMEOUT Scenario.hasty = -5
  /\ latency (rt_backend Sample.healthy) = Some 850
  /\ responses (trace_of (run Scenario.hasty Sample.healthy ∅
                            (Sample.post Sample.main_py)))
     = [(408, JsonBody (timeout_body Scenario.hasty (rt_clock Sample.healthy 0)))].
Proof.
  assert (Hrange : REQUEST_TIMEOUT Scenario.hasty < 1
                   \/ 2147483647 < REQUEST_TIMEOUT Scenario.hasty)
    by (left; vm_compute; reflexivity).
  assert (Hl : 1 <= 850) by lia.
  split; [reflexivity |]. split; [reflexivity |].
  exact (proj1 (out_of_range_deadline_fires_at_once Scenario.hasty Sample.healthy ∅
                  (Sample.post Sample.main_py) Sample.main_py main_py_uploads 850
                  (main_py_reviewable _) Hrange eq_refl Hl)).
Defined.

Lemma network_failure_leaves_timer_armed_witness :
  backend_fails default_env Scenario.refusing
                (Js.lit "connect ECONNREFUSED 127.0.0.1:11434")
  /\ ~ In EvClearTimeout
          (trace_of (run default_env Scenario.refusing ∅ (Sample.post Sample.main_py)))
  /\ after_response
       (trace_of (run default_env Scenario.refusing ∅ (Sample.post Sample.main_py)))
     = [EvConsole (LogTimedOut (rt_clock Scenario.refusing 0)
                               (REQUEST_TIMEOUT default_env));
        EvAbort].
Proof.
  assert (Hf : backend_fails default_env Scenario.refusing
                 (Js.lit "connect ECONNREFUSED 127.0.0.1:11434")).
  { exists 12. split; [reflexivity |]. split; [vm_compute |]; reflexivity. }
  split; [exact Hf |].
  destruct (network_failure_leaves_timer_armed default_env Scenario.refusing ∅
              (Sample.post Sample.main_py) Sample.main_py main_py_uploads
              (main_py_reviewable _) _ Hf)
    as (_ & _ & _ & Hclear & Hafter).
  - vm_compute. reflexivity.
  - split; [exact Hclear | exact Hafter].
Defined.

Lemma missing_review_text_is_answered_500_witness :
  backend_returns default_env Scenario.wordless Scenario.wordless_reply
  /\ ok Scenario.wordless_reply = true
  /\ responses (trace_of (run default_env Scenario.wordless ∅
                            (Sample.post Sample.main_py)))
     = [(500, JsonBody (failure_body (Js.lit "Invalid response from Ollama API")
                                      (rt_clock Scenario.wordless 0)))].
Proof.
  assert (H : backend_returns default_env Scenario.wordless Scenario.wordless_reply).
  { exists 40. split; [reflexivity |]. split; [vm_compute; reflexivity |].
    split; [reflexivity | exact I]. }
  split; [exact H |]. split; [reflexivity |].
  exact (proj1 (missing_review_text_is_answered_500 default_env Scenario.wordless ∅
                  (Sample.post Sample.main_py) Sample.main_py main_py_uploads
                  (main_py_reviewable _) Scenario.wordless_reply H eq_refl
                  (or_introl eq_refl))).
Defined.

Lemma failed_artifact_write_loses_review_witness :
  (forall path, rt_fault Scenario.read_only OpWrite path
                = Some (Js.lit "EROFS: read-only file system"))
  /\ responses (trace_of (run default_env Scenario.read_only ∅
                            (Sample.post Sample.main_py)))
     = [(500, JsonBody (failure_body (Js.lit "EROFS: read-only file system")
                                      (rt_clock Scenario.read_only 0)))]
  /\ artifacts (trace_of (run default_env Scenario.read_only ∅
                            (Sample.post Sample.main_py))) = [].
Proof.
  split; [intros path; reflexivity |].
  destruct (failed_artifact_write_loses_review default_env Scenario.read_only ∅
              (Sample.post Sample.main_py) Sample.main_py main_py_uploads
              (main_py_readable Scenario.read_only eq_refl) (Sample.review "Looks fine.")
              (Js.lit "Looks fine.") (Js.lit "EROFS: read-only file system")
              (healthy_returns Scenario.read_only eq_refl) eq_refl eq_refl)
    as (Hr & _ & Ha & _).
  - vm_compute. discriminate.
  - reflexivity.
  - vm_compute. reflexivity.
  - split; [exact Hr | exact Ha].
Defined.

Lemma artifact_holds_full_review_witness :
  review_succeeds default_env Sample.healthy Sample.main_py
                  (Sample.review "Looks fine.") (Js.lit "Looks fine.")
  /\ exists before after,
       artifacts (trace_of (run default_env Sample.healthy ∅
                              (Sample.post Sample.main_py)))
       = [(mdPath (rt_clock Sample.healthy 3) (Js.lit "main.py"),
           before ++ Js.lit "Looks fine." ++ after)].
Proof.
  assert (H : review_succeeds default_env Sample.healthy Sample.main_py
                (Sample.review "Looks fine.") (Js.lit "Looks fine.")).
  { split; [apply main_py_reviewable | apply healthy_returns; reflexivity
            | reflexivity | reflexivity | vm_compute; discriminate
            | intros path; reflexivity]. }
  split; [exact H |].
  destruct (artifact_holds_full_review default_env Sample.healthy ∅
              (Sample.post Sample.main_py) Sample.main_py main_py_uploads
              (Sample.review "Looks fine.") (Js.lit "Looks fine.") H)
    as (content & before & after & Ha & Hc & _).
  exists before, after. rewrite <- Hc. exact Ha.
Defined.

Lemma health_reports_model_presence_witness :
  status_ok 200 = true
  /\ exists b,
       health default_env Scenario.instant (JDec 12345 3) Scenario.listing
       = Some (200, b)
       /\ oh_modelExists (hb_ollama b) = Some true.
Proof.
  split; [reflexivity |].
  destruct (health_reports_model_presence default_env Scenario.instant
              (JDec 12345 3) 200
              (Some [Some (Js.lit "llama3.2:1b"); None]) eq_refl)
    as (b & Hb & _ & _ & Hm & _).
  exists b. split; [exact Hb |]. apply Hm. left. reflexivity.
Defined.

Lemma simple_review_keeps_every_file_witness :
  Scenario.disk !! upload_path Sample.healthy = Some (text Sample.main_py)
  /\ (Simple.review Sample.healthy Scenario.disk (Some Scenario.stored)).2
     !! upload_path Sample.healthy
     = Some (text Sample.main_py).
Proof.
  assert (Hne : upload_path Sample.healthy
                <> Simple.mdPath (rt_clock Sample.healthy 0))
    by (intros E; vm_compute in E; discriminate E).
  split; [exact disk_holds_upload |].
  exact (proj2 (simple_review_keeps_every_file Sample.healthy Scenario.disk
                  (Some Scenario.stored) _ _ disk_holds_upload) Hne).
Defined.

Lemma simple_review_trusts_any_reply_witness :
  ok Scenario.grumbling_reply = false
  /\ Simple.replies
       (Simple.review Scenario.grumbling Scenario.disk (Some Scenario.stored)).1
     = [(200, Simple.success_body
                (Simple.mdPath (rt_clock Scenario.grumbling 0))
                (Js.lit "model overloaded"))].
Proof.
  split; [reflexivity |].
  destruct (simple_review_trusts_any_reply Scenario.grumbling Scenario.disk
              Scenario.stored (text Sample.main_py) 40 Scenario.grumbling_reply
              (Js.lit "model overloaded")
              disk_holds_upload eq_refl eq_refl eq_refl eq_refl eq_refl)
    as (prompt & preview & Hdone & _).
  rewrite Hdone. reflexivity.
Defined.

Lemma simple_review_leaves_undefined_artifact_witness :
  body_json Scenario.wordless_reply = Data None
  /\ Simple.replies
       (Simple.review Scenario.wordless Scenario.disk (Some Scenario.stored)).1
     = [(500, Simple.failure_body)]
  /\ Simple.written
       (Simple.review Scenario.wordless Scenario.disk (Some Scenario.stored)).1
     = [(Simple.mdPath (rt_clock Scenario.wordless 0),
         Js.lit "# File Review (LLaMA)" ++ nl ++ nl ++ Js.lit "undefined")].
Proof.
  split; [reflexivity |].
  destruct (simple_review_leaves_undefined_artifact Scenario.wordless Scenario.disk
              Scenario.stored (text Sample.main_py) 40 Scenario.wordless_reply
              disk_holds_upload eq_refl eq_refl eq_refl eq_refl eq_refl)
    as (Hr & Hw & _).
  split; [exact Hr | exact Hw].
Defined.

Lemma chat_reports_backend_failure_as_success_witness :
  settles (rt_backend Scenario.refusing)
  = Rejects (Js.lit "connect ECONNREFUSED 127.0.0.1:11434")
  /\ Chat.replies (Chat.chat default_env Scenario.instant
                             (rt_backend Scenario.refusing)
                             (Some Scenario.greeting))
     = [(200, Chat.success_body Chat.apology Scenario.instant)].
Proof.
  assert (Hl : 12 < Chat.chat_timeout) by (vm_compute; reflexivity).
  split; [reflexivity |].
  exact (proj1 (chat_reports_backend_failure_as_success default_env Scenario.instant
                  (rt_backend Scenario.refusing) Scenario.greeting 12
                  eq_refl eq_refl Hl
                  (or_introl (ex_intro _ _ eq_refl)))).
Defined.

Lemma chat_timeout_does_not_cancel_call_witness :
  latency Scenario.sluggish = Some 120001
  /\ Chat.replies (Chat.chat default_env Scenario.instant Scenario.sluggish
                             (Some Scenario.greeting))
     = [(500, Chat.failure_body)]
  /\ exists before,
       Chat.chat default_env Scenario.instant Scenario.sluggish
                 (Some Scenario.greeting)
       = before ++ [Chat.Respond 500 Chat.failure_body; Chat.LogResponded].
Proof.
  split; [reflexivity |].
  destruct (chat_timeout_does_not_cancel_call default_env Scenario.instant
              Scenario.sluggish Scenario.greeting eq_refl)
    as (Hr & _ & Hlate).
  - right. left. exists 120001. split; reflexivity.
  - split; [exact Hr |]. exact (Hlate 120001 _ _ eq_refl eq_refl).
Defined.

Lemma chat_answer_is_never_empty_witness :
  exists text,
    In (200, Chat.success_body text Scenario.instant)
       (Chat.replies (Chat.chat default_env Scenario.instant
                                (rt_backend Sample.healthy)
                                (Some Scenario.greeting)))
    /\ text <> [].
Proof.
  assert (Hin : In (200, Chat.success_body (Js.lit "Looks fine.") Scenario.instant)
                   (Chat.replies (Chat.chat default_env Scenario.instant
                                            (rt_backend Sample.healthy)
                                            (Some Scenario.greeting))))
    by (left; reflexivity).
  exists (Js.lit "Looks fine."). split; [exact Hin |].
  destruct (chat_answer_is_never_empty default_env Scenario.instant
              (rt_backend Sample.healthy) (Some Scenario.greeting) _ _ Hin)
    as [(_ & text & E & Hne) | [(E & _) | (E & _)]].
  - injection E as <-. exact Hne.
  - discriminate E.
  - discriminate E.
Defined.

(** A backend that sends its headers in time and never completes the
    body: the handler waits for ever, no reply is sent and the upload
    stays on the disk; the single-step server and the start-up check
    wait in the same way, and the chat server's timer answers 500. *)
Example stalled_body :
  fst (run default_env Scenario.stalling ∅ (Sample.post Sample.main_py)) = Hangs
  /\ responses (trace_of (run default_env Scenario.stalling ∅
                            (Sample.post Sample.main_py))) = []
  /\ fs_of (run default_env Scenario.stalling ∅ (Sample.post Sample.main_py))
     !! upload_path Scenario.stalling = Some (text Sample.main_py)
  /\ Simple.answers
       (Simple.route Scenario.stalling ∅ (Sample.post Sample.main_py)).1 = []
  /\ ck_result (testOllamaConnection default_env (rt_clock Scenario.stalling)
                                     Scenario.listing
                                     (rt_backend Scenario.stalling)) = None
  /\ Chat.replies (Chat.chat default_env Scenario.instant
                             (rt_backend Scenario.stalling)
                             (Some Scenario.greeting))
     = [(500, Chat.failure_body)].
Proof. repeat split; vm_compute; reflexivity. Qed.
